(** * InkyPi playlist model: a shallow embedding of [src/model.py]

    The development follows the three classes of the module:
    [PluginInstance], [Playlist] and [PlaylistManager].  Python values are
    embedded with the types the class docstrings give them:

    - Python [int] is [Z]; [str] is [string], one [ascii] per character:
      text of code points below 256, compared by code point as Python
      compares it;
    - an exception is an explicit [Raise] result, [try]/[except] is
      [try_except];
    - attribute mutation is state passing: a method returns the updated
      object next to its result;
    - a reference to a playlist object held by the manager (the value the
      resolution cache stores and [determine_active_playlist] returns) is
      the position of that object in [playlists]. *)

From Stdlib Require Import ZArith Lia Bool Ascii String.
From stdpp Require Import base option list strings gmap.

Local Open Scope string_scope.
Local Open Scope Z_scope.

(** ** Exceptions *)

Inductive exn : Type :=
| ValueError | TypeError | KeyError | IndexError | ZeroDivisionError
| OverflowError | AttributeError.

Inductive result (A : Type) : Type :=
| Ok (a : A)
| Raise (e : exn).
Arguments Ok {A} a.
Arguments Raise {A} e.

Definition bind {A B} (r : result A) (k : A -> result B) : result B :=
  match r with
  | Ok a => k a
  | Raise e => Raise e
  end.

Notation "x <-- r ;; k" := (bind r (fun x => k))
  (at level 100, r at next level, right associativity).

(** [try: body except ValueError: handler] *)
Definition try_except_ValueError {A} (body : result A) (handler : result A)
  : result A :=
  match body with
  | Raise ValueError => handler
  | r => r
  end.

(** [try: body except Exception: handler] *)
Definition try_except {A} (body : result A) (handler : result A) : result A :=
  match body with
  | Raise _ => handler
  | r => r
  end.

Definition is_ok {A} (r : result A) : bool :=
  match r with Ok _ => true | Raise _ => false end.

(** ** JSON-like values held in the opaque fields *)

#[local] Unset Elimination Schemes.
Inductive value : Type :=
| VNone
| VBool (b : bool)
| VInt (z : Z)
| VStr (s : string)
| VList (l : list value)
| VDict (d : list (string * value)).
#[local] Set Elimination Schemes.

(** A Python [dict] with string keys, in insertion order. *)
Definition dict : Type := list (string * value).

Fixpoint dict_get (k : string) (d : dict) : option value :=
  match d with
  | [] => None
  | (k', v) :: d' => if String.eqb k k' then Some v else dict_get k d'
  end.

(** Python truthiness, [bool(v)]. *)
Definition truthy (v : value) : bool :=
  match v with
  | VNone => false
  | VBool b => b
  | VInt z => negb (z =? 0)
  | VStr s => negb (String.eqb s EmptyString)
  | VList l => match l with [] => false | _ => true end
  | VDict d => match d with [] => false | _ => true end
  end.

(** ** [datetime.time], [datetime.datetime], [timedelta] *)

Record dt_time : Type := mk_time
  { hour : Z; minute : Z; second : Z; microsecond : Z }.

(** Comparison of naive [time] objects: the tuples
    [(hour, minute, second, microsecond)] compared lexicographically. *)
Definition time_compare (a b : dt_time) : comparison :=
  match hour a ?= hour b with
  | Eq =>
      match minute a ?= minute b with
      | Eq =>
          match second a ?= second b with
          | Eq => microsecond a ?= microsecond b
          | c => c
          end
      | c => c
      end
  | c => c
  end.

Definition time_lt (a b : dt_time) : bool :=
  match time_compare a b with Lt => true | _ => false end.
Definition time_le (a b : dt_time) : bool :=
  match time_compare a b with Gt => false | _ => true end.
Definition time_gt (a b : dt_time) : bool := time_lt b a.
Definition time_ge (a b : dt_time) : bool := time_le b a.

Definition valid_time (t : dt_time) : Prop :=
  0 <= hour t < 24 /\ 0 <= minute t < 60 /\ 0 <= second t < 60 /\
  0 <= microsecond t < 1000000.

(** Microseconds since midnight. *)
Definition time_us (t : dt_time) : Z :=
  ((hour t * 60 + minute t) * 60 + second t) * 1000000 + microsecond t.

(** A naive [datetime]: the proleptic Gregorian ordinal of its date
    ([date.toordinal()]) and its time of day. *)
Record datetime : Type := mk_datetime
  { ordinal : Z; dtime : dt_time }.

Definition MINORDINAL : Z := 1.
Definition MAXORDINAL : Z := 3652059.

Definition valid_datetime (d : datetime) : Prop :=
  MINORDINAL <= ordinal d <= MAXORDINAL /\ valid_time (dtime d).

Definition datetime_lt (a b : datetime) : bool :=
  match ordinal a ?= ordinal b with
  | Lt => true
  | Eq => time_lt (dtime a) (dtime b)
  | Gt => false
  end.

(** [a - b] as a number of microseconds (a [timedelta]). *)
Definition datetime_sub (a b : datetime) : Z :=
  (ordinal a - ordinal b) * 86400000000 + (time_us (dtime a) - time_us (dtime b)).

(** [timedelta(seconds=v)]: an [int] (or [bool]) number of seconds; the
    result must stay within [timedelta.min .. timedelta.max], that is
    within 999999999 days either way. *)
Definition timedelta_seconds (v : value) : result Z :=
  let of_int (z : Z) :=
    if (-999999999 <=? z / 86400) && (z / 86400 <=? 999999999)
    then Ok (z * 1000000) else Raise OverflowError in
  match v with
  | VInt z => of_int z
  | VBool b => of_int (if b then 1 else 0)
  | _ => Raise TypeError
  end.

(** [d + timedelta(minutes=1)] *)
Definition add_minute (d : datetime) : result datetime :=
  let us := time_us (dtime d) + 60000000 in
  let o := ordinal d + us / 86400000000 in
  let r := us mod 86400000000 in
  if (MINORDINAL <=? o) && (o <=? MAXORDINAL) then
    Ok (mk_datetime o
          (mk_time (r / 3600000000) ((r / 60000000) mod 60)
                   ((r / 1000000) mod 60) (r mod 1000000)))
  else Raise OverflowError.

(** ** [strftime("%H:%M")] and [strptime(_, "%H:%M")] *)

Definition digit_char (n : Z) : ascii :=
  ascii_of_nat (Z.to_nat (48 + n mod 10)).

Definition pad2 (n : Z) : string :=
  String (digit_char (n / 10)) (String (digit_char n) EmptyString).

Definition strftime_HM (t : dt_time) : string :=
  String.append (pad2 (hour t)) (String.append ":" (pad2 (minute t))).

Definition in_range (lo hi : nat) (c : ascii) : bool :=
  let n := nat_of_ascii c in (lo <=? n)%nat && (n <=? hi)%nat.

(** [\d]: a decimal digit; below code point 256 these are "0" to "9". *)
Definition is_digit (c : ascii) : bool := in_range 48 57 c.

Definition digit_val (c : ascii) : Z := Z.of_nat (nat_of_ascii c) - 48.

Definition or_else {A} (a b : option A) : option A :=
  match a with Some _ => a | None => b end.

(** The regular expressions are those of CPython's [_strptime.TimeRE].
    The directive [%H] is [(2[0-3]|[0-1]\d|\d)]: the alternatives are
    tried in this order, and a later one is taken when the rest of the
    pattern, the continuation [k], fails after an earlier one. *)
Definition re_H {A} (s : string) (k : Z -> string -> option A) : option A :=
  or_else
    (match s with
     | String c1 (String c2 r) =>
         if Ascii.eqb c1 "2" && in_range 48 51 c2
         then k (20 + digit_val c2) r else None
     | _ => None
     end)
    (or_else
       (match s with
        | String c1 (String c2 r) =>
            if in_range 48 49 c1 && is_digit c2
            then k (10 * digit_val c1 + digit_val c2) r else None
        | _ => None
        end)
       (match s with
        | String c1 r => if is_digit c1 then k (digit_val c1) r else None
        | _ => None
        end)).

(** The directive [%M] is [([0-5]\d|\d)]. *)
Definition re_M {A} (s : string) (k : Z -> string -> option A) : option A :=
  or_else
    (match s with
     | String c1 (String c2 r) =>
         if in_range 48 53 c1 && is_digit c2
         then k (10 * digit_val c1 + digit_val c2) r else None
     | _ => None
     end)
    (match s with
     | String c1 r => if is_digit c1 then k (digit_val c1) r else None
     | _ => None
     end).

Definition re_colon {A} (s : string) (k : string -> option A) : option A :=
  match s with
  | String c r => if Ascii.eqb c ":" then k r else None
  | _ => None
  end.

(** [re.match] of the compiled format ["%H:%M"]: the first match in the
    order above, with the text left over after it. *)
Definition match_HM (s : string) : option (Z * Z * string) :=
  re_H s (fun h s1 => re_colon s1 (fun s2 =>
    re_M s2 (fun m rest => Some (h, m, rest)))).

(** [datetime.strptime(s, "%H:%M").time()]: [ValueError] when the format
    does not match or when text remains after the match. *)
Definition strptime_HM (s : string) : result dt_time :=
  match match_HM s with
  | Some (h, m, EmptyString) => Ok (mk_time h m 0 0)
  | _ => Raise ValueError
  end.

(** [datetime.strptime(s, "%H:%M")]: the date defaults to 1900-01-01. *)
Definition ORDINAL_1900_01_01 : Z := 693596.

Definition strptime_HM_datetime (s : string) : result datetime :=
  t <-- strptime_HM s ;; Ok (mk_datetime ORDINAL_1900_01_01 t).

(** [datetime.fromisoformat] is the standard library's parser of ISO-8601
    text.  The model takes it as an interface: nothing below depends on
    which texts it accepts, only on the naive [datetime] it returns or the
    [ValueError] it raises. *)
Class DatetimeLib : Type :=
  { fromisoformat : string -> result datetime }.

(** ** class PluginInstance *)

Module PluginInstance.

Record t : Type := mk
  { plugin_id : string;
    name : string;
    settings : value;
    refresh : dict;
    latest_refresh_time : option string }.

(** [setattr(self, key, value)] where the result is again a value of the
    typed record: [key] is one of the five attributes the class declares
    and [value] has the declared type.  For any other key or value the
    result is [None]: Python stores every key and value, and what the
    object then is (another attribute, a replaced method, a replaced
    [__dict__], a field of another type) the record cannot express. *)
Definition setattr (self : t) (key : string) (v : value) : option t :=
  if String.eqb key "plugin_id" then
    match v with
    | VStr s => Some (mk s (name self) (settings self) (refresh self)
                         (latest_refresh_time self))
    | _ => None
    end
  else if String.eqb key "name" then
    match v with
    | VStr s => Some (mk (plugin_id self) s (settings self) (refresh self)
                         (latest_refresh_time self))
    | _ => None
    end
  else if String.eqb key "settings" then
    Some (mk (plugin_id self) (name self) v (refresh self)
             (latest_refresh_time self))
  else if String.eqb key "refresh" then
    match v with
    | VDict d => Some (mk (plugin_id self) (name self) (settings self) d
                          (latest_refresh_time self))
    | _ => None
    end
  else if String.eqb key "latest_refresh_time" then
    match v with
    | VStr s => Some (mk (plugin_id self) (name self) (settings self)
                         (refresh self) (Some s))
    | VNone => Some (mk (plugin_id self) (name self) (settings self)
                        (refresh self) None)
    | _ => None
    end
  else None.

(** [update]: the items are set in the order of the dictionary; [None]
    as for [setattr]. *)
Fixpoint update (self : t) (updated_data : dict) : option t :=
  match updated_data with
  | [] => Some self
  | (key, v) :: rest =>
      match setattr self key v with
      | Some self' => update self' rest
      | None => None
      end
  end.

Definition to_dict (self : t) : value :=
  VDict
    [ ("plugin_id", VStr (plugin_id self));
      ("name", VStr (name self));
      ("plugin_settings", settings self);
      ("refresh", VDict (refresh self));
      ("latest_refresh_time",
        match latest_refresh_time self with
        | Some s => VStr s
        | None => VNone
        end) ].

(** [data[key]]: [KeyError] when the key is missing, [TypeError] when
    [data] is not a dict. *)
Definition subscript (data : value) (key : string) : result value :=
  match data with
  | VDict d =>
      match dict_get key d with
      | Some v => Ok v
      | None => Raise KeyError
      end
  | _ => Raise TypeError
  end.

(** [data.get(key)] *)
Definition get (data : value) (key : string) : result value :=
  match data with
  | VDict d => Ok (default VNone (dict_get key d))
  | _ => Raise AttributeError
  end.

Definition as_str (v : value) : result string :=
  match v with VStr s => Ok s | _ => Raise TypeError end.

Definition as_dict (v : value) : result dict :=
  match v with VDict d => Ok d | _ => Raise TypeError end.

Definition as_opt_str (v : value) : result (option string) :=
  match v with
  | VStr s => Ok (Some s)
  | VNone => Ok None
  | _ => Raise TypeError
  end.

(** The fields are read in the order of the keyword arguments; a field of
    another type than the declared one is a [TypeError] of the typed
    record. *)
Definition from_dict (data : value) : result t :=
  v_id <-- subscript data "plugin_id" ;;
  v_name <-- subscript data "name" ;;
  v_settings <-- subscript data "plugin_settings" ;;
  v_refresh <-- subscript data "refresh" ;;
  v_latest <-- get data "latest_refresh_time" ;;
  i <-- as_str v_id ;;
  n <-- as_str v_name ;;
  r <-- as_dict v_refresh ;;
  l <-- as_opt_str v_latest ;;
  Ok (mk i n v_settings r l).

Section WithDatetimeLib.
Context `{DatetimeLib}.

Definition get_latest_refresh_dt (self : t) : result (option datetime) :=
  match latest_refresh_time self with
  | Some s =>
      if String.eqb s EmptyString then Ok None
      else d <-- fromisoformat s ;; Ok (Some d)
  | None => Ok None
  end.

(** The three tests of [should_refresh] that follow the check for a
    missing last refresh, each [Ok true] where the source returns
    [True]. *)
Definition interval_due (self : t) (latest current_time : datetime)
  : result bool :=
  match dict_get "interval" (refresh self) with
  | Some interval =>
      if truthy interval then
        let elapsed := datetime_sub current_time latest in
        td <-- timedelta_seconds interval ;;
        Ok (td <=? elapsed)
      else Ok false
  | None => Ok false
  end.

Definition scheduled_string_due (self : t) (latest : datetime)
  : result bool :=
  match dict_get "scheduled" (refresh self) with
  | Some scheduled_time_str =>
      let latest_refresh_str := strftime_HM (dtime latest) in
      match scheduled_time_str with
      | VStr s => Ok (String.ltb latest_refresh_str s)
      | _ => Raise TypeError
      end
  | None => Ok false
  end.

Definition scheduled_crossed (self : t) (latest current_time : datetime)
  : result bool :=
  match dict_get "scheduled" (refresh self) with
  | Some scheduled_time_str =>
      s <-- as_str scheduled_time_str ;;
      scheduled_time <-- strptime_HM s ;;
      let latest_refresh_date := ordinal latest in
      let current_date := ordinal current_time in
      Ok ((latest_refresh_date <? current_date)
            && time_ge (dtime current_time) scheduled_time
          || (latest_refresh_date =? current_date)
               && (time_lt (dtime latest) scheduled_time
                   && time_le scheduled_time (dtime current_time)))
  | None => Ok false
  end.

Definition should_refresh (self : t) (current_time : datetime)
  : result bool :=
  latest_refresh_dt <-- get_latest_refresh_dt self ;;
  match latest_refresh_dt with
  | None => Ok true
  | Some latest =>
      by_interval <-- interval_due self latest current_time ;;
      if by_interval then Ok true else
      by_string <-- scheduled_string_due self latest ;;
      if by_string then Ok true else
      by_crossing <-- scheduled_crossed self latest current_time ;;
      if by_crossing then Ok true else Ok false
  end.
End WithDatetimeLib.

(** [s.replace(a, b)] for one-character [a] and [b]. *)
Fixpoint replace_char (a b : ascii) (s : string) : string :=
  match s with
  | EmptyString => EmptyString
  | String c r =>
      String (if Ascii.eqb c a then b else c) (replace_char a b r)
  end.

(** [f"{self.plugin_id}_{self.name.replace(' ', '_')}.png"] *)
Definition get_image_path (self : t) : string :=
  String.append (plugin_id self)
    (String.append "_"
       (String.append (replace_char " " "_" (name self)) ".png")).

End PluginInstance.

(** ** Lists *)

(** [l[i]] for a Python [int] index: a negative index counts from the end,
    an index out of range raises [IndexError]. *)
Definition py_index {A} (l : list A) (i : Z) : result A :=
  let n := Z.of_nat (length l) in
  let j := if i <? 0 then i + n else i in
  if (0 <=? j) && (j <? n) then
    match l !! Z.to_nat j with
    | Some x => Ok x
    | None => Raise IndexError
    end
  else Raise IndexError.

(** A list comprehension whose element expression may raise. *)
Fixpoint mapM {A B} (f : A -> result B) (l : list A) : result (list B) :=
  match l with
  | [] => Ok []
  | x :: l' => y <-- f x ;; ys <-- mapM f l' ;; Ok (y :: ys)
  end.

(** Position of the first element that satisfies [f]. *)
Fixpoint find_index {A} (f : A -> bool) (l : list A) : option nat :=
  match l with
  | [] => None
  | x :: l' => if f x then Some 0%nat else S <$> find_index f l'
  end.

(** ** class Playlist *)

Module Playlist.

Record t : Type := mk
  { name : string;
    start_time : string;
    end_time : string;
    plugins : list PluginInstance.t;
    current_plugin_index : option Z }.

Definition set_plugins (self : t) (ps : list PluginInstance.t) : t :=
  mk (name self) (start_time self) (end_time self) ps
     (current_plugin_index self).

Definition set_current_plugin_index (self : t) (i : option Z) : t :=
  mk (name self) (start_time self) (end_time self) (plugins self) i.

(** [__init__]: [plugins or []] is iterated and every element goes
    through [PluginInstance.from_dict]. *)
Definition init (name start_time end_time : string) (plugins : value)
    (current_plugin_index : option Z) : result t :=
  ps <-- (if truthy plugins then
            match plugins with
            | VList l => mapM PluginInstance.from_dict l
            | _ => Raise TypeError
            end
          else Ok []) ;;
  Ok (mk name start_time end_time ps current_plugin_index).

(** The end of the window as [is_active] reads it: ["24:00"] stands for
    the last instant of the day. *)
Definition end_instant (self : t) : result dt_time :=
  if String.eqb (end_time self) "24:00"
  then Ok (mk_time 23 59 59 999999)
  else strptime_HM (end_time self).

Definition is_active (self : t) (current_time : string) : result bool :=
  try_except_ValueError
    (current_dt <-- strptime_HM current_time ;;
     start_dt <-- strptime_HM (start_time self) ;;
     end_dt <-- end_instant self ;;
     if time_gt start_dt end_dt then
       Ok (time_ge current_dt start_dt || time_lt current_dt end_dt)
     else
       Ok (time_le start_dt current_dt && time_lt current_dt end_dt))
    (Ok false).

Definition matches (plugin_id name : string) (p : PluginInstance.t) : bool :=
  String.eqb (PluginInstance.plugin_id p) plugin_id
  && String.eqb (PluginInstance.name p) name.

Definition find_plugin (self : t) (plugin_id name : string)
  : option PluginInstance.t :=
  List.find (matches plugin_id name) (plugins self).

(** [plugin_data["plugin_id"]] and [plugin_data["name"]] are any values;
    one that is not a string equals no stored identifier. *)
Definition add_plugin (self : t) (plugin_data : value) : t * result bool :=
  match PluginInstance.subscript plugin_data "plugin_id" with
  | Raise e => (self, Raise e)
  | Ok v_id =>
      match PluginInstance.subscript plugin_data "name" with
      | Raise e => (self, Raise e)
      | Ok v_name =>
          let found :=
            match v_id, v_name with
            | VStr i, VStr n => find_plugin self i n
            | _, _ => None
            end in
          match found with
          | Some _ => (self, Ok false)
          | None =>
              match PluginInstance.from_dict plugin_data with
              | Raise e => (self, Raise e)
              | Ok p => (set_plugins self (plugins self ++ [p]), Ok true)
              end
          end
      end
  end.

(** The instance found is updated in place, so the list holds the
    updated object at the same position.  The result is [None] when that
    of [PluginInstance.update] is. *)
Definition update_plugin (self : t) (plugin_id instance_name : string)
    (updated_data : dict) : option (t * bool) :=
  match find_index (matches plugin_id instance_name) (plugins self) with
  | Some i =>
      match plugins self !! i with
      | Some plugin =>
          match PluginInstance.update plugin updated_data with
          | Some plugin' =>
              Some (set_plugins self (<[i := plugin']> (plugins self)), true)
          | None => None
          end
      | None => Some (self, false)
      end
  | None => Some (self, false)
  end.

Definition delete_plugin (self : t) (plugin_id name : string) : t * bool :=
  let initial_count := length (plugins self) in
  let self' :=
    set_plugins self
      (List.filter (fun p => negb (matches plugin_id name p)) (plugins self)) in
  if (length (plugins self') =? initial_count)%nat then (self', false)
  else (self', true).

Definition get_next_plugin (self : t) : t * result PluginInstance.t :=
  let advanced :=
    match current_plugin_index self with
    | None => Ok 0
    | Some c =>
        let n := Z.of_nat (length (plugins self)) in
        if n =? 0 then Raise ZeroDivisionError else Ok ((c + 1) mod n)
    end in
  match advanced with
  | Raise e => (self, Raise e)
  | Ok i =>
      let self' := set_current_plugin_index self (Some i) in
      (self', py_index (plugins self') i)
  end.

Definition get_time_range_minutes (self : t) : result Z :=
  start <-- strptime_HM_datetime (start_time self) ;;
  end_ <-- (if negb (String.eqb (end_time self) "24:00")
            then strptime_HM_datetime (end_time self)
            else
              e <-- strptime_HM_datetime "00:00" ;;
              Ok (mk_datetime (ordinal e + 1) (dtime e))) ;;
  (* int((end - start).total_seconds() // 60) *)
  Ok ((datetime_sub end_ start / 1000000) / 60).

Definition get_priority (self : t) : result Z :=
  get_time_range_minutes self.

Definition to_dict (self : t) : value :=
  VDict
    [ ("name", VStr (name self));
      ("start_time", VStr (start_time self));
      ("end_time", VStr (end_time self));
      ("plugins", VList (map PluginInstance.to_dict (plugins self)));
      ("current_plugin_index",
        match current_plugin_index self with
        | Some i => VInt i
        | None => VNone
        end) ].

Definition as_opt_int (v : value) : result (option Z) :=
  match v with
  | VInt i => Ok (Some i)
  | VNone => Ok None
  | _ => Raise TypeError
  end.

Definition from_dict (data : value) : result t :=
  v_name <-- PluginInstance.subscript data "name" ;;
  v_start <-- PluginInstance.subscript data "start_time" ;;
  v_end <-- PluginInstance.subscript data "end_time" ;;
  v_plugins <-- PluginInstance.subscript data "plugins" ;;
  v_index <-- PluginInstance.get data "current_plugin_index" ;;
  n <-- PluginInstance.as_str v_name ;;
  s <-- PluginInstance.as_str v_start ;;
  e <-- PluginInstance.as_str v_end ;;
  i <-- as_opt_int v_index ;;
  init n s e v_plugins i.

Section WithDatetimeLib.
Context `{DatetimeLib}.

(** [plugin.should_refresh(current_dt) or global_should_refresh]: the
    method is called first, so its exception is raised even when the
    override holds. *)
Definition needs_refresh (current_dt : datetime)
    (global_should_refresh : bool) (plugin : PluginInstance.t)
  : result bool :=
  due <-- PluginInstance.should_refresh plugin current_dt ;;
  Ok (due || global_should_refresh).

(** The loop [for i in range(len(self.plugins))], over the offsets
    [offsets] still to visit: the index of the first plugin that needs
    a refresh, with that plugin. *)
Fixpoint scan (self : t) (current_dt : datetime)
    (global_should_refresh : bool) (start_index : Z) (offsets : list nat)
  : result (option (Z * PluginInstance.t)) :=
  match offsets with
  | [] => Ok None
  | i :: rest =>
      let index :=
        (start_index + Z.of_nat i) mod Z.of_nat (length (plugins self)) in
      plugin <-- py_index (plugins self) index ;;
      b <-- needs_refresh current_dt global_should_refresh plugin ;;
      if b then Ok (Some (index, plugin))
      else scan self current_dt global_should_refresh start_index rest
  end.

Definition scan_all (self : t) (current_dt : datetime)
    (global_should_refresh : bool) : t * result (option PluginInstance.t) :=
  let start_index :=
    match current_plugin_index self with
    | Some c => c + 1
    | None => 0
    end in
  match scan self current_dt global_should_refresh start_index
          (seq 0 (length (plugins self))) with
  | Raise e => (self, Raise e)
  | Ok None => (self, Ok None)
  | Ok (Some (index, plugin)) =>
      (set_current_plugin_index self (Some index), Ok (Some plugin))
  end.

Definition find_plugin_to_refresh (self : t) (current_dt : datetime)
    (global_should_refresh : bool) : t * result (option PluginInstance.t) :=
  match plugins self with
  | [] => (self, Ok None)
  | _ =>
      (* the test of the plugin at the cursor; [None] when the cursor is
         unset or out of range, or when that plugin needs no refresh *)
      let at_cursor : result (option PluginInstance.t) :=
        match current_plugin_index self with
        | Some c =>
            if (0 <=? c) && (c <? Z.of_nat (length (plugins self))) then
              current_plugin <-- py_index (plugins self) c ;;
              b <-- needs_refresh current_dt global_should_refresh
                      current_plugin ;;
              Ok (if b then Some current_plugin else None)
            else Ok None
        | None => Ok None
        end in
      match at_cursor with
      | Raise e => (self, Raise e)
      | Ok (Some current_plugin) => (self, Ok (Some current_plugin))
      | Ok None => scan_all self current_dt global_should_refresh
      end
  end.
End WithDatetimeLib.

End Playlist.

(** ** Sorting by the key [(get_priority(), name)] *)

Definition sort_key : Type := (Z * string)%type.

(** Python's [<] on the key tuples: the first components that differ
    decide. *)
Definition key_lt (a b : sort_key) : bool :=
  (a.1 <? b.1) || ((a.1 =? b.1) && String.ltb a.2 b.2).

(** [list.sort(key=...)] is stable and compares with [<] only; a stable
    sort has one possible result, the one this insertion sort computes. *)
Fixpoint insert_by_key {A} (x : sort_key * A) (l : list (sort_key * A))
  : list (sort_key * A) :=
  match l with
  | [] => [x]
  | y :: l' =>
      if key_lt y.1 x.1 then y :: insert_by_key x l' else x :: y :: l'
  end.

Definition sort_by_key {A} (l : list (sort_key * A)) : list (sort_key * A) :=
  foldr insert_by_key [] l.

(** The argument of [determine_active_playlist]: a [datetime], a
    [datetime.time] (which has [strftime] too, and no date), or an object
    without a [strftime] attribute.  A [datetime.date] is left out: after
    a call with one the expiry would be a date, which the field
    [_cache_expiry] of the typed record cannot hold. *)
Inductive pyobj : Type :=
| ODatetime (d : datetime)
| OTime (t : dt_time)
| ONone
| OStr (s : string)
| OInt (z : Z).

(** [hasattr(x, 'strftime')] *)
Definition has_strftime (x : pyobj) : bool :=
  match x with
  | ODatetime _ | OTime _ => true
  | ONone | OStr _ | OInt _ => false
  end.

(** ** class PlaylistManager *)

Module PlaylistManager.

Definition DEFAULT_PLAYLIST_START : string := "00:00".
Definition DEFAULT_PLAYLIST_END : string := "24:00".

(** A playlist object is referred to by its position in [playlists];
    the cache maps the key ["HH:MM"] to such a reference or to [None]. *)
Record t : Type := mk
  { playlists : list Playlist.t;
    _active_playlist_cache : gmap string (option nat);
    _cache_expiry : option datetime }.

(** [__init__] *)
Definition init (playlists : list Playlist.t) : t := mk playlists ∅ None.

Definition get_playlist_names (self : t) : list string :=
  map Playlist.name (playlists self).

Definition add_default_playlist (self : t) : t :=
  mk (playlists self
        ++ [Playlist.mk "Default" DEFAULT_PLAYLIST_START
              DEFAULT_PLAYLIST_END [] None])
     (_active_playlist_cache self) (_cache_expiry self).

Definition invalidate_cache (self : t) : t :=
  mk (playlists self) ∅ None.

(** The reference to the first playlist with this name. *)
Definition get_playlist (self : t) (playlist_name : string) : option nat :=
  find_index (fun p => String.eqb (Playlist.name p) playlist_name)
    (playlists self).

(** A method call on the playlist object at position [i]: the object is
    mutated in place, nothing else of the manager is touched. *)
Definition set_playlist (self : t) (i : nat) (p : Playlist.t) : t :=
  mk (<[i := p]> (playlists self)) (_active_playlist_cache self)
     (_cache_expiry self).

Definition add_plugin_to_playlist (self : t) (playlist_name : string)
    (plugin_data : value) : t * result bool :=
  match get_playlist self playlist_name with
  | Some i =>
      match playlists self !! i with
      | Some playlist =>
          match Playlist.add_plugin playlist plugin_data with
          | (playlist', Ok true) =>
              (invalidate_cache (set_playlist self i playlist'), Ok true)
          | (playlist', r) => (set_playlist self i playlist', r)
          end
      | None => (self, Ok false)
      end
  | None => (self, Ok false)
  end.

(** [start_time] and [end_time] default to [None]; a falsy value is
    replaced by the default. *)
Definition add_playlist (self : t) (name : string)
    (start_time end_time : option string) : t * bool :=
  let or_default (o : option string) (d : string) :=
    match o with
    | Some s => if String.eqb s EmptyString then d else s
    | None => d
    end in
  let start_time := or_default start_time DEFAULT_PLAYLIST_START in
  let end_time := or_default end_time DEFAULT_PLAYLIST_END in
  (invalidate_cache
     (mk (playlists self ++ [Playlist.mk name start_time end_time [] None])
         (_active_playlist_cache self) (_cache_expiry self)),
   true).

Definition update_playlist (self : t) (old_name new_name : string)
    (start_time end_time : string) : t * bool :=
  match get_playlist self old_name with
  | Some i =>
      match playlists self !! i with
      | Some playlist =>
          let playlist' :=
            Playlist.mk new_name start_time end_time
              (Playlist.plugins playlist)
              (Playlist.current_plugin_index playlist) in
          (invalidate_cache (set_playlist self i playlist'), true)
      | None => (self, false)
      end
  | None => (self, false)
  end.

Definition delete_playlist (self : t) (name : string) : t :=
  invalidate_cache
    (mk (List.filter (fun p => negb (String.eqb (Playlist.name p) name))
           (playlists self))
        (_active_playlist_cache self) (_cache_expiry self)).

Definition to_dict (self : t) : value :=
  VDict [ ("playlists", VList (map Playlist.to_dict (playlists self))) ].

Definition from_dict (data : value) : result t :=
  match data with
  | VDict d =>
      match default (VList []) (dict_get "playlists" d) with
      | VList l => ps <-- mapM Playlist.from_dict l ;; Ok (init ps)
      | VNone | VBool _ | VInt _ => Raise TypeError
      | VStr s => if String.eqb s EmptyString then Ok (init []) else Raise TypeError
      | VDict [] => Ok (init [])
      | VDict _ => Raise TypeError
      end
  | _ => Raise AttributeError
  end.

(** The test of the filtering loop,
    [playlist.is_active(current_time) and playlist.plugins], with the
    loop's [except Exception: continue]. *)
Definition qualifies (current_time : string) (playlist : Playlist.t) : bool :=
  match
    try_except
      (b <-- Playlist.is_active playlist current_time ;;
       Ok (b && match Playlist.plugins playlist with
                | [] => false
                | _ => true
                end))
      (Ok false)
  with
  | Ok b => b
  | Raise _ => false
  end.

Definition keyed (ip : nat * Playlist.t) : result (sort_key * (nat * Playlist.t)) :=
  priority <-- Playlist.get_priority ip.2 ;;
  Ok ((priority, Playlist.name ip.2), ip).

Definition _calculate_active_playlist (self : t) (current_datetime : datetime)
  : result (option nat) :=
  match playlists self with
  | [] => Ok None
  | _ =>
      let current_time := strftime_HM (dtime current_datetime) in
      let active_playlists :=
        List.filter (fun ip => qualifies current_time ip.2)
          (imap (fun i p => (i, p)) (playlists self)) in
      match active_playlists with
      | [] => Ok None
      | first :: _ =>
          try_except
            (keys <-- mapM keyed active_playlists ;;
             Ok (fst <$> (snd <$> head (sort_by_key keys))))
            (Ok (Some first.1))
      end
  end.

Definition determine_active_playlist (self : t) (current_datetime : pyobj)
  : t * result (option nat) :=
  if negb (has_strftime current_datetime) then (self, Ok None) else
  match current_datetime with
  | ODatetime now =>
      let cache_key := strftime_HM (dtime now) in
      let hit :=
        match _cache_expiry self with
        | Some expiry =>
            if datetime_lt now expiry
            then _active_playlist_cache self !! cache_key
            else None
        | None => None
        end in
      match hit with
      | Some cached_playlist => (self, Ok cached_playlist)
      | None =>
          match _calculate_active_playlist self now with
          | Raise e => (self, Raise e)
          | Ok active_playlist =>
              let cache := {[ cache_key := active_playlist ]} in
              match add_minute now with
              | Ok expiry =>
                  (mk (playlists self) cache (Some expiry),
                   Ok active_playlist)
              | Raise e =>
                  (mk (playlists self) cache (_cache_expiry self), Raise e)
              end
          end
      end
  | OTime t =>
      (* [strftime] works on a time.  With an expiry set, the comparison
         [time < datetime] raises [TypeError].  Without one the playlist is
         computed ([_calculate_active_playlist] reads its argument through
         [strftime("%H:%M")] only, which is that of any datetime with this
         time of day) and stored, and then [time + timedelta] raises
         [TypeError]. *)
      let cache_key := strftime_HM t in
      match _cache_expiry self with
      | Some _ => (self, Raise TypeError)
      | None =>
          match _calculate_active_playlist self (mk_datetime MINORDINAL t) with
          | Raise e => (self, Raise e)
          | Ok active_playlist =>
              (mk (playlists self) {[ cache_key := active_playlist ]}
                 (_cache_expiry self),
               Raise TypeError)
          end
      end
  | ONone | OStr _ | OInt _ => (self, Ok None)
  end.

Definition get_active_playlist_name (self : t) (current_datetime : datetime)
  : t * result (option string) :=
  match determine_active_playlist self (ODatetime current_datetime) with
  | (self', Ok (Some i)) =>
      (self', Ok (Playlist.name <$> playlists self' !! i))
  | (self', Ok None) => (self', Ok None)
  | (self', Raise e) => (self', Raise e)
  end.

(** The loop of [find_plugin] over the playlists still to visit. *)
Fixpoint find_plugin_in (playlists : list Playlist.t)
    (plugin_id instance : string) : option PluginInstance.t :=
  match playlists with
  | [] => None
  | playlist :: rest =>
      match Playlist.find_plugin playlist plugin_id instance with
      | Some plugin => Some plugin
      | None => find_plugin_in rest plugin_id instance
      end
  end.

Definition find_plugin (self : t) (plugin_id instance : string)
  : option PluginInstance.t :=
  find_plugin_in (playlists self) plugin_id instance.

(** The static method [should_refresh(latest_refresh, interval_seconds,
    current_time)]; [latest_refresh] is a datetime or [None]. *)
Definition should_refresh (latest_refresh : option datetime)
    (interval_seconds : value) (current_time : datetime) : result bool :=
  match latest_refresh with
  | None => Ok true
  | Some latest =>
      let elapsed := datetime_sub current_time latest in
      td <-- timedelta_seconds interval_seconds ;;
      Ok (td <=? elapsed)
  end.

End PlaylistManager.

(** ** class RefreshInfo

    The attributes are stored and returned as they are given, so each is
    any value. *)

Module RefreshInfo.

Record t : Type := mk
  { refresh_time : value;
    image_hash : value;
    refresh_type : value;
    plugin_id : value;
    playlist : value;
    plugin_instance : value }.

(** [__init__(refresh_type, plugin_id, refresh_time, image_hash,
    playlist=None, plugin_instance=None)] *)
Definition init (refresh_type plugin_id refresh_time image_hash : value)
    (playlist plugin_instance : option value) : t :=
  mk refresh_time image_hash refresh_type plugin_id
     (default VNone playlist) (default VNone plugin_instance).

Definition get_refresh_datetime `{DatetimeLib} (self : t)
  : result (option datetime) :=
  if truthy (refresh_time self) then
    match refresh_time self with
    | VStr s => d <-- fromisoformat s ;; Ok (Some d)
    | _ => Raise TypeError
    end
  else Ok None.

Definition to_dict (self : t) : value :=
  VDict
    ([ ("refresh_time", refresh_time self);
       ("image_hash", image_hash self);
       ("refresh_type", refresh_type self);
       ("plugin_id", plugin_id self) ]
     ++ (if truthy (playlist self) then [("playlist", playlist self)] else [])
     ++ (if truthy (plugin_instance self)
         then [("plugin_instance", plugin_instance self)] else [])).

Definition from_dict (data : value) : result t :=
  v_time <-- PluginInstance.get data "refresh_time" ;;
  v_hash <-- PluginInstance.get data "image_hash" ;;
  v_type <-- PluginInstance.get data "refresh_type" ;;
  v_id <-- PluginInstance.get data "plugin_id" ;;
  v_playlist <-- PluginInstance.get data "playlist" ;;
  v_instance <-- PluginInstance.get data "plugin_instance" ;;
  Ok (mk v_time v_hash v_type v_id v_playlist v_instance).

End RefreshInfo.

(** ** A parser to instantiate [DatetimeLib] in the examples

    It accepts the text [datetime.isoformat()] prints for a naive datetime
    with whole seconds, [YYYY-MM-DDTHH:MM:SS], and returns what
    [datetime.fromisoformat] returns on it. *)

Fixpoint read_digits (n : nat) (s : string) (acc : Z) : option (Z * string) :=
  match n with
  | O => Some (acc, s)
  | S n' =>
      match s with
      | String c r =>
          if is_digit c then read_digits n' r (10 * acc + digit_val c) else None
      | EmptyString => None
      end
  end.

Definition expect (c : ascii) (s : string) : option string :=
  match s with
  | String c' r => if Ascii.eqb c c' then Some r else None
  | EmptyString => None
  end.

Definition is_leap (y : Z) : bool :=
  (y mod 4 =? 0) && (negb (y mod 100 =? 0) || (y mod 400 =? 0)).

Definition days_before_year (y : Z) : Z :=
  (y - 1) * 365 + (y - 1) / 4 - (y - 1) / 100 + (y - 1) / 400.

Definition days_in_month (y m : Z) : Z :=
  if m =? 2 then (if is_leap y then 29 else 28)
  else if (m =? 4) || (m =? 6) || (m =? 9) || (m =? 11) then 30 else 31.

Fixpoint days_before_month (y : Z) (m : nat) : Z :=
  match m with
  | O | S O => 0
  | S m' => days_before_month y m' + days_in_month y (Z.of_nat m')
  end.

Definition ymd2ord (y m d : Z) : Z :=
  days_before_year y + days_before_month y (Z.to_nat m) + d.

Definition iso_seconds (s : string) : result datetime :=
  let parsed :=
    '(y, s) ← read_digits 4 s 0;
    s ← expect "-" s;
    '(mo, s) ← read_digits 2 s 0;
    s ← expect "-" s;
    '(d, s) ← read_digits 2 s 0;
    s ← expect "T" s;
    '(h, s) ← read_digits 2 s 0;
    s ← expect ":" s;
    '(mi, s) ← read_digits 2 s 0;
    s ← expect ":" s;
    '(se, s) ← read_digits 2 s 0;
    if String.eqb s EmptyString then Some (y, mo, d, h, mi, se) else None in
  match parsed with
  | Some (y, mo, d, h, mi, se) =>
      if (1 <=? y) && (1 <=? mo) && (mo <=? 12) && (1 <=? d)
         && (d <=? days_in_month y mo) && (h <=? 23) && (mi <=? 59)
         && (se <=? 59)
      then Ok (mk_datetime (ymd2ord y mo d) (mk_time h mi se 0))
      else Raise ValueError
  | None => Raise ValueError
  end.

Definition iso_seconds_lib : DatetimeLib := {| fromisoformat := iso_seconds |}.

(** ** Predicates used in the statements *)

(** [a <= b] on keys: [b] is not below [a]. *)
Definition key_le (a b : sort_key) : Prop := key_lt b a = false.

(** The cache is coherent when every entry holds what the uncached
    computation returns, on the present playlists, for a timestamp with the
    entry's key. *)
Definition cache_coherent (self : PlaylistManager.t) : Prop :=
  forall (now : datetime) (cached : option nat),
    PlaylistManager._active_playlist_cache self !! strftime_HM (dtime now)
    = Some cached ->
    PlaylistManager._calculate_active_playlist self now = Ok cached.

Definition cache_cleared (self : PlaylistManager.t) : Prop :=
  PlaylistManager._active_playlist_cache self = ∅
  /\ PlaylistManager._cache_expiry self = None.

(** The playlist without its cursor: what resolution reads of it. *)
Definition without_cursor (p : Playlist.t) : Playlist.t :=
  Playlist.set_current_plugin_index p None.

(** The playlist after [k] calls of [get_next_plugin]. *)
Fixpoint advance (k : nat) (p : Playlist.t) : Playlist.t :=
  match k with
  | O => p
  | S k' => (Playlist.get_next_plugin (advance k' p)).1
  end.

(** The identity key of a plugin instance within its playlist. *)
Definition identity (p : PluginInstance.t) : string * string :=
  (PluginInstance.plugin_id p, PluginInstance.name p).

(** The text has no space. *)
Fixpoint no_space (s : string) : bool :=
  match s with
  | EmptyString => true
  | String c r => negb (Ascii.eqb c " ") && no_space r
  end.

(** Reading back what [strftime] prints for hour [h] and minute [m]. *)
Definition minute_roundtrip (h m : nat) : bool :=
  match strptime_HM (strftime_HM (mk_time (Z.of_nat h) (Z.of_nat m) 0 0)) with
  | Ok t =>
      (hour t =? Z.of_nat h) && (minute t =? Z.of_nat m)
      && (second t =? 0) && (microsecond t =? 0)
  | Raise _ => false
  end.

(** An indexed playlist without its cursor. *)
Definition drop_cursor (ip : nat * Playlist.t) : nat * Playlist.t :=
  (ip.1, without_cursor ip.2).

(** ** Example data

    The plugins of the test suite: empty settings and an hourly interval. *)

Definition fresh_plugin (plugin_id name : string) : PluginInstance.t :=
  PluginInstance.mk plugin_id name (VDict []) [("interval", VInt 3600)]
    (Some "2024-01-01T12:00:00").

Definition new_plugin (plugin_id name : string) : PluginInstance.t :=
  PluginInstance.mk plugin_id name (VDict []) [("interval", VInt 3600)] None.

Definition zero_interval_plugin : PluginInstance.t :=
  PluginInstance.mk "clock" "Clock" (VDict []) [("interval", VInt 0)]
    (Some "2024-01-01T12:00:00").

Definition daily_plugin : PluginInstance.t :=
  PluginInstance.mk "news" "News" (VDict [])
    [("interval", VInt 86400); ("scheduled", VStr "13:00")]
    (Some "2024-01-01T12:00:00").

(** 2024-01-01 at the given time of day. *)
Definition on_2024_01_01 (h m s : Z) : datetime :=
  mk_datetime 738886 (mk_time h m s 0).

Definition night_shift : Playlist.t :=
  Playlist.mk "Night Shift" "22:00" "06:00" [new_plugin "p" "P"] None.

Definition three_plugins : Playlist.t :=
  Playlist.mk "Test" "00:00" "24:00"
    [fresh_plugin "plugin1" "Plugin 1"; new_plugin "plugin2" "Plugin 2";
     fresh_plugin "plugin3" "Plugin 3"]
    (Some 0).

Definition breakfast : Playlist.t :=
  Playlist.mk "Breakfast" "08:00" "09:00" [new_plugin "p" "P"] None.

Definition overnight : Playlist.t :=
  Playlist.mk "Overnight" "20:00" "10:00" [new_plugin "p" "P"] None.

Definition all_day : Playlist.t :=
  Playlist.mk "All Day" "00:00" "24:00" [new_plugin "clock" "Clock"] None.

Definition one_playlist : PlaylistManager.t := PlaylistManager.init [all_day].

(** [one_playlist] after a resolution at 12:00:00 has filled the cache. *)
Definition primed : PlaylistManager.t :=
  (PlaylistManager.determine_active_playlist one_playlist
     (ODatetime (on_2024_01_01 12 0 0))).1.

(** [primed] after [delete_plugin("clock", "Clock")] on its playlist. *)
Definition emptied : PlaylistManager.t :=
  PlaylistManager.set_playlist primed 0
    (Playlist.delete_plugin all_day "clock" "Clock").1.

Definition unreadable_plugin : PluginInstance.t :=
  PluginInstance.mk "clock" "Clock" (VDict []) [("interval", VInt 3600)]
    (Some "garbage").

Definition unreadable_playlist : Playlist.t :=
  Playlist.mk "Test" "00:00" "24:00" [unreadable_plugin] (Some 0).

Definition eight_to_midnight : Playlist.t :=
  Playlist.mk "Evening" "08:00" "24:00" [new_plugin "p" "P"] None.

Definition day_shift : Playlist.t :=
  Playlist.mk "Day Shift" "06:00" "22:00" [new_plugin "p" "P"] None.

Definition never : Playlist.t :=
  Playlist.mk "Never" "08:00" "08:00" [new_plugin "p" "P"] None.

Definition all_day_two : Playlist.t :=
  Playlist.mk "All Day" "00:00" "24:00"
    [new_plugin "clock" "Clock"; new_plugin "news" "News"] None.

(** * Properties *)

(** ** Parsing and comparing times of day *)

Lemma in_range_digit_val lo hi c :
  in_range lo hi c = true ->
  Z.of_nat lo - 48 <= digit_val c <= Z.of_nat hi - 48.
Proof.
  unfold in_range, digit_val. intros Hc.
  apply andb_prop in Hc as [H1 H2].
  apply Nat.leb_le in H1. apply Nat.leb_le in H2. lia.
Qed.

Lemma re_M_inv {A} s (k : Z -> string -> option A) r :
  re_M s k = Some r ->
  exists m s', 0 <= m < 60 /\ k m s' = Some r.
Proof.
  unfold re_M, or_else. intros Hm.
  destruct s as [|c1 s1]; [discriminate|].
  destruct s1 as [|c2 s2].
  - destruct (is_digit c1) eqn:E1; [|discriminate].
    apply in_range_digit_val in E1. exists (digit_val c1), EmptyString.
    split; [lia | exact Hm].
  - destruct (in_range 48 53 c1 && is_digit c2) eqn:E12.
    + apply andb_prop in E12 as [E1 E2].
      apply in_range_digit_val in E1. apply in_range_digit_val in E2.
      destruct (k (10 * digit_val c1 + digit_val c2) s2) eqn:Ek.
      * exists (10 * digit_val c1 + digit_val c2), s2.
        split; [lia | congruence].
      * destruct (is_digit c1) eqn:E1'; [|discriminate].
        apply in_range_digit_val in E1'.
        exists (digit_val c1), (String c2 s2). split; [lia | exact Hm].
    + destruct (is_digit c1) eqn:E1'; [|discriminate].
      apply in_range_digit_val in E1'.
      exists (digit_val c1), (String c2 s2). split; [lia | exact Hm].
Qed.

Lemma re_H_inv {A} s (k : Z -> string -> option A) r :
  re_H s k = Some r ->
  exists h s', 0 <= h < 24 /\ k h s' = Some r.
Proof.
  unfold re_H, or_else. intros Hh.
  destruct s as [|c1 s1]; [discriminate|].
  assert (Hlast : (if is_digit c1 then k (digit_val c1) s1 else None) = Some r ->
                  exists h s', 0 <= h < 24 /\ k h s' = Some r).
  { destruct (is_digit c1) eqn:E1; [|discriminate].
    apply in_range_digit_val in E1. intros Hk.
    exists (digit_val c1), s1. split; [lia | exact Hk]. }
  destruct s1 as [|c2 s2]; [exact (Hlast Hh)|].
  destruct (Ascii.eqb c1 "2" && in_range 48 51 c2) eqn:E12.
  - apply andb_prop in E12 as [_ E2]. apply in_range_digit_val in E2.
    destruct (k (20 + digit_val c2) s2) eqn:Ek.
    + exists (20 + digit_val c2), s2. split; [lia | congruence].
    + destruct (in_range 48 49 c1 && is_digit c2) eqn:E12'.
      * apply andb_prop in E12' as [E1 E2'].
        apply in_range_digit_val in E1. apply in_range_digit_val in E2'.
        destruct (k (10 * digit_val c1 + digit_val c2) s2) eqn:Ek'.
        -- exists (10 * digit_val c1 + digit_val c2), s2.
           split; [lia | congruence].
        -- exact (Hlast Hh).
      * exact (Hlast Hh).
  - destruct (in_range 48 49 c1 && is_digit c2) eqn:E12'.
    + apply andb_prop in E12' as [E1 E2'].
      apply in_range_digit_val in E1. apply in_range_digit_val in E2'.
      destruct (k (10 * digit_val c1 + digit_val c2) s2) eqn:Ek'.
      * exists (10 * digit_val c1 + digit_val c2), s2.
        split; [lia | congruence].
      * exact (Hlast Hh).
    + exact (Hlast Hh).
Qed.

(** A parsed time of day is a whole minute within the day. *)
Lemma strptime_HM_range s t :
  strptime_HM s = Ok t ->
  0 <= hour t < 24 /\ 0 <= minute t < 60 /\ second t = 0 /\ microsecond t = 0.
Proof.
  unfold strptime_HM. destruct (match_HM s) as [[[h m] rest]|] eqn:Hm;
    [|discriminate].
  destruct rest; [|discriminate]. intros [= <-]. simpl.
  unfold match_HM in Hm.
  apply re_H_inv in Hm as (h' & s1 & Hh & Hm).
  unfold re_colon in Hm. destruct s1 as [|c s2]; [discriminate|].
  destruct (Ascii.eqb c ":"); [|discriminate].
  apply re_M_inv in Hm as (m' & s3 & Hmin & Hm).
  injection Hm as -> -> _. lia.
Qed.

Lemma strptime_HM_valid s t : strptime_HM s = Ok t -> valid_time t.
Proof. intros Hs. apply strptime_HM_range in Hs. unfold valid_time. lia. Qed.

(** On valid times the lexicographic comparison of the fields is the
    comparison of the instants. *)
Lemma time_compare_us a b :
  valid_time a -> valid_time b ->
  time_compare a b = (time_us a ?= time_us b).
Proof.
  unfold valid_time, time_compare, time_us. intros Ha Hb.
  destruct (Z.compare_spec (hour a) (hour b)) as [Eh|Eh|Eh];
    [destruct (Z.compare_spec (minute a) (minute b)) as [Em|Em|Em];
     [destruct (Z.compare_spec (second a) (second b)) as [Es|Es|Es];
      [destruct (Z.compare_spec (microsecond a) (microsecond b)) as [Eu|Eu|Eu]
      | | ] | | ] | | ];
    symmetry;
    first [ apply Z.compare_eq_iff | apply Z.compare_lt_iff
          | apply Z.compare_gt_iff ]; nia.
Qed.

Lemma time_lt_us a b :
  valid_time a -> valid_time b ->
  time_lt a b = true <-> time_us a < time_us b.
Proof.
  intros Ha Hb. unfold time_lt. rewrite time_compare_us by assumption.
  destruct (Z.compare_spec (time_us a) (time_us b)); split; intros;
    try lia; discriminate.
Qed.

Lemma time_le_us a b :
  valid_time a -> valid_time b ->
  time_le a b = true <-> time_us a <= time_us b.
Proof.
  intros Ha Hb. unfold time_le. rewrite time_compare_us by assumption.
  destruct (Z.compare_spec (time_us a) (time_us b)); split; intros;
    try lia; discriminate.
Qed.

Lemma end_instant_valid p e : Playlist.end_instant p = Ok e -> valid_time e.
Proof.
  unfold Playlist.end_instant.
  destruct (String.eqb (Playlist.end_time p) "24:00").
  - intros [= <-]. unfold valid_time. simpl. lia.
  - apply strptime_HM_valid.
Qed.

(** [is_active] once its three times of day are parsed. *)
Lemma is_active_parsed p t c s e :
  strptime_HM t = Ok c ->
  strptime_HM (Playlist.start_time p) = Ok s ->
  Playlist.end_instant p = Ok e ->
  Playlist.is_active p t =
    Ok (if time_us e <? time_us s
        then (time_us s <=? time_us c) || (time_us c <? time_us e)
        else (time_us s <=? time_us c) && (time_us c <? time_us e)).
Proof.
  intros Hc Hs He. unfold Playlist.is_active. rewrite Hc, Hs, He. simpl.
  pose proof (strptime_HM_valid _ _ Hc) as Vc.
  pose proof (strptime_HM_valid _ _ Hs) as Vs.
  pose proof (end_instant_valid _ _ He) as Ve.
  unfold time_gt, time_ge.
  assert (Hlt : forall a b, valid_time a -> valid_time b ->
                            time_lt a b = (time_us a <? time_us b)).
  { intros a b Va Vb. apply eq_true_iff_eq.
    rewrite (time_lt_us a b Va Vb), Z.ltb_lt. reflexivity. }
  assert (Hle : forall a b, valid_time a -> valid_time b ->
                            time_le a b = (time_us a <=? time_us b)).
  { intros a b Va Vb. apply eq_true_iff_eq.
    rewrite (time_le_us a b Va Vb), Z.leb_le. reflexivity. }
  rewrite !Hlt, !Hle by assumption.
  destruct (time_us e <? time_us s); reflexivity.
Qed.

(** C1. For a playlist with a well-formed start time, an end time that is
    ["24:00"], read as 23:59:59.999999, or a well-formed time of day, and
    a well-formed time of day [t]: when start < end the playlist is active
    exactly when start <= t < end; when start > end it is active exactly
    when t >= start or t < end; the call returns a boolean; and the window
    "00:00"-"24:00" is active at every time of day. *)
Theorem is_active_window (p : Playlist.t) (t : string) (c s e : dt_time) :
  strptime_HM t = Ok c ->
  strptime_HM (Playlist.start_time p) = Ok s ->
  (Playlist.end_time p = "24:00" /\ e = mk_time 23 59 59 999999
   \/ Playlist.end_time p <> "24:00"
      /\ strptime_HM (Playlist.end_time p) = Ok e) ->
  (time_us s < time_us e ->
   (Playlist.is_active p t = Ok true <->
    time_us s <= time_us c < time_us e)) /\
  (time_us s > time_us e ->
   (Playlist.is_active p t = Ok true <->
    time_us c >= time_us s \/ time_us c < time_us e)) /\
  (exists b, Playlist.is_active p t = Ok b) /\
  (Playlist.start_time p = "00:00" -> Playlist.end_time p = "24:00" ->
   Playlist.is_active p t = Ok true).
Proof.
  intros Hc Hs Hend.
  assert (He : Playlist.end_instant p = Ok e).
  { unfold Playlist.end_instant.
    destruct Hend as [[Hend ->]|[Hend He]].
    - rewrite Hend. reflexivity.
    - apply String.eqb_neq in Hend. rewrite Hend. exact He. }
  clear Hend.
  rewrite (is_active_parsed p t c s e Hc Hs He).
  assert (Hok : forall b : bool, Ok b = Ok true <-> b = true).
  { intros b. split; [intros [= ->]; reflexivity | intros ->; reflexivity]. }
  rewrite !Hok.
  split; [|split; [|split]].
  - intros Hlt. destruct (Z.ltb_spec (time_us e) (time_us s)); [lia|].
    rewrite andb_true_iff, Z.leb_le, Z.ltb_lt. reflexivity.
  - intros Hgt. destruct (Z.ltb_spec (time_us e) (time_us s)); [|lia].
    rewrite orb_true_iff, Z.leb_le, Z.ltb_lt. lia.
  - eexists. reflexivity.
  - intros Hstart Hend.
    rewrite Hstart in Hs. vm_compute in Hs. injection Hs as <-.
    unfold Playlist.end_instant in He. rewrite Hend in He.
    vm_compute in He. injection He as <-.
    apply strptime_HM_range in Hc. destruct Hc as (Hh & Hm & Hsec & Hus).
    unfold time_us. simpl. rewrite Hsec, Hus.
    destruct (Z.ltb_spec 86399999999 0); [lia|].
    rewrite andb_true_iff, Z.leb_le, Z.ltb_lt. lia.
Qed.

(** ** Indexing *)

Lemma py_index_in_range {A} (l : list A) (i : Z) :
  0 <= i < Z.of_nat (length l) ->
  exists x, l !! Z.to_nat i = Some x /\ py_index l i = Ok x.
Proof.
  intros Hi. unfold py_index.
  destruct (Z.ltb_spec i 0); [lia|].
  destruct (Z.leb_spec 0 i); [|lia].
  destruct (Z.ltb_spec i (Z.of_nat (length l))); [|lia]. simpl.
  destruct (lookup_lt_is_Some_2 l (Z.to_nat i)) as [x Hx]; [lia|].
  exists x. rewrite Hx. split; reflexivity.
Qed.

Lemma py_index_nil {A} (i : Z) : py_index (@nil A) i = Raise IndexError.
Proof.
  unfold py_index. simpl.
  destruct (i <? 0); destruct (_ && _); reflexivity.
Qed.

(** ** Round-robin advance *)

(** C10. On a playlist with at least one plugin [get_next_plugin] returns a
    plugin and leaves [current_plugin_index] at a valid index, that of the
    plugin returned: 0 when the cursor was unset, the previous index plus
    one modulo the number of plugins otherwise; nothing else of the
    playlist changes.  On a playlist without plugins it raises:
    [IndexError] when the cursor was unset, after setting it to 0, and
    [ZeroDivisionError] otherwise, with the cursor as it was. *)
Theorem get_next_plugin_total (self : Playlist.t) :
  (Playlist.plugins self <> [] ->
   exists self' i p,
     Playlist.get_next_plugin self = (self', Ok p)
     /\ Playlist.current_plugin_index self' = Some i
     /\ Playlist.plugins self' = Playlist.plugins self
     /\ Playlist.name self' = Playlist.name self
     /\ Playlist.start_time self' = Playlist.start_time self
     /\ Playlist.end_time self' = Playlist.end_time self
     /\ 0 <= i < Z.of_nat (length (Playlist.plugins self))
     /\ Playlist.plugins self !! Z.to_nat i = Some p
     /\ i = match Playlist.current_plugin_index self with
            | None => 0
            | Some c => (c + 1) mod Z.of_nat (length (Playlist.plugins self))
            end)
  /\ (Playlist.plugins self = [] ->
      (Playlist.get_next_plugin self).2
        = Raise match Playlist.current_plugin_index self with
                | None => IndexError
                | Some _ => ZeroDivisionError
                end
      /\ Playlist.current_plugin_index (Playlist.get_next_plugin self).1
         = match Playlist.current_plugin_index self with
           | None => Some 0
           | Some c => Some c
           end
      /\ Playlist.plugins (Playlist.get_next_plugin self).1 = []).
Proof.
  split.
  - intros Hne.
    set (n := Z.of_nat (length (Playlist.plugins self))).
    assert (Hn : 0 < n).
    { subst n. destruct (Playlist.plugins self); [congruence | simpl; lia]. }
    set (i := match Playlist.current_plugin_index self with
              | None => 0
              | Some c => (c + 1) mod n
              end).
    assert (Hi : 0 <= i < n).
    { subst i. destruct (Playlist.current_plugin_index self);
        [apply Z.mod_pos_bound; lia | lia]. }
    destruct (py_index_in_range (Playlist.plugins self) i Hi) as (p & Hp & Hidx).
    exists (Playlist.set_current_plugin_index self (Some i)), i, p.
    split.
    { unfold Playlist.get_next_plugin. fold n.
      destruct (Playlist.current_plugin_index self) as [c|] eqn:Hc.
      + destruct (Z.eqb_spec n 0); [lia|]. subst i. simpl. rewrite Hidx.
        reflexivity.
      + subst i. simpl. simpl in Hidx. rewrite Hidx. reflexivity. }
    split; [reflexivity|]. split; [reflexivity|]. split; [reflexivity|].
    split; [reflexivity|]. split; [reflexivity|].
    split; [exact Hi|]. split; [exact Hp | reflexivity].
  - intros Hnil. unfold Playlist.get_next_plugin. rewrite Hnil. simpl.
    destruct (Playlist.current_plugin_index self) eqn:Hc; simpl.
    + split; [reflexivity|]. split; [exact Hc | exact Hnil].
    + rewrite Hnil. split; [apply py_index_nil|]. split; reflexivity.
Qed.

(** ** Seeking the next plugin to refresh *)

Section FindPluginToRefresh.
Context `{DatetimeLib}.
Variable self : Playlist.t.
Variable current_dt : datetime.
Variable global_should_refresh : bool.

Let n : Z := Z.of_nat (length (Playlist.plugins self)).
Let needs := Playlist.needs_refresh current_dt global_should_refresh.
Let at_offset (start_index : Z) (k : nat) : Z :=
  (start_index + Z.of_nat k) mod n.

Lemma scan_step start_index k rest :
  0 < n ->
  exists x,
    Playlist.plugins self !! Z.to_nat (at_offset start_index k) = Some x /\
    Playlist.scan self current_dt global_should_refresh start_index (k :: rest)
    = (b <-- needs x ;;
       if b then Ok (Some (at_offset start_index k, x))
       else Playlist.scan self current_dt global_should_refresh start_index
              rest).
Proof.
  intros Hn.
  assert (Hr : 0 <= at_offset start_index k < n)
    by (apply Z.mod_pos_bound; exact Hn).
  destruct (py_index_in_range (Playlist.plugins self) _ Hr) as (x & Hx & Hi).
  exists x. split; [exact Hx|].
  simpl. fold n. fold (at_offset start_index k). rewrite Hi. reflexivity.
Qed.

Lemma scan_found start_index m : forall a k p,
  0 < n -> (a <= k < a + m)%nat ->
  Playlist.plugins self !! Z.to_nat (at_offset start_index k) = Some p ->
  needs p = Ok true ->
  (forall j q, (a <= j < k)%nat ->
     Playlist.plugins self !! Z.to_nat (at_offset start_index j) = Some q ->
     needs q = Ok false) ->
  Playlist.scan self current_dt global_should_refresh start_index (seq a m)
  = Ok (Some (at_offset start_index k, p)).
Proof.
  induction m as [|m IH]; intros a k p Hn Hk Hp Hdue Hbefore; [lia|].
  cbn [seq].
  destruct (scan_step start_index a (seq (S a) m) Hn) as (x & Hx & ->).
  destruct (decide (a = k)) as [->|Hak].
  - rewrite Hx in Hp. injection Hp as ->. rewrite Hdue. reflexivity.
  - rewrite (Hbefore a x) by (try lia; exact Hx). simpl.
    apply IH; try assumption; [lia|].
    intros j q Hj. apply Hbefore. lia.
Qed.

Lemma scan_none start_index m : forall a,
  0 < n ->
  (forall q, q ∈ Playlist.plugins self -> needs q = Ok false) ->
  Playlist.scan self current_dt global_should_refresh start_index (seq a m)
  = Ok None.
Proof.
  induction m as [|m IH]; intros a Hn Hnone; [reflexivity|].
  cbn [seq].
  destruct (scan_step start_index a (seq (S a) m) Hn) as (x & Hx & ->).
  rewrite (Hnone x) by (eapply list_elem_of_lookup_2; exact Hx). simpl.
  apply IH; assumption.
Qed.

Lemma scan_inv start_index offsets : forall index p,
  0 < n ->
  Playlist.scan self current_dt global_should_refresh start_index offsets
  = Ok (Some (index, p)) ->
  0 <= index < n /\
  Playlist.plugins self !! Z.to_nat index = Some p /\
  needs p = Ok true /\
  exists k, k ∈ offsets /\ index = at_offset start_index k.
Proof.
  induction offsets as [|k rest IH]; intros index p Hn Hs; [discriminate|].
  destruct (scan_step start_index k rest Hn) as (x & Hx & Heq).
  rewrite Heq in Hs. destruct (needs x) as [[|]|] eqn:Hneeds; simpl in Hs;
    [| |discriminate].
  - injection Hs as <- <-.
    split; [apply Z.mod_pos_bound; exact Hn|].
    split; [exact Hx|]. split; [exact Hneeds|].
    exists k. split; [left | reflexivity].
  - destruct (IH index p Hn Hs) as (Hr & Hl & Hd & k' & Hk' & Hi).
    split; [exact Hr|]. split; [exact Hl|]. split; [exact Hd|].
    exists k'. split; [right|]; assumption.
Qed.

Let start_index : Z :=
  match Playlist.current_plugin_index self with
  | Some c => c + 1
  | None => 0
  end.

(** The plugin the cursor points at, when the cursor is set and valid. *)
Let at_cursor (p : PluginInstance.t) : Prop :=
  exists c, Playlist.current_plugin_index self = Some c /\ 0 <= c < n /\
            Playlist.plugins self !! Z.to_nat c = Some p.

Lemma find_plugin_to_refresh_unfold :
  Playlist.plugins self <> [] ->
  (exists p, at_cursor p /\
     Playlist.find_plugin_to_refresh self current_dt global_should_refresh
     = match needs p with
       | Raise e => (self, Raise e)
       | Ok true => (self, Ok (Some p))
       | Ok false =>
           Playlist.scan_all self current_dt global_should_refresh
       end)
  \/ ((forall p, ~ at_cursor p) /\
      Playlist.find_plugin_to_refresh self current_dt global_should_refresh
      = Playlist.scan_all self current_dt global_should_refresh).
Proof.
  intros Hne. unfold Playlist.find_plugin_to_refresh.
  assert (Hmatch : forall (A : Type) (x y : A),
            match Playlist.plugins self with [] => x | _ :: _ => y end = y).
  { intros A x y. destruct (Playlist.plugins self); [congruence|reflexivity]. }
  rewrite Hmatch. clear Hmatch.
  destruct (Playlist.current_plugin_index self) as [c|] eqn:Hc.
  - fold n. destruct (Z.leb_spec 0 c); simpl.
    + destruct (Z.ltb_spec c n).
      * left.
        destruct (py_index_in_range (Playlist.plugins self) c) as (p & Hp & Hi);
          [fold n; lia|].
        exists p. split; [exists c; repeat split; try assumption; lia|].
        rewrite Hi. simpl. fold needs.
        destruct (needs p) as [[|]|]; reflexivity.
      * right. split; [|reflexivity].
        intros p (c' & [= <-] & Hr & _). lia.
    + right. split; [|reflexivity].
      intros p (c' & [= <-] & Hr & _). lia.
  - right. split; [|reflexivity]. intros p (c' & [=] & _).
Qed.

(** The cases of [find_plugin_to_refresh], in terms of the test
    [plugin.should_refresh(current_dt) or global_should_refresh]. *)
Lemma find_plugin_to_refresh_cases :
  (Playlist.plugins self = [] ->
   Playlist.find_plugin_to_refresh self current_dt global_should_refresh
   = (self, Ok None))
  /\ (forall p, at_cursor p -> needs p = Ok true ->
      Playlist.find_plugin_to_refresh self current_dt global_should_refresh
      = (self, Ok (Some p)))
  /\ (forall (k : nat) p,
      (forall q, at_cursor q -> needs q = Ok false) ->
      (k < length (Playlist.plugins self))%nat ->
      Playlist.plugins self !! Z.to_nat (at_offset start_index k) = Some p ->
      needs p = Ok true ->
      (forall (j : nat) q, (j < k)%nat ->
         Playlist.plugins self !! Z.to_nat (at_offset start_index j) = Some q ->
         needs q = Ok false) ->
      Playlist.find_plugin_to_refresh self current_dt global_should_refresh
      = (Playlist.set_current_plugin_index self
           (Some (at_offset start_index k)),
         Ok (Some p)))
  /\ ((forall q, q ∈ Playlist.plugins self -> needs q = Ok false) ->
      Playlist.find_plugin_to_refresh self current_dt global_should_refresh
      = (self, Ok None))
  /\ (forall self' r,
      Playlist.find_plugin_to_refresh self current_dt global_should_refresh
      = (self', r) ->
      self' = self
      \/ exists index p,
           self' = Playlist.set_current_plugin_index self (Some index)
           /\ r = Ok (Some p)
           /\ 0 <= index < n
           /\ Playlist.plugins self !! Z.to_nat index = Some p
           /\ needs p = Ok true).
Proof.
  assert (Hpos : Playlist.plugins self <> [] -> 0 < n).
  { subst n. destruct (Playlist.plugins self); [congruence | simpl; lia]. }
  split; [|split; [|split; [|split]]].
  - intros Hnil. unfold Playlist.find_plugin_to_refresh. rewrite Hnil.
    reflexivity.
  - intros p Hat Hdue.
    assert (Hne : Playlist.plugins self <> []).
    { destruct Hat as (c & _ & _ & Hl). intros E. rewrite E in Hl.
      discriminate. }
    destruct (find_plugin_to_refresh_unfold Hne)
      as [(p' & Hat' & ->)|[Hno _]]; [|exfalso; exact (Hno p Hat)].
    destruct Hat as (c & Hc & _ & Hl), Hat' as (c' & Hc' & _ & Hl').
    rewrite Hc in Hc'. injection Hc' as <-. rewrite Hl in Hl'.
    injection Hl' as <-. rewrite Hdue. reflexivity.
  - intros k p Hcur Hk Hp Hdue Hbefore.
    assert (Hne : Playlist.plugins self <> []).
    { intros E. rewrite E in Hk. simpl in Hk. lia. }
    assert (Hscan :
      Playlist.scan_all self current_dt global_should_refresh
      = (Playlist.set_current_plugin_index self
           (Some (at_offset start_index k)), Ok (Some p))).
    { unfold Playlist.scan_all. fold start_index.
      rewrite (scan_found start_index _ 0%nat k p); try auto; try lia.
      intros j q Hj. apply Hbefore. lia. }
    destruct (find_plugin_to_refresh_unfold Hne)
      as [(p' & Hat' & ->)|[_ ->]]; [|exact Hscan].
    rewrite (Hcur p' Hat'). exact Hscan.
  - intros Hnone.
    destruct (decide (Playlist.plugins self = [])) as [Hps|Hne].
    + unfold Playlist.find_plugin_to_refresh. rewrite Hps. reflexivity.
    + assert (Hscan :
        Playlist.scan_all self current_dt global_should_refresh
        = (self, Ok None)).
      { unfold Playlist.scan_all.
        rewrite scan_none; [reflexivity | auto | exact Hnone]. }
      destruct (find_plugin_to_refresh_unfold Hne)
        as [(p' & Hat' & ->)|[_ ->]]; [|exact Hscan].
      destruct Hat' as (c & _ & _ & Hl).
      rewrite (Hnone p') by (eapply list_elem_of_lookup_2; exact Hl).
      exact Hscan.
  - intros self' r Hres.
    destruct (decide (Playlist.plugins self = [])) as [Hps|Hne].
    + unfold Playlist.find_plugin_to_refresh in Hres. rewrite Hps in Hres.
      injection Hres as <- <-. left. reflexivity.
    + assert (Hscan : forall self1 r1,
        Playlist.scan_all self current_dt global_should_refresh = (self1, r1) ->
        self1 = self
        \/ exists index p,
             self1 = Playlist.set_current_plugin_index self (Some index)
             /\ r1 = Ok (Some p) /\ 0 <= index < n
             /\ Playlist.plugins self !! Z.to_nat index = Some p
             /\ needs p = Ok true).
      { intros self1 r1. unfold Playlist.scan_all.
        destruct (Playlist.scan _ _ _ _ _) as [[[index p]|]|e] eqn:Es;
          intros [= <- <-]; [|left; reflexivity..].
        right. exists index, p.
        destruct (scan_inv _ _ _ _ (Hpos Hne) Es) as (? & ? & ? & _).
        repeat split; try assumption; lia. }
      destruct (find_plugin_to_refresh_unfold Hne)
        as [(p' & Hat' & Heq)|[_ Heq]]; rewrite Heq in Hres.
      * destruct (needs p') as [[|]|e].
        -- injection Hres as <- <-. left. reflexivity.
        -- exact (Hscan _ _ Hres).
        -- injection Hres as <- <-. left. reflexivity.
      * exact (Hscan _ _ Hres).
Qed.

Lemma needs_true p :
  needs p = Ok true <->
  exists b, PluginInstance.should_refresh p current_dt = Ok b
            /\ b || global_should_refresh = true.
Proof.
  unfold needs, Playlist.needs_refresh.
  destruct (PluginInstance.should_refresh p current_dt) as [b|e]; simpl.
  - split.
    + intros [= Hb]. exists b. split; [reflexivity | exact Hb].
    + intros (b' & [= <-] & Hb). rewrite Hb. reflexivity.
  - split; [discriminate | intros (b' & [=] & _)].
Qed.

Lemma needs_false p :
  needs p = Ok false <->
  PluginInstance.should_refresh p current_dt = Ok false
  /\ global_should_refresh = false.
Proof.
  unfold needs, Playlist.needs_refresh.
  destruct (PluginInstance.should_refresh p current_dt) as [b|e]; simpl.
  - split.
    + intros [= Hb]. apply orb_false_elim in Hb as [-> ->].
      split; reflexivity.
    + intros [[= ->] ->]. reflexivity.
  - split; [discriminate | intros [[=] _]].
Qed.

(** C3, as amended. [find_plugin_to_refresh] changes nothing of the
    playlist but [current_plugin_index], and that only to the index of a
    plugin its forward scan returns.  Without plugins it returns [None].
    When the cursor is set and valid and [should_refresh] returns for the
    plugin there, that plugin is returned, cursor unchanged, if it is due
    or the override holds.  Otherwise, the checks made returning, the scan
    from [cursor + 1] (from 0 when the cursor is unset), taken modulo the
    number of plugins and visiting each plugin once, returns the first
    plugin that is due or overridden and sets [current_plugin_index] to
    its index; when the override does not hold and no plugin is due the
    result is [None] and the cursor is unchanged.  When [should_refresh]
    raises for the plugin at the cursor the call raises the same, override
    or not, and the playlist is unchanged. *)
Theorem find_plugin_to_refresh_cursor :
  (Playlist.plugins self = [] ->
   Playlist.find_plugin_to_refresh self current_dt global_should_refresh
   = (self, Ok None))
  /\ (forall p b, at_cursor p ->
      PluginInstance.should_refresh p current_dt = Ok b ->
      b || global_should_refresh = true ->
      Playlist.find_plugin_to_refresh self current_dt global_should_refresh
      = (self, Ok (Some p)))
  /\ (forall (k : nat) p b,
      (forall q, at_cursor q ->
         PluginInstance.should_refresh q current_dt = Ok false
         /\ global_should_refresh = false) ->
      (k < length (Playlist.plugins self))%nat ->
      Playlist.plugins self !! Z.to_nat (at_offset start_index k) = Some p ->
      PluginInstance.should_refresh p current_dt = Ok b ->
      b || global_should_refresh = true ->
      (forall (j : nat) q, (j < k)%nat ->
         Playlist.plugins self !! Z.to_nat (at_offset start_index j) = Some q ->
         PluginInstance.should_refresh q current_dt = Ok false
         /\ global_should_refresh = false) ->
      exists self',
        Playlist.find_plugin_to_refresh self current_dt global_should_refresh
        = (self', Ok (Some p))
        /\ Playlist.current_plugin_index self'
           = Some (at_offset start_index k)
        /\ Playlist.plugins self' = Playlist.plugins self
        /\ Playlist.name self' = Playlist.name self
        /\ Playlist.start_time self' = Playlist.start_time self
        /\ Playlist.end_time self' = Playlist.end_time self)
  /\ (global_should_refresh = false ->
      (forall q, q ∈ Playlist.plugins self ->
         PluginInstance.should_refresh q current_dt = Ok false) ->
      Playlist.find_plugin_to_refresh self current_dt global_should_refresh
      = (self, Ok None))
  /\ (forall p e, at_cursor p ->
      PluginInstance.should_refresh p current_dt = Raise e ->
      Playlist.find_plugin_to_refresh self current_dt global_should_refresh
      = (self, Raise e))
  /\ (forall self' r,
      Playlist.find_plugin_to_refresh self current_dt global_should_refresh
      = (self', r) ->
      Playlist.plugins self' = Playlist.plugins self
      /\ Playlist.name self' = Playlist.name self
      /\ Playlist.start_time self' = Playlist.start_time self
      /\ Playlist.end_time self' = Playlist.end_time self
      /\ (Playlist.current_plugin_index self'
          = Playlist.current_plugin_index self
          \/ exists index p b,
               Playlist.current_plugin_index self' = Some index
               /\ r = Ok (Some p)
               /\ 0 <= index < n
               /\ Playlist.plugins self !! Z.to_nat index = Some p
               /\ PluginInstance.should_refresh p current_dt = Ok b
               /\ b || global_should_refresh = true)).
Proof.
  destruct find_plugin_to_refresh_cases
    as (Hempty & Hat & Hscan & Hnone & Hframe).
  split; [exact Hempty|]. split; [|split; [|split; [|split]]].
  - intros p b Hp Hb Hor. apply (Hat p Hp). apply needs_true.
    exists b. split; assumption.
  - intros k p b Hcur Hk Hp Hb Hor Hbefore.
    eexists. split.
    { apply (Hscan k p); try assumption.
      - intros q Hq. apply needs_false. apply Hcur. exact Hq.
      - apply needs_true. exists b. split; assumption.
      - intros j q Hj Hq. apply needs_false. apply (Hbefore j q Hj Hq). }
    repeat split.
  - intros Hg Hall. apply Hnone. intros q Hq. apply needs_false.
    split; [apply Hall; exact Hq | exact Hg].
  - intros p e Hp He.
    assert (Hne : Playlist.plugins self <> []).
    { destruct Hp as (c & _ & _ & Hl). intros E. rewrite E in Hl.
      discriminate. }
    destruct (find_plugin_to_refresh_unfold Hne)
      as [(p' & Hat' & ->)|[Hno _]]; [|exfalso; exact (Hno p Hp)].
    destruct Hp as (c & Hc & _ & Hl), Hat' as (c' & Hc' & _ & Hl').
    rewrite Hc in Hc'. injection Hc' as <-. rewrite Hl in Hl'.
    injection Hl' as <-.
    unfold needs, Playlist.needs_refresh. rewrite He. reflexivity.
  - intros self' r Hres.
    destruct (Hframe self' r Hres)
      as [->|(index & p & -> & -> & Hr & Hl & Hd)].
    + repeat (split; [reflexivity|]). left. reflexivity.
    + repeat (split; [reflexivity|]). right.
      apply needs_true in Hd as (b & Hb & Hor).
      exists index, p, b. split; [reflexivity|]. split; [reflexivity|].
      split; [exact Hr|]. split; [exact Hl|]. split; assumption.
Qed.
End FindPluginToRefresh.

(** ** The refresh-due test *)

Section ShouldRefresh.
Context `{DatetimeLib}.
Variable self : PluginInstance.t.
Variable current_time : datetime.

Lemma interval_due_spec latest :
  (forall v, dict_get "interval" (PluginInstance.refresh self) = Some v ->
     exists i, v = VInt i /\ is_ok (timedelta_seconds v) = true) ->
  exists b,
    PluginInstance.interval_due self latest current_time = Ok b /\
    (b = true <->
     exists i, dict_get "interval" (PluginInstance.refresh self)
               = Some (VInt i)
               /\ i <> 0
               /\ i * 1000000 <= datetime_sub current_time latest).
Proof.
  intros Hty. unfold PluginInstance.interval_due.
  destruct (dict_get "interval" (PluginInstance.refresh self)) as [v|] eqn:Hv.
  - destruct (Hty v eq_refl) as (i & -> & Hok). simpl.
    destruct (Z.eqb_spec i 0) as [->|Hi]; simpl.
    + exists false. split; [reflexivity|]. split; [discriminate|].
      intros (i & [= <-] & Hne & _). congruence.
    + unfold timedelta_seconds in *.
      destruct (_ && _); [|discriminate]. simpl.
      eexists. split; [reflexivity|]. rewrite Z.leb_le. split.
      * intros Hle. exists i. split; [reflexivity|]. split; assumption.
      * intros (i' & [= <-] & _ & Hle). exact Hle.
  - exists false. split; [reflexivity|]. split; [discriminate|].
    intros (i & [=] & _).
Qed.

(** No prior refresh is recorded when the stored text is [None] or
    empty. *)
Lemma get_latest_refresh_dt_none :
  PluginInstance.latest_refresh_time self = None
  \/ PluginInstance.latest_refresh_time self = Some EmptyString ->
  PluginInstance.get_latest_refresh_dt self = Ok None.
Proof.
  unfold PluginInstance.get_latest_refresh_dt. intros [-> | ->]; reflexivity.
Qed.

(** C2, as amended. For a plugin whose last refresh time is readable and
    whose policy is well typed (an integer interval that is a
    representable number of seconds, a parseable scheduled time),
    [should_refresh] returns a boolean, and it is true exactly when: no
    prior refresh is recorded; or the interval is set, is not zero, and
    at least that many seconds have passed since the last refresh; or a
    scheduled time is set and (a) the "HH:MM" text of the last refresh is
    lexicographically before the scheduled text, or (b) the last refresh
    date is before the current date and the current time of day is at or
    after the scheduled time, or (c) both dates are equal and the
    scheduled time is after the last refresh's time of day and at or
    before the current one. *)
Theorem should_refresh_due (latest : option datetime) :
  PluginInstance.get_latest_refresh_dt self = Ok latest ->
  (forall v, dict_get "interval" (PluginInstance.refresh self) = Some v ->
     exists i, v = VInt i /\ is_ok (timedelta_seconds v) = true) ->
  (forall v, dict_get "scheduled" (PluginInstance.refresh self) = Some v ->
     exists s, v = VStr s /\ is_ok (strptime_HM s) = true) ->
  exists b,
    PluginInstance.should_refresh self current_time = Ok b /\
    (b = true <->
     latest = None
     \/ exists l, latest = Some l /\
        ((exists i, dict_get "interval" (PluginInstance.refresh self)
                    = Some (VInt i)
                    /\ i <> 0
                    /\ i * 1000000 <= datetime_sub current_time l)
         \/ exists s t,
              dict_get "scheduled" (PluginInstance.refresh self)
              = Some (VStr s)
              /\ strptime_HM s = Ok t
              /\ (String.ltb (strftime_HM (dtime l)) s = true
                  \/ (ordinal l < ordinal current_time
                      /\ time_ge (dtime current_time) t = true)
                  \/ (ordinal l = ordinal current_time
                      /\ time_lt (dtime l) t = true
                      /\ time_le t (dtime current_time) = true)))).
Proof.
  intros Hlatest Hint Hsched. unfold PluginInstance.should_refresh.
  rewrite Hlatest. simpl.
  destruct latest as [l|].
  2:{ exists true. split; [reflexivity|].
      split; [intros _; left; reflexivity | reflexivity]. }
  destruct (interval_due_spec l Hint) as (b1 & -> & Hb1). simpl.
  destruct b1.
  { exists true. split; [reflexivity|]. split; [|reflexivity]. intros _.
    right. exists l. split; [reflexivity|]. left. apply Hb1. reflexivity. }
  assert (Hno_int :
    ~ exists i, dict_get "interval" (PluginInstance.refresh self)
                = Some (VInt i)
                /\ i <> 0 /\ i * 1000000 <= datetime_sub current_time l).
  { intros Hex. apply Hb1 in Hex. discriminate. }
  unfold PluginInstance.scheduled_string_due,
    PluginInstance.scheduled_crossed.
  destruct (dict_get "scheduled" (PluginInstance.refresh self)) as [v|] eqn:Hv.
  2:{ exists false. split; [reflexivity|]. split; [discriminate|].
      intros [[=]|(l' & [= <-] & [Hi|(s & t & [=] & _)])].
      exfalso. exact (Hno_int Hi). }
  destruct (Hsched v eq_refl) as (s & -> & Hok). simpl.
  destruct (strptime_HM s) as [t|] eqn:Ht; [|discriminate]. simpl.
  destruct (String.ltb (strftime_HM (dtime l)) s) eqn:Hlt.
  { exists true. split; [reflexivity|]. split; [|reflexivity]. intros _.
    right. exists l. split; [reflexivity|]. right. exists s, t.
    split; [reflexivity|]. split; [exact Ht|]. left. exact Hlt. }
  match goal with
  | |- context [if ?c then Ok true else Ok false] =>
      exists c; split; [destruct c; reflexivity|]
  end.
  rewrite orb_true_iff, !andb_true_iff, Z.ltb_lt, Z.eqb_eq. split.
  - intros Hc. right. exists l. split; [reflexivity|]. right.
    exists s, t. split; [reflexivity|]. split; [exact Ht|].
    right. exact Hc.
  - intros [[=]|(l' & [= <-] & [Hi|(s' & t' & [= <-] & Ht' & Hc)])].
    + exfalso. exact (Hno_int Hi).
    + rewrite Ht in Ht'. injection Ht' as <-.
      destruct Hc as [Hc|Hc]; [congruence | exact Hc].
Qed.
End ShouldRefresh.

(** ** The order of the sort keys *)

Lemma string_compare_refl s : String.compare s s = Eq.
Proof.
  induction s as [|c s IH]; [reflexivity|]. simpl.
  unfold Ascii.compare. rewrite N.compare_refl. exact IH.
Qed.

Lemma string_ltb_irrefl s : String.ltb s s = false.
Proof. unfold String.ltb. rewrite string_compare_refl. reflexivity. Qed.

Lemma string_compare_lt_trans a : forall b c,
  String.compare a b = Lt -> String.compare b c = Lt ->
  String.compare a c = Lt.
Proof.
  induction a as [|x a IH]; intros [|y b] [|z c]; simpl; try congruence.
  unfold Ascii.compare.
  destruct (N.compare_spec (N_of_ascii x) (N_of_ascii y)) as [Exy|Exy|Exy];
    destruct (N.compare_spec (N_of_ascii y) (N_of_ascii z)) as [Eyz|Eyz|Eyz];
    try congruence; intros Hab Hbc.
  - rewrite Exy, Eyz, N.compare_refl. eapply IH; eassumption.
  - rewrite Exy. apply N.compare_lt_iff in Eyz. rewrite Eyz. reflexivity.
  - rewrite <- Eyz. apply N.compare_lt_iff in Exy. rewrite Exy. reflexivity.
  - assert (E : (N_of_ascii x < N_of_ascii z)%N) by lia.
    apply N.compare_lt_iff in E. rewrite E. reflexivity.
Qed.

Lemma string_ltb_trans a b c :
  String.ltb a b = true -> String.ltb b c = true -> String.ltb a c = true.
Proof.
  unfold String.ltb. intros Hab Hbc.
  destruct (String.compare a b) eqn:Eab; try discriminate.
  destruct (String.compare b c) eqn:Ebc; try discriminate.
  rewrite (string_compare_lt_trans a b c Eab Ebc). reflexivity.
Qed.

Lemma string_ltb_total a b :
  String.ltb a b = true \/ a = b \/ String.ltb b a = true.
Proof.
  unfold String.ltb. rewrite (String.compare_antisym b a).
  destruct (String.compare a b) eqn:E; simpl; auto.
  right. left. apply String.compare_eq_iff. exact E.
Qed.

Lemma key_lt_irrefl k : key_lt k k = false.
Proof.
  unfold key_lt. rewrite Z.ltb_irrefl, string_ltb_irrefl.
  destruct (k.1 =? k.1); reflexivity.
Qed.

Lemma key_lt_trans a b c :
  key_lt a b = true -> key_lt b c = true -> key_lt a c = true.
Proof.
  unfold key_lt.
  rewrite !orb_true_iff, !andb_true_iff, !Z.ltb_lt, !Z.eqb_eq.
  intros [Hab|[Hab Sab]] [Hbc|[Hbc Sbc]]; try (left; lia).
  right. split; [lia|]. eapply string_ltb_trans; eassumption.
Qed.

Lemma key_lt_total a b : key_lt a b = true \/ a = b \/ key_lt b a = true.
Proof.
  unfold key_lt. destruct a as [pa na], b as [pb nb]. simpl.
  rewrite !orb_true_iff, !andb_true_iff, !Z.ltb_lt, !Z.eqb_eq.
  destruct (Z.lt_total pa pb) as [Hp|[->|Hp]]; [auto| |auto].
  destruct (string_ltb_total na nb) as [Hn|[->|Hn]]; auto.
Qed.

Lemma key_lt_asym a b : key_lt a b = true -> key_lt b a = false.
Proof.
  intros Hab. destruct (key_lt b a) eqn:Hba; [|reflexivity].
  pose proof (key_lt_trans a b a Hab Hba) as Haa.
  rewrite key_lt_irrefl in Haa. discriminate.
Qed.

Lemma key_le_trans a b c : key_le a b -> key_le b c -> key_le a c.
Proof.
  unfold key_le. intros Hab Hbc.
  destruct (key_lt c a) eqn:Hca; [|reflexivity].
  destruct (key_lt_total b c) as [H|[->|H]]; [|congruence|congruence].
  rewrite (key_lt_trans b c a H Hca) in Hab. discriminate.
Qed.

(** ** The head of the sorted list *)

Lemma insert_by_key_head {A} (x : sort_key * A) l :
  head (insert_by_key x l) =
    match head l with
    | Some y => if key_lt y.1 x.1 then Some y else Some x
    | None => Some x
    end.
Proof.
  destruct l as [|y l]; simpl; [reflexivity|].
  destruct (key_lt y.1 x.1); reflexivity.
Qed.

(** The first element of the sorted list is the first element of the input
    whose key no other key is below: every element is at or above it, and
    the elements before it are strictly above. *)
Lemma sort_by_key_head {A} (l : list (sort_key * A)) :
  match head (sort_by_key l) with
  | None => l = []
  | Some h =>
      exists i, l !! i = Some h
      /\ (forall j y, l !! j = Some y -> key_le h.1 y.1)
      /\ (forall j y, (j < i)%nat -> l !! j = Some y -> key_lt h.1 y.1 = true)
  end.
Proof.
  induction l as [|x l IH]; [reflexivity|].
  simpl. rewrite insert_by_key_head.
  destruct (head (sort_by_key l)) as [h|].
  - destruct IH as (i & Hi & Hmin & Hfirst).
    destruct (key_lt h.1 x.1) eqn:Hhx.
    + exists (S i). split; [exact Hi|]. split.
      * intros [|j] y Hy; simpl in Hy.
        -- injection Hy as <-. apply key_lt_asym. exact Hhx.
        -- eapply Hmin; exact Hy.
      * intros [|j] y Hj Hy; simpl in Hy.
        -- injection Hy as <-. exact Hhx.
        -- apply (Hfirst j); [lia | exact Hy].
    + exists 0%nat. split; [reflexivity|]. split.
      * intros [|j] y Hy; simpl in Hy.
        -- injection Hy as <-. apply key_lt_irrefl.
        -- apply (key_le_trans _ h.1); [exact Hhx | eapply Hmin; exact Hy].
      * intros j y Hj. lia.
  - subst l. exists 0%nat. split; [reflexivity|]. split.
    + intros [|j] y Hy; simpl in Hy; [|discriminate].
      injection Hy as <-. apply key_lt_irrefl.
    + intros j y Hj. lia.
Qed.

(** ** Comprehensions that may raise *)

Lemma mapM_Forall2 {A B} (f : A -> result B) l : forall ys,
  mapM f l = Ok ys -> Forall2 (fun x y => f x = Ok y) l ys.
Proof.
  induction l as [|x l IH]; intros ys; simpl.
  - intros [= <-]. constructor.
  - destruct (f x) as [y|] eqn:Hy; [|discriminate]. simpl.
    destruct (mapM f l) as [ys'|]; [|discriminate]. simpl.
    intros [= <-]. constructor; [exact Hy | apply IH; reflexivity].
Qed.

Lemma mapM_is_ok {A B} (f : A -> result B) l :
  (forall x, x ∈ l -> exists y, f x = Ok y) -> exists ys, mapM f l = Ok ys.
Proof.
  induction l as [|x l IH]; intros Hall; simpl.
  - eexists. reflexivity.
  - destruct (Hall x) as (y & ->); [left|]. simpl.
    destruct IH as (ys & ->); [intros x' Hx'; apply Hall; right; exact Hx'|].
    simpl. eexists. reflexivity.
Qed.

(** ** Resolution of the active playlist *)

Lemma qualifies_spec current_time p :
  PlaylistManager.qualifies current_time p = true <->
  Playlist.is_active p current_time = Ok true /\ Playlist.plugins p <> [].
Proof.
  unfold PlaylistManager.qualifies.
  destruct (Playlist.is_active p current_time) as [[|]|e]; simpl.
  - destruct (Playlist.plugins p); simpl; split;
      [intros [=] | intros [_ Hne]; congruence
      | intros _; split; [reflexivity | congruence] | reflexivity].
  - split; [intros [=] | intros [[=] _]].
  - split; [intros [=] | intros [[=] _]].
Qed.

(** An active playlist has a window that parses. *)
Lemma is_active_true_parsed p current_time :
  Playlist.is_active p current_time = Ok true ->
  exists s e, strptime_HM (Playlist.start_time p) = Ok s
              /\ Playlist.end_instant p = Ok e.
Proof.
  unfold Playlist.is_active.
  destruct (strptime_HM current_time) as [c|ec]; simpl.
  2:{ unfold strptime_HM in *. destruct ec; discriminate. }
  destruct (strptime_HM (Playlist.start_time p)) as [s|es] eqn:Hs; simpl.
  2:{ unfold strptime_HM in Hs.
      destruct (match_HM _) as [[[? ?] [|? ?]]|]; try discriminate;
        injection Hs as <-; discriminate. }
  destruct (Playlist.end_instant p) as [e|ee] eqn:He; simpl.
  2:{ unfold Playlist.end_instant, strptime_HM in He.
      destruct (String.eqb _ _); [discriminate|].
      destruct (match_HM _) as [[[? ?] [|? ?]]|]; try discriminate;
        injection He as <-; discriminate. }
  intros _. exists s, e. split; reflexivity.
Qed.

(** The priority: the end minus the start, in minutes, with ["24:00"] read
    as midnight of the next day. *)
Lemma get_priority_minutes p s :
  strptime_HM (Playlist.start_time p) = Ok s ->
  (Playlist.end_time p = "24:00" ->
   Playlist.get_priority p = Ok (1440 - (hour s * 60 + minute s)))
  /\ (forall e, Playlist.end_time p <> "24:00" ->
      strptime_HM (Playlist.end_time p) = Ok e ->
      Playlist.get_priority p
      = Ok ((hour e * 60 + minute e) - (hour s * 60 + minute s))).
Proof.
  intros Hs. pose proof (strptime_HM_range _ _ Hs) as (Hh & Hm & Hsec & Hus).
  unfold Playlist.get_priority, Playlist.get_time_range_minutes,
    strptime_HM_datetime.
  rewrite Hs. simpl. split.
  - intros ->. simpl. f_equal. unfold datetime_sub, time_us. simpl.
    rewrite Hsec, Hus.
    match goal with
    | |- ?num / 1000000 / 60 = _ =>
        replace num with ((1440 - (hour s * 60 + minute s)) * 60 * 1000000)
          by (unfold ORDINAL_1900_01_01; change (digit_val "0") with 0; lia)
    end.
    rewrite Z.div_mul by lia. rewrite Z.div_mul by lia. reflexivity.
  - intros e Hne He.
    pose proof (strptime_HM_range _ _ He) as (Hh' & Hm' & Hsec' & Hus').
    apply String.eqb_neq in Hne. rewrite Hne. simpl. rewrite He. simpl.
    f_equal. unfold datetime_sub, time_us. simpl.
    rewrite Hsec, Hus, Hsec', Hus'.
    match goal with
    | |- ?num / 1000000 / 60 = _ =>
        replace num with (((hour e * 60 + minute e) - (hour s * 60 + minute s))
                          * 60 * 1000000)
          by (unfold ORDINAL_1900_01_01; lia)
    end.
    rewrite Z.div_mul by lia. rewrite Z.div_mul by lia. reflexivity.
Qed.

Lemma is_active_true_priority p current_time :
  Playlist.is_active p current_time = Ok true ->
  exists k, Playlist.get_priority p = Ok k.
Proof.
  intros Hact.
  destruct (is_active_true_parsed _ _ Hact) as (s & e & Hs & He).
  destruct (get_priority_minutes p s Hs) as [H24 Hother].
  destruct (String.eqb_spec (Playlist.end_time p) "24:00") as [E|E].
  - eexists. apply H24. exact E.
  - unfold Playlist.end_instant in He. apply String.eqb_neq in E as E'.
    rewrite E' in He. eexists. apply (Hother e E He).
Qed.

Lemma active_playlists_elem current_time (l : list Playlist.t) i p :
  (i, p) ∈ List.filter (fun ip : nat * Playlist.t =>
                          PlaylistManager.qualifies current_time ip.2)
             (imap (fun i p => (i, p)) l)
  <-> l !! i = Some p /\ PlaylistManager.qualifies current_time p = true.
Proof.
  rewrite list_elem_of_In, filter_In, <- list_elem_of_In, elem_of_lookup_imap.
  simpl. split.
  - intros [(i' & p' & [= -> ->] & Hl) Hq]. split; assumption.
  - intros [Hl Hq]. split; [exists i, p; split; [reflexivity | exact Hl] | exact Hq].
Qed.

Lemma key_le_explicit k np kq nq :
  key_le (k, np) (kq, nq) ->
  k < kq \/ (k = kq /\ String.leb np nq = true).
Proof.
  unfold key_le, key_lt. simpl. intros Hle.
  apply orb_false_elim in Hle as [Hlt Heq]. apply Z.ltb_ge in Hlt.
  destruct (Z.eqb_spec kq k) as [->|Hne]; [|left; lia].
  right. split; [reflexivity|]. simpl in Heq.
  unfold String.ltb in Heq. unfold String.leb.
  rewrite (String.compare_antisym np nq).
  destruct (String.compare nq np); simpl; [reflexivity|discriminate|reflexivity].
Qed.

(** C4. Resolution looks at exactly the playlists that are active at the
    timestamp's "HH:MM" and have at least one plugin.  It returns [None]
    when no playlist qualifies; a playlist it returns is active and has a
    plugin, so one without plugins is never selected; and the playlist
    returned is minimal among the qualifying ones: each of them has a
    larger priority value, or the same value and a name that is not
    lexicographically smaller. *)
Theorem calculate_active_playlist_minimal
    (self : PlaylistManager.t) (now : datetime) :
  exists r,
    PlaylistManager._calculate_active_playlist self now = Ok r /\
    match r with
    | None =>
        forall i p, PlaylistManager.playlists self !! i = Some p ->
          ~ (Playlist.is_active p (strftime_HM (dtime now)) = Ok true
             /\ Playlist.plugins p <> [])
    | Some i =>
        exists p k,
          PlaylistManager.playlists self !! i = Some p
          /\ Playlist.is_active p (strftime_HM (dtime now)) = Ok true
          /\ Playlist.plugins p <> []
          /\ Playlist.get_priority p = Ok k
          /\ forall j q, PlaylistManager.playlists self !! j = Some q ->
               Playlist.is_active q (strftime_HM (dtime now)) = Ok true ->
               Playlist.plugins q <> [] ->
               exists kq, Playlist.get_priority q = Ok kq
                 /\ (k < kq
                     \/ (k = kq
                         /\ String.leb (Playlist.name p) (Playlist.name q)
                            = true))
    end.
Proof.
  unfold PlaylistManager._calculate_active_playlist.
  set (current_time := strftime_HM (dtime now)).
  destruct (PlaylistManager.playlists self) as [|p0 ps] eqn:Hps.
  { exists None. split; [reflexivity|]. intros i p Hl. destruct i; discriminate. }
  rewrite <- Hps. clear p0 ps Hps.
  set (active := List.filter _ _).
  assert (Hactive : forall i p, (i, p) ∈ active <->
            PlaylistManager.playlists self !! i = Some p
            /\ PlaylistManager.qualifies current_time p = true)
    by (intros i p; apply active_playlists_elem).
  destruct active as [|first rest] eqn:Hact.
  { exists None. split; [reflexivity|]. intros i p Hl Hq.
    apply qualifies_spec in Hq.
    assert (Hin : (i, p) ∈ @nil (nat * Playlist.t))
      by (apply Hactive; split; assumption).
    inversion Hin. }
  rewrite <- Hact in *.
  destruct (mapM_is_ok PlaylistManager.keyed active) as (keys & Hkeys).
  { intros [i p] Hin. apply Hactive in Hin as [_ Hq].
    apply qualifies_spec in Hq as [Hq _].
    destruct (is_active_true_priority _ _ Hq) as (k & Hk).
    unfold PlaylistManager.keyed. simpl. rewrite Hk. simpl.
    eexists. reflexivity. }
  rewrite Hkeys. simpl.
  pose proof (mapM_Forall2 _ _ _ Hkeys) as Hall.
  pose proof (sort_by_key_head keys) as Hhead.
  destruct (head (sort_by_key keys)) as [h|].
  2:{ subst keys. apply Forall2_nil_inv_r in Hall. rewrite Hact in Hall.
      discriminate. }
  destruct Hhead as (pos & Hpos & Hmin & _).
  destruct (Forall2_lookup_r _ _ _ _ _ Hall Hpos) as ([i p] & Hip & Hkeyed).
  unfold PlaylistManager.keyed in Hkeyed. simpl in Hkeyed.
  destruct (Playlist.get_priority p) as [k|] eqn:Hk; [|discriminate].
  simpl in Hkeyed. injection Hkeyed as <-. simpl.
  exists (Some i). split; [reflexivity|].
  assert (Hin : (i, p) ∈ active) by (eapply list_elem_of_lookup_2; exact Hip).
  apply Hactive in Hin as [Hl Hq]. apply qualifies_spec in Hq as [Hq Hne].
  exists p, k. repeat (split; [assumption|]).
  intros j q Hlq Hqa Hqne.
  assert (Hinq : (j, q) ∈ active).
  { apply Hactive. split; [exact Hlq|]. apply qualifies_spec.
    split; assumption. }
  apply list_elem_of_lookup_1 in Hinq as (posq & Hposq).
  destruct (Forall2_lookup_l _ _ _ _ _ Hall Hposq) as (y & Hy & Hkeyedq).
  unfold PlaylistManager.keyed in Hkeyedq. simpl in Hkeyedq.
  destruct (Playlist.get_priority q) as [kq|] eqn:Hkq; [|discriminate].
  simpl in Hkeyedq. injection Hkeyedq as <-.
  exists kq. split; [reflexivity|].
  apply key_le_explicit. apply (Hmin posq _ Hy).
Qed.

(** ** The resolution cache *)

Lemma calculate_same_key self a b :
  strftime_HM (dtime a) = strftime_HM (dtime b) ->
  PlaylistManager._calculate_active_playlist self a
  = PlaylistManager._calculate_active_playlist self b.
Proof.
  intros Hk. unfold PlaylistManager._calculate_active_playlist.
  rewrite Hk. reflexivity.
Qed.

Lemma calculate_same_playlists self self' now :
  PlaylistManager.playlists self' = PlaylistManager.playlists self ->
  PlaylistManager._calculate_active_playlist self' now
  = PlaylistManager._calculate_active_playlist self now.
Proof.
  intros Hp. unfold PlaylistManager._calculate_active_playlist.
  rewrite Hp. reflexivity.
Qed.

(** Every exception is caught inside [_calculate_active_playlist]. *)
Lemma calculate_returns self now :
  exists r, PlaylistManager._calculate_active_playlist self now = Ok r.
Proof.
  unfold PlaylistManager._calculate_active_playlist.
  destruct (PlaylistManager.playlists self); [eexists; reflexivity|].
  destruct (List.filter _ _); [eexists; reflexivity|].
  destruct (mapM PlaylistManager.keyed _); simpl; eexists; reflexivity.
Qed.

Lemma cache_cleared_coherent self : cache_cleared self -> cache_coherent self.
Proof.
  intros [Hc _] now cached. rewrite Hc, lookup_empty. discriminate.
Qed.

Lemma invalidate_cache_cleared self :
  cache_cleared (PlaylistManager.invalidate_cache self).
Proof. split; reflexivity. Qed.

(** What [determine_active_playlist] does on a timestamp: a hit returns the
    entry and changes nothing, a miss computes, stores and returns. *)
Lemma determine_cases self now :
  (exists cached expiry,
     PlaylistManager._cache_expiry self = Some expiry
     /\ datetime_lt now expiry = true
     /\ PlaylistManager._active_playlist_cache self
        !! strftime_HM (dtime now) = Some cached
     /\ PlaylistManager.determine_active_playlist self (ODatetime now)
        = (self, Ok cached))
  \/ (exists active,
        PlaylistManager._calculate_active_playlist self now = Ok active
        /\ PlaylistManager.determine_active_playlist self (ODatetime now)
           = match add_minute now with
             | Ok expiry =>
                 (PlaylistManager.mk (PlaylistManager.playlists self)
                    {[ strftime_HM (dtime now) := active ]} (Some expiry),
                  Ok active)
             | Raise e =>
                 (PlaylistManager.mk (PlaylistManager.playlists self)
                    {[ strftime_HM (dtime now) := active ]}
                    (PlaylistManager._cache_expiry self),
                  Raise e)
             end).
Proof.
  unfold PlaylistManager.determine_active_playlist.
  destruct (calculate_returns self now) as (active & Hcalc).
  destruct (PlaylistManager._cache_expiry self) as [expiry|] eqn:He.
  - destruct (datetime_lt now expiry) eqn:Hlt.
    + destruct (PlaylistManager._active_playlist_cache self
                  !! strftime_HM (dtime now)) as [cached|] eqn:Hc.
      * left. exists cached, expiry. repeat split; try assumption; reflexivity.
      * right. exists active. rewrite Hcalc. split; reflexivity.
    + right. exists active. rewrite Hcalc. split; reflexivity.
  - right. exists active. rewrite Hcalc. split; reflexivity.
Qed.

(** C6, as amended. When the cache is coherent with the present playlists
    (as it is when empty, and stays across calls), and one minute can be
    added to the timestamp, [determine_active_playlist] returns what
    [_calculate_active_playlist] returns, leaves the playlists as they
    are and the cache coherent; a repeated call with the same timestamp
    and a call after clearing the cache return the same result. *)
Theorem determine_active_playlist_coherent
    (self : PlaylistManager.t) (now : datetime) :
  cache_coherent self ->
  is_ok (add_minute now) = true ->
  let after := (PlaylistManager.determine_active_playlist self
                  (ODatetime now)).1 in
  let r := (PlaylistManager.determine_active_playlist self (ODatetime now)).2 in
  r = PlaylistManager._calculate_active_playlist self now
  /\ PlaylistManager.playlists after = PlaylistManager.playlists self
  /\ cache_coherent after
  /\ (PlaylistManager.determine_active_playlist after (ODatetime now)).2 = r
  /\ (PlaylistManager.determine_active_playlist
        (PlaylistManager.invalidate_cache self) (ODatetime now)).2 = r.
Proof.
  intros Hcoh Hadd.
  (* one call from a coherent cache *)
  assert (Hone : forall m,
    cache_coherent m ->
    (PlaylistManager.determine_active_playlist m (ODatetime now)).2
    = PlaylistManager._calculate_active_playlist m now
    /\ PlaylistManager.playlists
         (PlaylistManager.determine_active_playlist m (ODatetime now)).1
       = PlaylistManager.playlists m
    /\ cache_coherent
         (PlaylistManager.determine_active_playlist m (ODatetime now)).1).
  { intros m Hm.
    destruct (determine_cases m now)
      as [(cached & expiry & _ & _ & Hc & ->)|(active & Hcalc & ->)].
    - simpl. split; [symmetry; apply Hm; exact Hc|].
      split; [reflexivity | exact Hm].
    - destruct (add_minute now) as [expiry|]; [|discriminate]. simpl.
      split; [symmetry; exact Hcalc|]. split; [reflexivity|].
      intros now' cached. simpl. intros Hl.
      apply lookup_singleton_Some in Hl as [Hk <-].
      rewrite (calculate_same_playlists m) by reflexivity.
      rewrite <- Hcalc. apply calculate_same_key. symmetry. exact Hk. }
  destruct (Hone self Hcoh) as (Hr & Hp & Hafter).
  cbv zeta. split; [exact Hr|]. split; [exact Hp|]. split; [exact Hafter|].
  split.
  - destruct (Hone _ Hafter) as (Hr' & _ & _). rewrite Hr', Hr.
    apply calculate_same_playlists. exact Hp.
  - destruct (Hone (PlaylistManager.invalidate_cache self)) as (Hr' & _ & _).
    { apply cache_cleared_coherent. apply invalidate_cache_cleared. }
    rewrite Hr', Hr. apply calculate_same_playlists. reflexivity.
Qed.

Lemma add_plugin_unchanged p plugin_data :
  (Playlist.add_plugin p plugin_data).2 <> Ok true ->
  (Playlist.add_plugin p plugin_data).1 = p.
Proof.
  unfold Playlist.add_plugin.
  destruct (PluginInstance.subscript plugin_data "plugin_id") as [v_id|];
    [|reflexivity].
  destruct (PluginInstance.subscript plugin_data "name") as [v_name|];
    [|reflexivity].
  destruct (match v_id, v_name with
            | VStr i, VStr n => Playlist.find_plugin p i n
            | _, _ => None
            end); [reflexivity|].
  destruct (PluginInstance.from_dict plugin_data); [|reflexivity].
  simpl. congruence.
Qed.

(** The manager's own mutators keep the cache coherent: they clear it when
    they change a playlist, and change nothing otherwise. *)
Lemma manager_mutators_coherent self :
  cache_coherent self ->
  (forall name start_time end_time,
     cache_coherent
       (PlaylistManager.add_playlist self name start_time end_time).1)
  /\ (forall name, cache_coherent (PlaylistManager.delete_playlist self name))
  /\ (forall old_name new_name start_time end_time,
        cache_coherent
          (PlaylistManager.update_playlist self old_name new_name start_time
             end_time).1)
  /\ (forall playlist_name plugin_data,
        cache_coherent
          (PlaylistManager.add_plugin_to_playlist self playlist_name
             plugin_data).1).
Proof.
  intros Hcoh. split; [|split; [|split]].
  - intros. apply cache_cleared_coherent. split; reflexivity.
  - intros. apply cache_cleared_coherent. split; reflexivity.
  - intros old_name new_name start_time end_time.
    unfold PlaylistManager.update_playlist.
    destruct (PlaylistManager.get_playlist self old_name) as [i|];
      [|exact Hcoh].
    destruct (PlaylistManager.playlists self !! i); [|exact Hcoh].
    apply cache_cleared_coherent. split; reflexivity.
  - intros playlist_name plugin_data.
    unfold PlaylistManager.add_plugin_to_playlist.
    destruct (PlaylistManager.get_playlist self playlist_name) as [i|];
      [|exact Hcoh].
    destruct (PlaylistManager.playlists self !! i) as [playlist|] eqn:Hl;
      [|exact Hcoh].
    pose proof (add_plugin_unchanged playlist plugin_data) as Hsame.
    destruct (Playlist.add_plugin playlist plugin_data) as [playlist' [[|]|e]];
      simpl in *.
    + apply cache_cleared_coherent. split; reflexivity.
    + rewrite Hsame by discriminate.
      intros now cached Hc. simpl in Hc.
      rewrite <- (Hcoh now cached Hc).
      apply calculate_same_playlists. simpl. apply list_insert_id. exact Hl.
    + rewrite Hsame by discriminate.
      intros now cached Hc. simpl in Hc.
      rewrite <- (Hcoh now cached Hc).
      apply calculate_same_playlists. simpl. apply list_insert_id. exact Hl.
Qed.

(** C7, as amended. [add_playlist] and [delete_playlist] always end with
    the cache cleared; [update_playlist] and [add_plugin_to_playlist] end
    with the cache cleared when they report success, and leave the cache as
    it was when they report failure or raise. *)
Theorem manager_mutators_clear_cache (self : PlaylistManager.t) :
  (forall name start_time end_time,
     cache_cleared
       (PlaylistManager.add_playlist self name start_time end_time).1)
  /\ (forall name, cache_cleared (PlaylistManager.delete_playlist self name))
  /\ (forall old_name new_name start_time end_time,
        let out := PlaylistManager.update_playlist self old_name new_name
                     start_time end_time in
        if out.2 then cache_cleared out.1 else out.1 = self)
  /\ (forall playlist_name plugin_data,
        let out := PlaylistManager.add_plugin_to_playlist self playlist_name
                     plugin_data in
        match out.2 with
        | Ok true => cache_cleared out.1
        | _ =>
            PlaylistManager._active_playlist_cache out.1
            = PlaylistManager._active_playlist_cache self
            /\ PlaylistManager._cache_expiry out.1
               = PlaylistManager._cache_expiry self
        end).
Proof.
  split; [|split; [|split]].
  - intros name start_time end_time. split; reflexivity.
  - intros name. split; reflexivity.
  - intros old_name new_name start_time end_time.
    unfold PlaylistManager.update_playlist.
    destruct (PlaylistManager.get_playlist self old_name) as [i|];
      [|reflexivity].
    destruct (PlaylistManager.playlists self !! i); [|reflexivity].
    split; reflexivity.
  - intros playlist_name plugin_data.
    unfold PlaylistManager.add_plugin_to_playlist.
    destruct (PlaylistManager.get_playlist self playlist_name) as [i|];
      [|split; reflexivity].
    destruct (PlaylistManager.playlists self !! i) as [playlist|];
      [|split; reflexivity].
    destruct (Playlist.add_plugin playlist plugin_data) as [playlist' [[|]|e]];
      simpl; split; reflexivity.
Qed.

(** C8, as amended. Malformed input is answered, not raised: [is_active]
    returns [False] for every text that is not a time of day, whatever the
    playlist; [determine_active_playlist] returns [None], and leaves the
    manager as it is, for every argument without a [strftime] attribute. *)
Theorem malformed_input_is_safe :
  (forall (p : Playlist.t) (t : string),
     is_ok (strptime_HM t) = false -> Playlist.is_active p t = Ok false)
  /\ (forall (self : PlaylistManager.t) (x : pyobj),
        has_strftime x = false ->
        PlaylistManager.determine_active_playlist self x = (self, Ok None)).
Proof.
  split.
  - intros p t Hbad. unfold Playlist.is_active, strptime_HM in *.
    destruct (match_HM t) as [[[h m] [|c rest]]|]; try discriminate;
      reflexivity.
  - intros self x Hx. unfold PlaylistManager.determine_active_playlist.
    rewrite Hx. reflexivity.
Qed.

(** ** Serialization *)

Lemma plugin_to_dict_from_dict (p : PluginInstance.t) :
  PluginInstance.from_dict (PluginInstance.to_dict p) = Ok p.
Proof. destruct p as [i n s r [l|]]; reflexivity. Qed.

Lemma plugins_to_dict_from_dict (ps : list PluginInstance.t) :
  mapM PluginInstance.from_dict (map PluginInstance.to_dict ps) = Ok ps.
Proof.
  induction ps as [|p ps IH]; [reflexivity|].
  cbn [map mapM]. rewrite plugin_to_dict_from_dict, IH. reflexivity.
Qed.

Lemma playlist_to_dict_from_dict (p : Playlist.t) :
  Playlist.from_dict (Playlist.to_dict p) = Ok p.
Proof.
  destruct p as [n s e ps c].
  unfold Playlist.from_dict, Playlist.to_dict, Playlist.init.
  assert (Hps : (if truthy (VList (map PluginInstance.to_dict ps))
                 then mapM PluginInstance.from_dict
                        (map PluginInstance.to_dict ps)
                 else Ok []) = Ok ps).
  { destruct ps as [|p ps]; [reflexivity|].
    change (truthy _) with true. cbv iota.
    apply plugins_to_dict_from_dict. }
  cbn -[mapM map] in Hps.
  destruct c as [c|]; cbn -[mapM map]; rewrite Hps; reflexivity.
Qed.

Lemma playlists_to_dict_from_dict (ps : list Playlist.t) :
  mapM Playlist.from_dict (map Playlist.to_dict ps) = Ok ps.
Proof.
  induction ps as [|p ps IH]; [reflexivity|].
  cbn [map mapM]. rewrite playlist_to_dict_from_dict, IH. reflexivity.
Qed.

(** C9. Deserializing the serialized manager succeeds and gives a manager
    with an equal sequence of playlists: equal names, start and end times,
    cursors and plugin instances (identifier, name, settings, refresh
    policy, latest refresh time).  Its cache starts empty. *)
Theorem to_dict_from_dict_roundtrip (self : PlaylistManager.t) :
  exists self',
    PlaylistManager.from_dict (PlaylistManager.to_dict self) = Ok self'
    /\ PlaylistManager.playlists self' = PlaylistManager.playlists self
    /\ cache_cleared self'.
Proof.
  exists (PlaylistManager.init (PlaylistManager.playlists self)).
  split; [|split; [reflexivity | split; reflexivity]].
  unfold PlaylistManager.from_dict, PlaylistManager.to_dict.
  cbn -[mapM map]. rewrite playlists_to_dict_from_dict. reflexivity.
Qed.

(** * Instances of the statements *)

Lemma is_active_window_witness :
  strptime_HM "23:59" = Ok (mk_time 23 59 0 0)
  /\ strptime_HM (Playlist.start_time eight_to_midnight)
     = Ok (mk_time 8 0 0 0)
  /\ Playlist.end_time eight_to_midnight = "24:00"
  /\ Playlist.is_active eight_to_midnight "23:59" = Ok true
  /\ Playlist.is_active eight_to_midnight "07:59" <> Ok true.
Proof.
  split; [reflexivity|]. split; [reflexivity|]. split; [reflexivity|].
  split.
  - destruct (is_active_window eight_to_midnight "23:59" (mk_time 23 59 0 0)
                (mk_time 8 0 0 0) (mk_time 23 59 59 999999) eq_refl eq_refl
                (or_introl (conj eq_refl eq_refl)))
      as (Hin & _).
    apply Hin; [vm_compute; reflexivity|].
    split; [vm_compute; discriminate | vm_compute; reflexivity].
  - destruct (is_active_window eight_to_midnight "07:59" (mk_time 7 59 0 0)
                (mk_time 8 0 0 0) (mk_time 23 59 59 999999) eq_refl eq_refl
                (or_introl (conj eq_refl eq_refl)))
      as (Hin & _).
    intros Hact. apply Hin in Hact; [|vm_compute; reflexivity].
    destruct Hact as [Hle _]. vm_compute in Hle. apply Hle. reflexivity.
Defined.

Lemma get_next_plugin_total_witness :
  Playlist.plugins three_plugins <> []
  /\ exists self' p,
       Playlist.get_next_plugin three_plugins = (self', Ok p)
       /\ Playlist.current_plugin_index self' = Some 1
       /\ p = new_plugin "plugin2" "Plugin 2".
Proof.
  split; [discriminate|].
  destruct (proj1 (get_next_plugin_total three_plugins))
    as (self' & i & p & Heq & Hc & _ & _ & _ & _ & _ & Hp & Hi);
    [discriminate|].
  exists self', p. split; [exact Heq|].
  vm_compute in Hi. subst i. split; [exact Hc|].
  vm_compute in Hp. injection Hp as <-. reflexivity.
Defined.

Lemma find_plugin_to_refresh_cursor_witness :
  @PluginInstance.should_refresh iso_seconds_lib
    (fresh_plugin "plugin1" "Plugin 1") (on_2024_01_01 12 10 0) = Ok false
  /\ @Playlist.find_plugin_to_refresh iso_seconds_lib three_plugins
       (on_2024_01_01 12 10 0) true
     = (three_plugins, Ok (Some (fresh_plugin "plugin1" "Plugin 1")))
  /\ exists self',
       @Playlist.find_plugin_to_refresh iso_seconds_lib three_plugins
         (on_2024_01_01 12 10 0) false
       = (self', Ok (Some (new_plugin "plugin2" "Plugin 2")))
       /\ Playlist.current_plugin_index self' = Some 1.
Proof.
  split; [reflexivity|]. split.
  - apply (proj1 (proj2
             (@find_plugin_to_refresh_cursor iso_seconds_lib three_plugins
                (on_2024_01_01 12 10 0) true))
             (fresh_plugin "plugin1" "Plugin 1") false).
    + exists 0. split; [reflexivity|]. split; [simpl; lia | reflexivity].
    + reflexivity.
    + reflexivity.
  - destruct (proj1 (proj2 (proj2
                (@find_plugin_to_refresh_cursor iso_seconds_lib three_plugins
                   (on_2024_01_01 12 10 0) false)))
                0%nat (new_plugin "plugin2" "Plugin 2") true)
      as (self' & Heq & Hc & _).
    + intros q (c & Hc & _ & Hq). injection Hc as <-.
      vm_compute in Hq. injection Hq as <-. split; reflexivity.
    + simpl. lia.
    + reflexivity.
    + reflexivity.
    + reflexivity.
    + intros j q Hj. lia.
    + exists self'. split; [exact Heq | exact Hc].
Defined.

Lemma should_refresh_due_witness :
  @PluginInstance.get_latest_refresh_dt iso_seconds_lib daily_plugin
  = Ok (Some (on_2024_01_01 12 0 0))
  /\ @PluginInstance.should_refresh iso_seconds_lib daily_plugin
       (on_2024_01_01 12 30 0) = Ok true.
Proof.
  split; [reflexivity|].
  destruct (@should_refresh_due iso_seconds_lib daily_plugin
              (on_2024_01_01 12 30 0) (Some (on_2024_01_01 12 0 0)))
    as (b & Hb & Hiff).
  - reflexivity.
  - intros v Hv. vm_compute in Hv. injection Hv as <-.
    exists 86400. split; reflexivity.
  - intros v Hv. vm_compute in Hv. injection Hv as <-.
    exists "13:00". split; reflexivity.
  - rewrite Hb. f_equal. apply Hiff. right.
    exists (on_2024_01_01 12 0 0). split; [reflexivity|]. right.
    exists "13:00", (mk_time 13 0 0 0).
    split; [reflexivity|]. split; [reflexivity|]. left. reflexivity.
Defined.

Lemma determine_active_playlist_coherent_witness :
  cache_coherent one_playlist
  /\ is_ok (add_minute (on_2024_01_01 12 0 0)) = true
  /\ (PlaylistManager.determine_active_playlist one_playlist
        (ODatetime (on_2024_01_01 12 0 0))).2
     = PlaylistManager._calculate_active_playlist one_playlist
         (on_2024_01_01 12 0 0).
Proof.
  assert (Hcoh : cache_coherent one_playlist).
  { intros now cached Hl. vm_compute in Hl. discriminate. }
  split; [exact Hcoh|]. split; [reflexivity|].
  apply (determine_active_playlist_coherent one_playlist
           (on_2024_01_01 12 0 0) Hcoh eq_refl).
Defined.

Lemma malformed_input_is_safe_witness :
  is_ok (strptime_HM "25:00") = false
  /\ Playlist.is_active all_day "25:00" = Ok false
  /\ PlaylistManager.determine_active_playlist primed (OStr "not a datetime")
     = (primed, Ok None).
Proof.
  split; [reflexivity|]. split.
  - apply (proj1 malformed_input_is_safe). reflexivity.
  - apply (proj2 malformed_input_is_safe). reflexivity.
Defined.

(** * Where the code departs from the specification *)

(** Against C2 as stated: with the interval set to 0 an hour has passed
    since the last refresh, which is at least 0 seconds, and
    [should_refresh] returns [False]. *)
Lemma should_refresh_zero_interval :
  @PluginInstance.get_latest_refresh_dt iso_seconds_lib zero_interval_plugin
  = Ok (Some (on_2024_01_01 12 0 0))
  /\ dict_get "interval" (PluginInstance.refresh zero_interval_plugin)
     = Some (VInt 0)
  /\ 0 * 1000000
     <= datetime_sub (on_2024_01_01 13 0 0) (on_2024_01_01 12 0 0)
  /\ @PluginInstance.should_refresh iso_seconds_lib zero_interval_plugin
       (on_2024_01_01 13 0 0) = Ok false.
Proof.
  split; [reflexivity|]. split; [reflexivity|].
  split; [vm_compute; discriminate | reflexivity].
Qed.

(** C5 on cross-midnight windows.  The priority of "22:00"-"06:00", a
    window of 480 minutes, is -960; and at 08:30, with the 60 minute window
    "08:00"-"09:00" and the 840 minute window "20:00"-"10:00" both active,
    resolution returns the wider one, whose priority is -600. *)
Theorem priority_of_cross_midnight_window :
  Playlist.get_priority night_shift = Ok (-960)
  /\ Playlist.get_priority breakfast = Ok 60
  /\ Playlist.get_priority overnight = Ok (-600)
  /\ Playlist.is_active breakfast "08:30" = Ok true
  /\ Playlist.is_active overnight "08:30" = Ok true
  /\ PlaylistManager._calculate_active_playlist
       (PlaylistManager.init [breakfast; overnight]) (on_2024_01_01 8 30 0)
     = Ok (Some 1%nat).
Proof. repeat split; vm_compute; reflexivity. Qed.

(** Against C6 as stated: after the only plugin of the cached playlist is
    deleted, a call within the cached minute still returns that playlist,
    and the uncached computation returns [None]. *)
Lemma determine_active_playlist_stale :
  (PlaylistManager.determine_active_playlist emptied
     (ODatetime (on_2024_01_01 12 0 30))).2 = Ok (Some 0%nat)
  /\ PlaylistManager._calculate_active_playlist emptied
       (on_2024_01_01 12 0 30) = Ok None
  /\ Playlist.plugins <$> PlaylistManager.playlists emptied !! 0%nat
     = Some [].
Proof. repeat split; vm_compute; reflexivity. Qed.

(** Against C7 as stated: a failed [add_plugin_to_playlist] (no playlist of
    that name) and a [delete_plugin] on a playlist both leave the filled
    cache in place. *)
Lemma cache_survives_mutation :
  PlaylistManager._cache_expiry primed = Some (on_2024_01_01 12 1 0)
  /\ PlaylistManager._cache_expiry
       (PlaylistManager.add_plugin_to_playlist primed "Missing"
          (PluginInstance.to_dict (new_plugin "p" "P"))).1
     = Some (on_2024_01_01 12 1 0)
  /\ (Playlist.delete_plugin all_day "clock" "Clock").2 = true
  /\ PlaylistManager._cache_expiry emptied = Some (on_2024_01_01 12 1 0)
  /\ PlaylistManager._active_playlist_cache emptied !! "12:00"
     = Some (Some 0%nat).
Proof. repeat split; vm_compute; reflexivity. Qed.

(** Against C3 as stated: the cursor is set and valid and the override
    holds, but the last refresh time of the plugin at the cursor is not
    ISO text, so [should_refresh] raises [ValueError] and the call raises
    it instead of returning the plugin. *)
Lemma find_plugin_to_refresh_raises :
  Playlist.current_plugin_index unreadable_playlist = Some 0
  /\ Playlist.plugins unreadable_playlist !! 0%nat = Some unreadable_plugin
  /\ @Playlist.find_plugin_to_refresh iso_seconds_lib unreadable_playlist
       (on_2024_01_01 12 10 0) true
     = (unreadable_playlist, Raise ValueError).
Proof. repeat split; vm_compute; reflexivity. Qed.

(** Against C8 as stated: a [datetime.time], which has no calendar part,
    has [strftime], and the call raises [TypeError], from the addition of
    a minute on an empty cache and from the comparison with the expiry on
    a filled one. *)
Lemma determine_active_playlist_time_raises :
  has_strftime (OTime (mk_time 12 0 0 0)) = true
  /\ (PlaylistManager.determine_active_playlist one_playlist
        (OTime (mk_time 12 0 0 0))).2 = Raise TypeError
  /\ (PlaylistManager.determine_active_playlist primed
        (OTime (mk_time 12 0 0 0))).2 = Raise TypeError.
Proof. repeat split; vm_compute; reflexivity. Qed.

(** * Further properties of the module *)

(** ** Times of day *)

Lemma strptime_HM_raises s e : strptime_HM s = Raise e -> e = ValueError.
Proof.
  unfold strptime_HM.
  destruct (match_HM s) as [[[h m] [|c r]]|]; intros [=]; congruence.
Qed.

Lemma end_instant_raises p e :
  Playlist.end_instant p = Raise e -> e = ValueError.
Proof.
  unfold Playlist.end_instant. destruct (String.eqb _ _); [discriminate|].
  apply strptime_HM_raises.
Qed.

(** All 1440 minutes of the day, checked by evaluation. *)
Lemma minute_roundtrip_all :
  forallb (fun h => forallb (minute_roundtrip h) (seq 0 60)) (seq 0 24) = true.
Proof. vm_compute. reflexivity. Qed.

(** X1. What [strftime("%H:%M")] prints for a valid time of day,
    [strptime] reads back as that hour and minute. *)
Theorem strptime_strftime_roundtrip (t : dt_time) :
  valid_time t ->
  strptime_HM (strftime_HM t) = Ok (mk_time (hour t) (minute t) 0 0).
Proof.
  intros (Hh & Hm & _).
  pose proof minute_roundtrip_all as Hall.
  rewrite forallb_forall in Hall.
  specialize (Hall (Z.to_nat (hour t))).
  rewrite forallb_forall in Hall.
  assert (Hinh : In (Z.to_nat (hour t)) (seq 0 24)) by (apply in_seq; lia).
  assert (Hinm : In (Z.to_nat (minute t)) (seq 0 60)) by (apply in_seq; lia).
  specialize (Hall Hinh (Z.to_nat (minute t)) Hinm).
  unfold minute_roundtrip in Hall. rewrite !Z2Nat.id in Hall by lia.
  change (strftime_HM (mk_time (hour t) (minute t) 0 0))
    with (strftime_HM t) in Hall.
  destruct (strptime_HM (strftime_HM t)) as [[h m s u]|]; [|discriminate].
  simpl in Hall. rewrite !andb_true_iff, !Z.eqb_eq in Hall.
  destruct Hall as (((-> & ->) & ->) & ->). reflexivity.
Qed.

(** X2. [is_active] never raises, and a playlist whose own start or end
    time is malformed is inactive at every time. *)
Theorem is_active_fails_closed (p : Playlist.t) (t : string) :
  (exists b, Playlist.is_active p t = Ok b)
  /\ (is_ok (strptime_HM (Playlist.start_time p)) = false
      \/ is_ok (Playlist.end_instant p) = false ->
      Playlist.is_active p t = Ok false).
Proof.
  unfold Playlist.is_active.
  destruct (strptime_HM t) as [c|ec] eqn:Hc; simpl.
  2:{ apply strptime_HM_raises in Hc as ->. simpl.
      split; [eexists; reflexivity | reflexivity]. }
  destruct (strptime_HM (Playlist.start_time p)) as [s|es] eqn:Hs; simpl.
  2:{ apply strptime_HM_raises in Hs as ->. simpl.
      split; [eexists; reflexivity | reflexivity]. }
  destruct (Playlist.end_instant p) as [e|ee] eqn:He; simpl.
  2:{ apply end_instant_raises in He as ->. simpl.
      split; [eexists; reflexivity | reflexivity]. }
  split.
  - destruct (time_gt s e); eexists; reflexivity.
  - intros [H|H]; discriminate.
Qed.

Lemma end_instant_of_parsed p e :
  strptime_HM (Playlist.end_time p) = Ok e -> Playlist.end_instant p = Ok e.
Proof.
  intros He. unfold Playlist.end_instant.
  destruct (String.eqb_spec (Playlist.end_time p) "24:00") as [E|_];
    [|exact He].
  rewrite E in He. vm_compute in He. discriminate.
Qed.

(** X3. A window whose start and end are the same time of day is never
    active. *)
Theorem is_active_empty_window (p : Playlist.t) (t : string) (s : dt_time) :
  strptime_HM (Playlist.start_time p) = Ok s ->
  strptime_HM (Playlist.end_time p) = Ok s ->
  Playlist.is_active p t = Ok false.
Proof.
  intros Hs He.
  destruct (strptime_HM t) as [c|ec] eqn:Hc.
  - rewrite (is_active_parsed p t c s s Hc Hs (end_instant_of_parsed _ _ He)).
    f_equal. rewrite Z.ltb_irrefl.
    destruct (Z.leb_spec (time_us s) (time_us c));
      destruct (Z.ltb_spec (time_us c) (time_us s)); try reflexivity; lia.
  - unfold Playlist.is_active. rewrite Hc.
    apply strptime_HM_raises in Hc as ->. reflexivity.
Qed.

(** X4. Two playlists with swapped start and end times, the times being
    different, split the day: at every well-formed time exactly one of
    them is active. *)
Theorem is_active_swapped_window (p q : Playlist.t) (t : string)
    (c s e : dt_time) :
  strptime_HM t = Ok c ->
  strptime_HM (Playlist.start_time p) = Ok s ->
  strptime_HM (Playlist.end_time p) = Ok e ->
  Playlist.start_time q = Playlist.end_time p ->
  Playlist.end_time q = Playlist.start_time p ->
  time_us s <> time_us e ->
  exists b, Playlist.is_active p t = Ok b
            /\ Playlist.is_active q t = Ok (negb b).
Proof.
  intros Hc Hs He Hqs Hqe Hne.
  assert (Hs' : strptime_HM (Playlist.start_time q) = Ok e)
    by (rewrite Hqs; exact He).
  assert (He' : strptime_HM (Playlist.end_time q) = Ok s)
    by (rewrite Hqe; exact Hs).
  rewrite (is_active_parsed p t c s e Hc Hs (end_instant_of_parsed _ _ He)).
  rewrite (is_active_parsed q t c e s Hc Hs' (end_instant_of_parsed _ _ He')).
  eexists. split; [reflexivity|]. f_equal.
  destruct (Z.ltb_spec (time_us e) (time_us s));
    destruct (Z.ltb_spec (time_us s) (time_us e));
    destruct (Z.leb_spec (time_us s) (time_us c));
    destruct (Z.ltb_spec (time_us c) (time_us e));
    destruct (Z.leb_spec (time_us e) (time_us c));
    destruct (Z.ltb_spec (time_us c) (time_us s));
    try reflexivity; lia.
Qed.

(** X5. [get_priority] returns exactly for the playlists whose window
    [is_active] can read, with a value from -1439 to 1440 that is not
    negative when the start is not after the end; for any other playlist
    it raises [ValueError]. *)
Theorem get_priority_defined (p : Playlist.t) :
  (forall s e,
     strptime_HM (Playlist.start_time p) = Ok s ->
     Playlist.end_instant p = Ok e ->
     exists k, Playlist.get_priority p = Ok k
               /\ -1439 <= k <= 1440
               /\ (time_us s <= time_us e -> 0 <= k))
  /\ (is_ok (strptime_HM (Playlist.start_time p)) = false
      \/ is_ok (Playlist.end_instant p) = false ->
      Playlist.get_priority p = Raise ValueError).
Proof.
  split.
  - intros s e Hs He.
    pose proof (strptime_HM_range _ _ Hs) as (Hh & Hm & Hsec & Hus).
    destruct (get_priority_minutes p s Hs) as [H24 Hother].
    unfold Playlist.end_instant in He.
    destruct (String.eqb_spec (Playlist.end_time p) "24:00") as [E|E].
    + eexists. split; [apply H24; exact E|]. lia.
    + pose proof (strptime_HM_range _ _ He) as (Hh' & Hm' & Hsec' & Hus').
      eexists. split; [apply (Hother e E He)|]. split; [lia|].
      unfold time_us. rewrite Hsec, Hus, Hsec', Hus'. lia.
  - unfold Playlist.get_priority, Playlist.get_time_range_minutes,
      strptime_HM_datetime, Playlist.end_instant.
    destruct (strptime_HM (Playlist.start_time p)) as [s|es] eqn:Hs; simpl.
    2:{ intros _. apply strptime_HM_raises in Hs as ->. reflexivity. }
    intros [H|H]; [discriminate|].
    destruct (String.eqb (Playlist.end_time p) "24:00"); [discriminate|].
    simpl.
    destruct (strptime_HM (Playlist.end_time p)) as [e|ee] eqn:He;
      [discriminate|].
    apply strptime_HM_raises in He as ->. reflexivity.
Qed.

(** ** Refresh records *)

(** X6. Deserializing a serialized [RefreshInfo] succeeds.  The result is
    the record with a falsy [playlist] or [plugin_instance] replaced by
    [None]; it serializes to the same dictionary; and it is the record
    itself when those two attributes are [None] or truthy. *)
Theorem refresh_info_roundtrip (r : RefreshInfo.t) :
  let keep (v : value) := if truthy v then v else VNone in
  let r' := RefreshInfo.mk (RefreshInfo.refresh_time r)
              (RefreshInfo.image_hash r) (RefreshInfo.refresh_type r)
              (RefreshInfo.plugin_id r) (keep (RefreshInfo.playlist r))
              (keep (RefreshInfo.plugin_instance r)) in
  RefreshInfo.from_dict (RefreshInfo.to_dict r) = Ok r'
  /\ RefreshInfo.to_dict r' = RefreshInfo.to_dict r
  /\ ((truthy (RefreshInfo.playlist r) = true
       \/ RefreshInfo.playlist r = VNone) ->
      (truthy (RefreshInfo.plugin_instance r) = true
       \/ RefreshInfo.plugin_instance r = VNone) ->
      r' = r).
Proof.
  destruct r as [tm hs ty id pl inst]. cbv zeta. simpl.
  split; [|split].
  - unfold RefreshInfo.from_dict, RefreshInfo.to_dict. simpl.
    destruct (truthy pl), (truthy inst); reflexivity.
  - unfold RefreshInfo.to_dict. simpl.
    destruct (truthy pl) eqn:Hp, (truthy inst) eqn:Hi; simpl;
      rewrite ?Hp, ?Hi; reflexivity.
  - intros [Hp| ->] [Hi| ->]; simpl; rewrite ?Hp, ?Hi; reflexivity.
Qed.

(** ** The manager's interval test *)

Lemma datetime_sub_mono (a b l : datetime) :
  valid_time (dtime a) -> valid_time (dtime b) ->
  datetime_lt b a = false ->
  datetime_sub a l <= datetime_sub b l.
Proof.
  intros Va Vb Hle. unfold datetime_lt in Hle. unfold datetime_sub.
  assert (Ba : 0 <= time_us (dtime a) < 86400000000)
    by (unfold valid_time, time_us in *; lia).
  assert (Bb : 0 <= time_us (dtime b) < 86400000000)
    by (unfold valid_time, time_us in *; lia).
  destruct (Z.compare_spec (ordinal b) (ordinal a)) as [E|E|E];
    [|discriminate|lia].
  rewrite E.
  destruct (time_lt (dtime b) (dtime a)) eqn:Hlt; [discriminate|].
  assert (~ time_us (dtime b) < time_us (dtime a)).
  { intros Hc. apply (time_lt_us _ _ Vb Va) in Hc. congruence. }
  lia.
Qed.

(** X7. The manager's [should_refresh] is due when no refresh is recorded,
    and once it is due for a recorded refresh and an interval it stays due
    at every later time. *)
Theorem manager_should_refresh_monotone
    (latest_refresh : option datetime) (interval_seconds : value)
    (current_time later : datetime) :
  valid_time (dtime current_time) -> valid_time (dtime later) ->
  datetime_lt later current_time = false ->
  PlaylistManager.should_refresh latest_refresh interval_seconds current_time
  = Ok true ->
  PlaylistManager.should_refresh latest_refresh interval_seconds later
  = Ok true
  /\ PlaylistManager.should_refresh None interval_seconds later = Ok true.
Proof.
  intros Vc Vl Hle Hdue. split; [|reflexivity].
  unfold PlaylistManager.should_refresh in *.
  destruct latest_refresh as [l|]; [|reflexivity].
  destruct (timedelta_seconds interval_seconds) as [td|]; [|discriminate].
  simpl in *. injection Hdue as Hdue. apply Z.leb_le in Hdue.
  f_equal. apply Z.leb_le.
  pose proof (datetime_sub_mono current_time later l Vc Vl Hle). lia.
Qed.

(** ** Missing keys *)

(** X8. Deserialization raises [KeyError] when a required key is missing:
    one of [plugin_id], [name], [plugin_settings], [refresh] for a plugin
    instance, one of [name], [start_time], [end_time], [plugins] for a
    playlist.  A manager dictionary without [playlists] gives a manager
    without playlists. *)
Theorem from_dict_missing_key (d : dict) :
  (dict_get "plugin_id" d = None \/ dict_get "name" d = None
   \/ dict_get "plugin_settings" d = None \/ dict_get "refresh" d = None ->
   PluginInstance.from_dict (VDict d) = Raise KeyError)
  /\ (dict_get "name" d = None \/ dict_get "start_time" d = None
      \/ dict_get "end_time" d = None \/ dict_get "plugins" d = None ->
      Playlist.from_dict (VDict d) = Raise KeyError)
  /\ (dict_get "playlists" d = None ->
      PlaylistManager.from_dict (VDict d) = Ok (PlaylistManager.init [])).
Proof.
  split; [|split].
  - unfold PluginInstance.from_dict, PluginInstance.subscript.
    intros Hmiss.
    destruct (dict_get "plugin_id" d); [|reflexivity].
    destruct (dict_get "name" d); [|reflexivity].
    destruct (dict_get "plugin_settings" d); [|reflexivity].
    destruct (dict_get "refresh" d); [|reflexivity].
    destruct Hmiss as [H|[H|[H|H]]]; discriminate.
  - unfold Playlist.from_dict, PluginInstance.subscript.
    intros Hmiss.
    destruct (dict_get "name" d); [|reflexivity].
    destruct (dict_get "start_time" d); [|reflexivity].
    destruct (dict_get "end_time" d); [|reflexivity].
    destruct (dict_get "plugins" d); [|reflexivity].
    destruct Hmiss as [H|[H|[H|H]]]; discriminate.
  - intros Hmiss. unfold PlaylistManager.from_dict. rewrite Hmiss.
    reflexivity.
Qed.

(** ** Image paths *)

Lemma no_space_append a b :
  no_space (String.append a b) = no_space a && no_space b.
Proof.
  induction a as [|c a IH]; [reflexivity|]. simpl. rewrite IH.
  rewrite andb_assoc. reflexivity.
Qed.

Lemma no_space_replace s :
  no_space (PluginInstance.replace_char " " "_" s) = true.
Proof.
  induction s as [|c s IH]; [reflexivity|]. simpl. rewrite IH.
  destruct (Ascii.eqb c " ") eqn:E; [reflexivity|]. rewrite E. reflexivity.
Qed.

(** X9. The image path of a plugin instance whose [plugin_id] has no
    space has no space either, whatever the instance name, and it depends
    on the name only up to reading spaces as underscores. *)
Theorem get_image_path_no_space (p q : PluginInstance.t) :
  (no_space (PluginInstance.plugin_id p) = true ->
   no_space (PluginInstance.get_image_path p) = true)
  /\ (PluginInstance.plugin_id p = PluginInstance.plugin_id q ->
      PluginInstance.replace_char " " "_" (PluginInstance.name p)
      = PluginInstance.replace_char " " "_" (PluginInstance.name q) ->
      PluginInstance.get_image_path p = PluginInstance.get_image_path q).
Proof.
  split.
  - intros Hid. unfold PluginInstance.get_image_path.
    rewrite !no_space_append, Hid, no_space_replace. reflexivity.
  - intros Hid Hname. unfold PluginInstance.get_image_path.
    rewrite Hid, Hname. reflexivity.
Qed.

(** ** Editing the plugins of a playlist *)

Lemma find_none_iff {A} (f : A -> bool) (l : list A) :
  List.find f l = None <-> forall x, x ∈ l -> f x = false.
Proof.
  induction l as [|y l IH]; simpl.
  - split; [intros _ x Hx; inversion Hx | reflexivity].
  - destruct (f y) eqn:Hy.
    + split; [discriminate|]. intros Hall.
      rewrite (Hall y) in Hy by left. discriminate.
    + rewrite IH. split.
      * intros Hall x Hx. apply elem_of_cons in Hx as [->|Hx]; auto.
      * intros Hall x Hx. apply Hall. right. exact Hx.
Qed.

Lemma find_some_matches {A} (f : A -> bool) (l : list A) x :
  List.find f l = Some x -> x ∈ l /\ f x = true.
Proof.
  intros Hf. apply List.find_some in Hf as [Hin Hx].
  split; [apply list_elem_of_In; exact Hin | exact Hx].
Qed.

Lemma matches_identity plugin_id name p :
  Playlist.matches plugin_id name p = true <-> identity p = (plugin_id, name).
Proof.
  unfold Playlist.matches, identity.
  rewrite andb_true_iff, !String.eqb_eq. split.
  - intros [-> ->]. reflexivity.
  - intros [= -> ->]. split; reflexivity.
Qed.

Lemma from_dict_identity data p :
  PluginInstance.from_dict data = Ok p ->
  PluginInstance.subscript data "plugin_id"
  = Ok (VStr (PluginInstance.plugin_id p))
  /\ PluginInstance.subscript data "name" = Ok (VStr (PluginInstance.name p)).
Proof.
  unfold PluginInstance.from_dict.
  destruct (PluginInstance.subscript data "plugin_id") as [v_id|]; [|discriminate].
  destruct (PluginInstance.subscript data "name") as [v_name|]; [|discriminate].
  destruct (PluginInstance.subscript data "plugin_settings"); [|discriminate].
  destruct (PluginInstance.subscript data "refresh") as [v_r|]; [|discriminate].
  destruct (PluginInstance.get data "latest_refresh_time") as [v_l|];
    [|discriminate].
  simpl.
  destruct v_id; try discriminate. destruct v_name; try discriminate.
  destruct v_r; try discriminate. simpl.
  destruct (PluginInstance.as_opt_str v_l); [|discriminate]. simpl.
  intros [= <-]. split; reflexivity.
Qed.

Lemma find_app_last {A} (f : A -> bool) (l : list A) x :
  List.find f l = None -> f x = true -> List.find f (l ++ [x])%list = Some x.
Proof.
  induction l as [|y l IH]; simpl; intros Hl Hx.
  - rewrite Hx. reflexivity.
  - destruct (f y); [discriminate|]. apply IH; assumption.
Qed.

(** The plugin [add_plugin] adds is the one [find_plugin] finds. *)
Lemma add_plugin_finds_new self self' plugin_data :
  Playlist.add_plugin self plugin_data = (self', Ok true) ->
  exists plugin,
    PluginInstance.from_dict plugin_data = Ok plugin
    /\ Playlist.find_plugin self' (PluginInstance.plugin_id plugin)
         (PluginInstance.name plugin) = Some plugin.
Proof.
  unfold Playlist.add_plugin. intros Hadd.
  destruct (PluginInstance.from_dict plugin_data) as [plugin|e] eqn:Hfrom.
  2:{ destruct (PluginInstance.subscript plugin_data "plugin_id");
        [|discriminate].
      destruct (PluginInstance.subscript plugin_data "name"); [|discriminate].
      destruct (match _ with VStr _ => _ | _ => None end); discriminate. }
  destruct (from_dict_identity _ _ Hfrom) as [Hid Hname].
  rewrite Hid, Hname in Hadd.
  destruct (Playlist.find_plugin self (PluginInstance.plugin_id plugin)
              (PluginInstance.name plugin)) eqn:Hfind; [discriminate|].
  injection Hadd as <-. exists plugin. split; [reflexivity|].
  unfold Playlist.find_plugin. simpl. apply find_app_last; [exact Hfind|].
  apply matches_identity. reflexivity.
Qed.

(** X10. When [add_plugin] adds, the new instance is what [from_dict]
    reads from the data, it is appended after the plugins present, no
    plugin present had its identity, [find_plugin] now finds it, the
    cursor is untouched, and identities that were unique stay unique. *)
Theorem add_plugin_appends (self self' : Playlist.t) (plugin_data : value) :
  Playlist.add_plugin self plugin_data = (self', Ok true) ->
  exists plugin,
    PluginInstance.from_dict plugin_data = Ok plugin
    /\ Playlist.plugins self' = (Playlist.plugins self ++ [plugin])%list
    /\ Playlist.current_plugin_index self'
       = Playlist.current_plugin_index self
    /\ Playlist.find_plugin self (PluginInstance.plugin_id plugin)
         (PluginInstance.name plugin) = None
    /\ Playlist.find_plugin self' (PluginInstance.plugin_id plugin)
         (PluginInstance.name plugin) = Some plugin
    /\ (NoDup (identity <$> Playlist.plugins self) ->
        NoDup (identity <$> Playlist.plugins self')).
Proof.
  unfold Playlist.add_plugin. intros Hadd.
  destruct (PluginInstance.from_dict plugin_data) as [plugin|e] eqn:Hfrom.
  2:{ destruct (PluginInstance.subscript plugin_data "plugin_id");
        [|discriminate].
      destruct (PluginInstance.subscript plugin_data "name"); [|discriminate].
      destruct (match _ with VStr _ => _ | _ => None end); discriminate. }
  destruct (from_dict_identity _ _ Hfrom) as [Hid Hname].
  rewrite Hid, Hname in Hadd.
  destruct (Playlist.find_plugin self (PluginInstance.plugin_id plugin)
              (PluginInstance.name plugin)) eqn:Hfind; [discriminate|].
  injection Hadd as <-. exists plugin.
  split; [reflexivity|]. split; [reflexivity|]. split; [reflexivity|].
  split; [exact Hfind|].
  unfold Playlist.find_plugin in Hfind.
  pose proof (proj1 (find_none_iff _ _) Hfind) as Hnone.
  split.
  - unfold Playlist.find_plugin. simpl.
    assert (Hgen : forall l,
      (forall x, x ∈ l ->
         Playlist.matches (PluginInstance.plugin_id plugin)
           (PluginInstance.name plugin) x = false) ->
      List.find (Playlist.matches (PluginInstance.plugin_id plugin)
                   (PluginInstance.name plugin)) (l ++ [plugin])%list
      = Some plugin).
    { induction l as [|y l IH]; intros Hl; simpl.
      - unfold Playlist.matches. rewrite !String.eqb_refl. reflexivity.
      - rewrite (Hl y) by left. apply IH. intros x Hx. apply Hl. right.
        exact Hx. }
    apply Hgen. exact Hnone.
  - intros Hnd. simpl. rewrite fmap_app. apply NoDup_app.
    split; [exact Hnd|]. split; [|apply NoDup_singleton].
    intros k Hk Hk'. apply list_elem_of_fmap in Hk as (x & -> & Hx).
    apply list_elem_of_singleton in Hk'.
    specialize (Hnone x Hx).
    assert (Hm : Playlist.matches (PluginInstance.plugin_id plugin)
                   (PluginInstance.name plugin) x = true)
      by (apply matches_identity; exact Hk').
    congruence.
Qed.

Lemma length_filter_all {A} (f : A -> bool) (l : list A) :
  length (List.filter f l) = length l <-> forall x, x ∈ l -> f x = true.
Proof.
  induction l as [|y l IH]; simpl.
  - split; [intros _ x Hx; inversion Hx | reflexivity].
  - pose proof (List.filter_length_le f l) as Hle.
    destruct (f y) eqn:Hy; simpl.
    + split.
      * intros Hlen x Hx. apply elem_of_cons in Hx as [->|Hx]; [exact Hy|].
        apply IH; [lia | exact Hx].
      * intros Hall. f_equal. apply IH. intros x Hx. apply Hall. right.
        exact Hx.
    + split; [lia|]. intros Hall. rewrite (Hall y) in Hy by left.
      discriminate.
Qed.

(** X11. After [delete_plugin] no plugin with the given identity is left;
    the plugins of every other identity are found as before; the call
    returns [True] exactly when there was such a plugin; the cursor is
    left as it was. *)
Theorem delete_plugin_removes (self : Playlist.t) (plugin_id name : string) :
  let out := Playlist.delete_plugin self plugin_id name in
  Playlist.find_plugin out.1 plugin_id name = None
  /\ (forall plugin_id' name',
        (plugin_id', name') <> (plugin_id, name) ->
        Playlist.find_plugin out.1 plugin_id' name'
        = Playlist.find_plugin self plugin_id' name')
  /\ (out.2 = true <-> Playlist.find_plugin self plugin_id name <> None)
  /\ Playlist.current_plugin_index out.1 = Playlist.current_plugin_index self.
Proof.
  cbv zeta. unfold Playlist.delete_plugin, Playlist.find_plugin.
  set (keep := fun p => negb (Playlist.matches plugin_id name p)).
  assert (Hfst : forall b b' : bool,
            (if b then (Playlist.set_plugins self
                          (List.filter keep (Playlist.plugins self)), b')
             else (Playlist.set_plugins self
                     (List.filter keep (Playlist.plugins self)), negb b')).1
            = Playlist.set_plugins self
                (List.filter keep (Playlist.plugins self)))
    by (intros [|] b'; reflexivity).
  split; [|split; [|split]].
  - destruct (_ =? _)%nat; simpl; apply find_none_iff; intros x Hx;
      apply list_elem_of_In, filter_In in Hx as [_ Hx]; unfold keep in Hx;
      destruct (Playlist.matches plugin_id name x); simpl in Hx; congruence.
  - intros plugin_id' name' Hne.
    assert (Hgen : forall l,
      List.find (Playlist.matches plugin_id' name') (List.filter keep l)
      = List.find (Playlist.matches plugin_id' name') l).
    { induction l as [|y l IH]; [reflexivity|]. simpl.
      destruct (keep y) eqn:Hk; simpl.
      - rewrite IH. reflexivity.
      - rewrite IH. unfold keep in Hk. apply negb_false_iff in Hk.
        destruct (Playlist.matches plugin_id' name' y) eqn:Hm; [|reflexivity].
        apply matches_identity in Hk. apply matches_identity in Hm.
        congruence. }
    destruct (_ =? _)%nat; simpl; apply Hgen.
  - simpl.
    destruct (Nat.eqb_spec
                (length (List.filter keep (Playlist.plugins self)))
                (length (Playlist.plugins self))) as [Hlen|Hlen]; simpl.
    + split; [discriminate|]. intros Hfound. exfalso. apply Hfound.
      apply find_none_iff. intros x Hx.
      pose proof (proj1 (length_filter_all keep _) Hlen x Hx) as Hk.
      unfold keep in Hk. apply negb_true_iff in Hk. exact Hk.
    + split; [|reflexivity]. intros _ Hnone. apply Hlen.
      apply length_filter_all. intros x Hx.
      pose proof (proj1 (find_none_iff _ _) Hnone x Hx) as Hk.
      unfold keep. rewrite Hk. reflexivity.
  - destruct (_ =? _)%nat; reflexivity.
Qed.

Lemma update_keeps_identity (updated_data : dict) : forall p p',
  dict_get "plugin_id" updated_data = None ->
  dict_get "name" updated_data = None ->
  PluginInstance.update p updated_data = Some p' ->
  identity p' = identity p.
Proof.
  induction updated_data as [|[key v] rest IH]; intros p p' Hid Hname;
    cbn [PluginInstance.update].
  - intros [= <-]. reflexivity.
  - cbn [dict_get] in Hid, Hname.
    destruct (String.eqb_spec "plugin_id" key) as [E1|N1]; [discriminate|].
    destruct (String.eqb_spec "name" key) as [E2|N2]; [discriminate|].
    destruct (PluginInstance.setattr p key v) as [p1|] eqn:Hset;
      [|discriminate].
    intros Hup. rewrite (IH p1 p' Hid Hname Hup).
    unfold PluginInstance.setattr in Hset.
    destruct (String.eqb_spec key "plugin_id") as [E|_]; [congruence|].
    destruct (String.eqb_spec key "name") as [E|_]; [congruence|].
    destruct (String.eqb key "settings");
      [injection Hset as <-; reflexivity|].
    destruct (String.eqb key "refresh");
      [destruct v; try discriminate; injection Hset as <-; reflexivity|].
    destruct (String.eqb key "latest_refresh_time");
      [destruct v; try discriminate; injection Hset as <-; reflexivity|].
    discriminate.
Qed.

Lemma find_index_lookup {A} (f : A -> bool) (l : list A) i :
  find_index f l = Some i -> exists x, l !! i = Some x /\ f x = true.
Proof.
  revert i. induction l as [|y l IH]; intros i; simpl; [discriminate|].
  destruct (f y) eqn:Hy.
  - intros [= <-]. exists y. split; [reflexivity | exact Hy].
  - destruct (find_index f l) as [j|]; [|discriminate].
    intros [= <-]. apply (IH j eq_refl).
Qed.

Lemma find_index_none {A} (f : A -> bool) (l : list A) :
  find_index f l = None <-> List.find f l = None.
Proof.
  induction l as [|y l IH]; simpl; [tauto|].
  destruct (f y); [split; discriminate|].
  destruct (find_index f l) as [j|]; simpl.
  - split; [discriminate|]. intros Hn. apply IH in Hn. discriminate.
  - split; [intros _; apply IH; reflexivity | reflexivity].
Qed.

(** X12. [update_plugin] returns [False] and changes nothing when no
    plugin has the identity.  When it returns [True] for data that sets
    declared attributes other than [plugin_id] and [name], to values of
    their declared types, the playlist keeps its number of plugins, their
    identities in order, and its cursor. *)
Theorem update_plugin_keeps_identities (self : Playlist.t)
    (plugin_id instance_name : string) (updated_data : dict) :
  (Playlist.find_plugin self plugin_id instance_name = None ->
   Playlist.update_plugin self plugin_id instance_name updated_data
   = Some (self, false))
  /\ (forall self',
        dict_get "plugin_id" updated_data = None ->
        dict_get "name" updated_data = None ->
        Playlist.update_plugin self plugin_id instance_name updated_data
        = Some (self', true) ->
        identity <$> Playlist.plugins self'
        = identity <$> Playlist.plugins self
        /\ Playlist.current_plugin_index self'
           = Playlist.current_plugin_index self
        /\ Playlist.find_plugin self plugin_id instance_name <> None).
Proof.
  unfold Playlist.update_plugin, Playlist.find_plugin. split.
  - intros Hnone. apply find_index_none in Hnone. rewrite Hnone. reflexivity.
  - intros self' Hid Hname.
    destruct (find_index _ _) as [i|] eqn:Hi; [|discriminate].
    destruct (find_index_lookup _ _ _ Hi) as (x & Hx & Hm).
    rewrite Hx.
    destruct (PluginInstance.update x updated_data) as [x'|] eqn:Hup;
      [|discriminate].
    intros [= <-]. simpl. split; [|split; [reflexivity|]].
    + rewrite list_fmap_insert.
      rewrite (update_keeps_identity _ _ _ Hid Hname Hup).
      apply list_insert_id. rewrite list_lookup_fmap, Hx. reflexivity.
    + intros Hnone. apply find_index_none in Hnone. congruence.
Qed.

(** ** Looking up plugins across playlists *)

Lemma find_plugin_in_none playlists plugin_id instance :
  PlaylistManager.find_plugin_in playlists plugin_id instance = None <->
  forall playlist, playlist ∈ playlists ->
    Playlist.find_plugin playlist plugin_id instance = None.
Proof.
  induction playlists as [|pl l IH]; simpl.
  - split; [intros _ x Hx; inversion Hx | reflexivity].
  - destruct (Playlist.find_plugin pl plugin_id instance) eqn:Hpl.
    + split; [discriminate|]. intros Hall.
      rewrite (Hall pl) in Hpl by left. discriminate.
    + rewrite IH. split.
      * intros Hall x Hx. apply elem_of_cons in Hx as [->|Hx]; auto.
      * intros Hall x Hx. apply Hall. right. exact Hx.
Qed.

Lemma find_plugin_in_some playlists plugin_id instance plugin :
  PlaylistManager.find_plugin_in playlists plugin_id instance = Some plugin ->
  exists playlist, playlist ∈ playlists
    /\ Playlist.find_plugin playlist plugin_id instance = Some plugin.
Proof.
  induction playlists as [|pl l IH]; simpl; [discriminate|].
  destruct (Playlist.find_plugin pl plugin_id instance) eqn:Hpl.
  - intros [= <-]. exists pl. split; [left | exact Hpl].
  - intros Hl. destruct (IH Hl) as (pl' & Hin & Hf).
    exists pl'. split; [right; exact Hin | exact Hf].
Qed.

(** X13. The manager's [find_plugin] returns a plugin of one of its
    playlists with the identity asked for, and returns [None] only when no
    playlist has such a plugin. *)
Theorem manager_find_plugin_sound (self : PlaylistManager.t)
    (plugin_id instance : string) :
  match PlaylistManager.find_plugin self plugin_id instance with
  | Some plugin =>
      identity plugin = (plugin_id, instance)
      /\ exists playlist,
           playlist ∈ PlaylistManager.playlists self
           /\ plugin ∈ Playlist.plugins playlist
  | None =>
      forall playlist plugin,
        playlist ∈ PlaylistManager.playlists self ->
        plugin ∈ Playlist.plugins playlist ->
        identity plugin <> (plugin_id, instance)
  end.
Proof.
  unfold PlaylistManager.find_plugin.
  destruct (PlaylistManager.find_plugin_in _ _ _) as [plugin|] eqn:Hf.
  - apply find_plugin_in_some in Hf as (pl & Hin & Hf).
    apply find_some_matches in Hf as [Hp Hm].
    split; [apply matches_identity; exact Hm|].
    exists pl. split; assumption.
  - intros pl plugin Hin Hp Hid.
    pose proof (proj1 (find_plugin_in_none _ _ _) Hf pl Hin) as Hnone.
    pose proof (proj1 (find_none_iff _ _) Hnone plugin Hp) as Hm.
    apply matches_identity in Hid. congruence.
Qed.

(** ** Editing the playlists of a manager *)

Lemma qualifies_no_plugins current_time p :
  Playlist.plugins p = [] -> PlaylistManager.qualifies current_time p = false.
Proof.
  intros Hp. unfold PlaylistManager.qualifies. rewrite Hp.
  destruct (Playlist.is_active p current_time) as [[|]|]; reflexivity.
Qed.

(** A playlist without plugins at the end of the list does not change the
    resolution. *)
Lemma calculate_app_no_plugins l p c e c' e' now :
  Playlist.plugins p = [] ->
  PlaylistManager._calculate_active_playlist
    (PlaylistManager.mk (l ++ [p]) c e) now
  = PlaylistManager._calculate_active_playlist (PlaylistManager.mk l c' e') now.
Proof.
  intros Hp. unfold PlaylistManager._calculate_active_playlist. simpl.
  assert (Hfilter :
    List.filter (fun ip : nat * Playlist.t =>
                   PlaylistManager.qualifies (strftime_HM (dtime now)) ip.2)
      (imap (fun i p => (i, p)) (l ++ [p]))
    = List.filter (fun ip : nat * Playlist.t =>
                     PlaylistManager.qualifies (strftime_HM (dtime now)) ip.2)
        (imap (fun i p => (i, p)) l)).
  { rewrite imap_app, List.filter_app. simpl.
    rewrite (qualifies_no_plugins _ p Hp). apply app_nil_r. }
  rewrite Hfilter.
  destruct l as [|p0 l]; [reflexivity|]. reflexivity.
Qed.

(** X14. A playlist just added has no plugins, so [add_playlist] and
    [add_default_playlist] never change which playlist resolution returns;
    [add_default_playlist] leaves the cache in place, and a coherent cache
    stays coherent. *)
Theorem adding_playlist_keeps_resolution (self : PlaylistManager.t)
    (now : datetime) :
  (forall name start_time end_time,
     PlaylistManager._calculate_active_playlist
       (PlaylistManager.add_playlist self name start_time end_time).1 now
     = PlaylistManager._calculate_active_playlist self now)
  /\ PlaylistManager._calculate_active_playlist
       (PlaylistManager.add_default_playlist self) now
     = PlaylistManager._calculate_active_playlist self now
  /\ PlaylistManager._active_playlist_cache
       (PlaylistManager.add_default_playlist self)
     = PlaylistManager._active_playlist_cache self
  /\ (cache_coherent self ->
      cache_coherent (PlaylistManager.add_default_playlist self)).
Proof.
  destruct self as [l c e].
  split; [|split; [|split]].
  - intros name start_time end_time. simpl.
    apply calculate_app_no_plugins. reflexivity.
  - apply calculate_app_no_plugins. reflexivity.
  - reflexivity.
  - intros Hcoh now' cached Hc.
    unfold PlaylistManager.add_default_playlist.
    rewrite (calculate_app_no_plugins l _ _ _ c e) by reflexivity.
    apply Hcoh. exact Hc.
Qed.

Lemma find_index_filter_none {A} (f g : A -> bool) (l : list A) :
  (forall x, g x = true -> f x = false) ->
  find_index f (List.filter g l) = None.
Proof.
  intros Hfg. induction l as [|y l IH]; [reflexivity|]. simpl.
  destruct (g y) eqn:Hg; [|exact IH]. simpl.
  rewrite (Hfg y Hg), IH. reflexivity.
Qed.

(** X15. After [add_playlist] the name is found by [get_playlist], and
    when it was not in use the playlist found is the new one: it has the
    times given, ["00:00"] and ["24:00"] standing in for a missing or empty
    one, no plugins and no cursor. *)
Theorem add_playlist_found (self : PlaylistManager.t) (name : string)
    (start_time end_time : option string) :
  let after := (PlaylistManager.add_playlist self name start_time end_time).1 in
  let or_default (o : option string) (d : string) :=
    match o with
    | Some s => if String.eqb s EmptyString then d else s
    | None => d
    end in
  (exists i, PlaylistManager.get_playlist after name = Some i)
  /\ (PlaylistManager.get_playlist self name = None ->
      exists i,
        PlaylistManager.get_playlist after name = Some i
        /\ PlaylistManager.playlists after !! i
           = Some (Playlist.mk name (or_default start_time "00:00")
                     (or_default end_time "24:00") [] None)).
Proof.
  cbv zeta. unfold PlaylistManager.add_playlist, PlaylistManager.get_playlist.
  simpl.
  set (new := Playlist.mk name _ _ [] None).
  set (f := fun p => String.eqb (Playlist.name p) name).
  assert (Hgen : forall l,
    exists i, find_index f (l ++ [new])%list = Some i
      /\ (find_index f l = None -> (l ++ [new])%list !! i = Some new)).
  { induction l as [|y l IH]; simpl.
    - unfold f at 1. simpl. rewrite String.eqb_refl.
      exists 0%nat. split; reflexivity.
    - destruct (f y) eqn:Hy.
      + exists 0%nat. split; [reflexivity | discriminate].
      + destruct IH as (i & -> & Hnew). exists (S i).
        split; [reflexivity|]. simpl.
        destruct (find_index f l); [discriminate|]. intros _.
        apply Hnew. reflexivity. }
  destruct (Hgen (PlaylistManager.playlists self)) as (i & Hi & Hnew).
  split; [exists i; exact Hi|].
  intros Hnone. exists i. split; [exact Hi | apply Hnew; exact Hnone].
Qed.

(** X16. After [delete_playlist] no playlist has the name, the names left
    are the other names in their order, and the plugins found across the
    manager are those of the playlists left. *)
Theorem delete_playlist_removes (self : PlaylistManager.t) (name : string) :
  let after := PlaylistManager.delete_playlist self name in
  PlaylistManager.get_playlist after name = None
  /\ PlaylistManager.get_playlist_names after
     = List.filter (fun n => negb (String.eqb n name))
         (PlaylistManager.get_playlist_names self)
  /\ (forall p, p ∈ PlaylistManager.playlists after <->
                p ∈ PlaylistManager.playlists self /\ Playlist.name p <> name).
Proof.
  cbv zeta. unfold PlaylistManager.delete_playlist,
    PlaylistManager.get_playlist, PlaylistManager.get_playlist_names.
  simpl. split; [|split].
  - apply find_index_filter_none. intros x Hx.
    apply negb_true_iff in Hx. exact Hx.
  - induction (PlaylistManager.playlists self) as [|y l IH]; [reflexivity|].
    simpl. destruct (String.eqb (Playlist.name y) name); simpl;
      rewrite IH; reflexivity.
  - intros p. rewrite list_elem_of_In, filter_In, <- list_elem_of_In.
    rewrite negb_true_iff, String.eqb_neq. reflexivity.
Qed.

Lemma find_plugin_in_same_plugins l l' plugin_id instance :
  Playlist.plugins <$> l = Playlist.plugins <$> l' ->
  PlaylistManager.find_plugin_in l plugin_id instance
  = PlaylistManager.find_plugin_in l' plugin_id instance.
Proof.
  revert l'. induction l as [|y l IH]; intros [|y' l']; try discriminate;
    [reflexivity|].
  intros [= Hy Hl]. simpl. unfold Playlist.find_plugin. rewrite Hy.
  rewrite (IH l' Hl). reflexivity.
Qed.

(** X17. [update_playlist] returns [True] exactly when a playlist has the
    old name.  It keeps the number of playlists, the plugins and the
    cursor of each, so a plugin found before is found after; the first
    playlist with the old name gets the new name and times. *)
Theorem update_playlist_keeps_plugins (self : PlaylistManager.t)
    (old_name new_name start_time end_time : string) :
  let out := PlaylistManager.update_playlist self old_name new_name
               start_time end_time in
  (out.2 = true <-> PlaylistManager.get_playlist self old_name <> None)
  /\ Playlist.plugins <$> PlaylistManager.playlists out.1
     = Playlist.plugins <$> PlaylistManager.playlists self
  /\ Playlist.current_plugin_index <$> PlaylistManager.playlists out.1
     = Playlist.current_plugin_index <$> PlaylistManager.playlists self
  /\ (forall plugin_id instance,
        PlaylistManager.find_plugin out.1 plugin_id instance
        = PlaylistManager.find_plugin self plugin_id instance)
  /\ (forall i, PlaylistManager.get_playlist self old_name = Some i ->
        exists p, PlaylistManager.playlists out.1 !! i = Some p
                  /\ Playlist.name p = new_name
                  /\ Playlist.start_time p = start_time
                  /\ Playlist.end_time p = end_time).
Proof.
  cbv zeta. unfold PlaylistManager.update_playlist.
  destruct (PlaylistManager.get_playlist self old_name) as [i|] eqn:Hi.
  2:{ simpl. split; [split; [discriminate | congruence]|].
      split; [reflexivity|]. split; [reflexivity|].
      split; [reflexivity | discriminate]. }
  destruct (find_index_lookup _ _ _ Hi) as (p & Hp & _).
  rewrite Hp. simpl.
  assert (Hplugins :
    Playlist.plugins <$>
      <[i := Playlist.mk new_name start_time end_time (Playlist.plugins p)
               (Playlist.current_plugin_index p)]>
        (PlaylistManager.playlists self)
    = Playlist.plugins <$> PlaylistManager.playlists self).
  { rewrite list_fmap_insert. apply list_insert_id.
    rewrite list_lookup_fmap, Hp. reflexivity. }
  split; [split; [discriminate | reflexivity]|].
  split; [exact Hplugins|]. split.
  { rewrite list_fmap_insert. apply list_insert_id.
    rewrite list_lookup_fmap, Hp. reflexivity. }
  split.
  { intros plugin_id instance. unfold PlaylistManager.find_plugin. simpl.
    apply find_plugin_in_same_plugins. exact Hplugins. }
  intros j [= <-]. eexists. split.
  { apply list_lookup_insert_eq. eapply lookup_lt_Some. exact Hp. }
  simpl. repeat split.
Qed.

(** X18. When [add_plugin_to_playlist] returns [True], the manager's
    [find_plugin] finds a plugin with the identity given in the data, the
    number of playlists is as before, and every playlist but the one named
    is untouched. *)
Theorem add_plugin_to_playlist_found (self self' : PlaylistManager.t)
    (playlist_name : string) (plugin_data : value) :
  PlaylistManager.add_plugin_to_playlist self playlist_name plugin_data
  = (self', Ok true) ->
  exists i new found,
    PlaylistManager.get_playlist self playlist_name = Some i
    /\ PluginInstance.from_dict plugin_data = Ok new
    /\ PlaylistManager.find_plugin self' (PluginInstance.plugin_id new)
         (PluginInstance.name new) = Some found
    /\ identity found = identity new
    /\ length (PlaylistManager.playlists self')
       = length (PlaylistManager.playlists self)
    /\ (forall j, j <> i ->
          PlaylistManager.playlists self' !! j
          = PlaylistManager.playlists self !! j).
Proof.
  unfold PlaylistManager.add_plugin_to_playlist.
  destruct (PlaylistManager.get_playlist self playlist_name) as [i|] eqn:Hi;
    [|discriminate].
  destruct (PlaylistManager.playlists self !! i) as [pl|] eqn:Hpl;
    [|discriminate].
  destruct (Playlist.add_plugin pl plugin_data) as [pl' r] eqn:Hadd.
  destruct r as [[|]|e]; intros [= <-].
  destruct (add_plugin_finds_new pl pl' plugin_data Hadd)
    as (new & Hfrom & Hfound).
  destruct (PlaylistManager.find_plugin
              (PlaylistManager.invalidate_cache
                 (PlaylistManager.set_playlist self i pl'))
              (PluginInstance.plugin_id new) (PluginInstance.name new))
    as [found|] eqn:Hf.
  - exists i, new, found. split; [reflexivity|]. split; [exact Hfrom|].
    split; [exact Hf|].
    unfold PlaylistManager.find_plugin in Hf.
    apply find_plugin_in_some in Hf as (pl0 & _ & Hf).
    apply find_some_matches in Hf as [_ Hm].
    apply matches_identity in Hm. split; [exact Hm|].
    simpl. split; [apply length_insert|].
    intros j Hj. apply list_lookup_insert_ne. congruence.
  - exfalso. unfold PlaylistManager.find_plugin in Hf.
    pose proof (proj1 (find_plugin_in_none _ _ _) Hf pl') as Hnone.
    rewrite Hnone in Hfound; [discriminate|].
    simpl. eapply list_elem_of_lookup_2.
    apply list_lookup_insert_eq. eapply lookup_lt_Some. exact Hpl.
Qed.

(** ** Moving the cursor *)

Lemma set_cursor_same (p : Playlist.t) c :
  Playlist.current_plugin_index p = c ->
  Playlist.set_current_plugin_index p c = p.
Proof. destruct p. simpl. intros ->. reflexivity. Qed.

Lemma get_next_plugin_step (p : Playlist.t) :
  Playlist.plugins p <> [] ->
  let n := Z.of_nat (length (Playlist.plugins p)) in
  let i := match Playlist.current_plugin_index p with
           | Some c => (c + 1) mod n
           | None => 0
           end in
  Playlist.get_next_plugin p
  = (Playlist.set_current_plugin_index p (Some i),
     py_index (Playlist.plugins p) i).
Proof.
  intros Hne. cbv zeta. unfold Playlist.get_next_plugin.
  destruct (Playlist.current_plugin_index p) as [c|]; [|reflexivity].
  destruct (Z.eqb_spec (Z.of_nat (length (Playlist.plugins p))) 0) as [E|_];
    [|reflexivity].
  destruct (Playlist.plugins p); [congruence | simpl in E; lia].
Qed.

(** X19. On a playlist with [n] plugins, [k + 1] calls of
    [get_next_plugin] leave the cursor at [(start + k) mod n], where
    [start] is the cursor plus one, or 0 for an unset cursor, and change
    nothing else; the call number [k + 1] returns the plugin at that index;
    [n] successive calls reach every index; and from a valid cursor [n]
    calls give back the playlist as it was. *)
Theorem get_next_plugin_cycles (p : Playlist.t) :
  Playlist.plugins p <> [] ->
  let n := Z.of_nat (length (Playlist.plugins p)) in
  let start := match Playlist.current_plugin_index p with
               | Some c => c + 1
               | None => 0
               end in
  (forall k : nat,
     advance (S k) p
     = Playlist.set_current_plugin_index p
         (Some ((start + Z.of_nat k) mod n))
     /\ exists x,
          (Playlist.get_next_plugin (advance k p)).2 = Ok x
          /\ Playlist.plugins p !! Z.to_nat ((start + Z.of_nat k) mod n)
             = Some x)
  /\ (forall i, 0 <= i < n ->
        exists k : nat, (k < length (Playlist.plugins p))%nat
                        /\ (start + Z.of_nat k) mod n = i)
  /\ (forall c, Playlist.current_plugin_index p = Some c -> 0 <= c < n ->
        advance (length (Playlist.plugins p)) p = p).
Proof.
  intros Hne. cbv zeta.
  set (n := Z.of_nat (length (Playlist.plugins p))).
  set (start := match Playlist.current_plugin_index p with
                | Some c => c + 1
                | None => 0
                end).
  assert (Hn : 0 < n).
  { subst n. destruct (Playlist.plugins p); [congruence | simpl; lia]. }
  assert (Hstep : forall k : nat,
    Playlist.get_next_plugin (advance k p)
    = (Playlist.set_current_plugin_index p
         (Some ((start + Z.of_nat k) mod n)),
       py_index (Playlist.plugins p) ((start + Z.of_nat k) mod n))).
  { induction k as [|k IH].
    - simpl advance. rewrite (get_next_plugin_step p Hne). fold n.
      rewrite Z.add_0_r. subst start.
      destruct (Playlist.current_plugin_index p); [reflexivity|].
      rewrite Z.mod_0_l by lia. reflexivity.
    - simpl advance. rewrite IH. cbn [fst].
      rewrite get_next_plugin_step by exact Hne.
      cbn [Playlist.set_current_plugin_index Playlist.plugins
           Playlist.current_plugin_index Playlist.name Playlist.start_time
           Playlist.end_time]. fold n.
      replace (((start + Z.of_nat k) mod n + 1) mod n)
        with ((start + Z.of_nat (S k)) mod n); [reflexivity|].
      rewrite Zplus_mod_idemp_l. f_equal. lia. }
  split; [|split].
  - intros k. split.
    + simpl advance. rewrite Hstep. reflexivity.
    + rewrite Hstep. cbn [snd].
      destruct (py_index_in_range (Playlist.plugins p)
                  ((start + Z.of_nat k) mod n)) as (x & Hx & Hi).
      { apply Z.mod_pos_bound. exact Hn. }
      exists x. split; assumption.
  - intros i Hi. exists (Z.to_nat ((i - start) mod n)).
    pose proof (Z.mod_pos_bound (i - start) n Hn) as Hb.
    split; [subst n; lia|].
    rewrite Z2Nat.id by lia. rewrite Zplus_mod_idemp_r.
    replace (start + (i - start)) with i by lia.
    apply Z.mod_small. exact Hi.
  - intros c Hc Hr.
    destruct (length (Playlist.plugins p)) as [|k] eqn:Hlen; [subst n; lia|].
    simpl advance. rewrite Hstep. cbn [fst].
    apply set_cursor_same. rewrite Hc. f_equal. subst start. rewrite Hc.
    replace (c + 1 + Z.of_nat k) with (c + 1 * n) by (subst n; lia).
    rewrite Z.mod_add by lia. symmetry. apply Z.mod_small. exact Hr.
Qed.

Section SeekTwice.
Context `{DatetimeLib}.

(** The playlist after [find_plugin_to_refresh]: as before, or with the
    cursor on the plugin returned. *)
Lemma find_plugin_to_refresh_moves (self : Playlist.t) (current_dt : datetime)
    (global_should_refresh : bool) :
  (Playlist.find_plugin_to_refresh self current_dt global_should_refresh).1
  = self
  \/ exists index p,
       Playlist.find_plugin_to_refresh self current_dt global_should_refresh
       = (Playlist.set_current_plugin_index self (Some index), Ok (Some p))
       /\ 0 <= index < Z.of_nat (length (Playlist.plugins self))
       /\ Playlist.plugins self !! Z.to_nat index = Some p
       /\ Playlist.needs_refresh current_dt global_should_refresh p = Ok true.
Proof.
  destruct (decide (Playlist.plugins self = [])) as [Hnil|Hne].
  { left. unfold Playlist.find_plugin_to_refresh. rewrite Hnil. reflexivity. }
  assert (Hn : 0 < Z.of_nat (length (Playlist.plugins self))).
  { destruct (Playlist.plugins self); [congruence | simpl; lia]. }
  assert (Hscan :
    (Playlist.scan_all self current_dt global_should_refresh).1 = self
    \/ exists index p,
         Playlist.scan_all self current_dt global_should_refresh
         = (Playlist.set_current_plugin_index self (Some index), Ok (Some p))
         /\ 0 <= index < Z.of_nat (length (Playlist.plugins self))
         /\ Playlist.plugins self !! Z.to_nat index = Some p
         /\ Playlist.needs_refresh current_dt global_should_refresh p
            = Ok true).
  { unfold Playlist.scan_all.
    destruct (Playlist.scan _ _ _ _ _) as [[[index p]|]|e] eqn:Es;
      [|left; reflexivity..].
    right. exists index, p.
    destruct (scan_inv _ _ _ _ _ _ _ Hn Es) as (Hr & Hl & Hd & _).
    split; [reflexivity|]. split; [exact Hr|]. split; assumption. }
  destruct (find_plugin_to_refresh_unfold self current_dt
              global_should_refresh Hne) as [(p' & _ & ->)|[_ ->]];
    [|exact Hscan].
  destruct (Playlist.needs_refresh current_dt global_should_refresh p')
    as [[|]|e]; [left; reflexivity | exact Hscan | left; reflexivity].
Qed.

(** X20. Seeking twice is seeking once: a second
    [find_plugin_to_refresh] with the same arguments, on the playlist the
    first call left, returns the same plugin (or [None], or raises the
    same) and leaves that playlist as it is. *)
Theorem find_plugin_to_refresh_idempotent (self : Playlist.t)
    (current_dt : datetime) (global_should_refresh : bool) :
  Playlist.find_plugin_to_refresh
    (Playlist.find_plugin_to_refresh self current_dt global_should_refresh).1
    current_dt global_should_refresh
  = Playlist.find_plugin_to_refresh self current_dt global_should_refresh.
Proof.
  destruct (find_plugin_to_refresh_moves self current_dt global_should_refresh)
    as [Hsame|(index & p & Heq & Hr & Hl & Hd)].
  - rewrite Hsame.
    destruct (Playlist.find_plugin_to_refresh self current_dt
                global_should_refresh) as [self' r] eqn:E.
    simpl in Hsame. subst self'. reflexivity.
  - rewrite Heq. cbn [fst].
    set (self' := Playlist.set_current_plugin_index self (Some index)).
    assert (Hne : Playlist.plugins self' <> []).
    { simpl. intros E. rewrite E in Hl. discriminate. }
    destruct (find_plugin_to_refresh_unfold self' current_dt
                global_should_refresh Hne)
      as [(p' & (c & Hc & _ & Hl') & ->)|[Hno _]].
    + simpl in Hc, Hl'. injection Hc as <-. rewrite Hl in Hl'.
      injection Hl' as <-. rewrite Hd. reflexivity.
    + exfalso. apply (Hno p). exists index.
      split; [reflexivity|]. split; [exact Hr | exact Hl].
Qed.
End SeekTwice.

(** ** Resolution does not read the cursor *)

Lemma filter_fmap_commute {A} (g : A -> A) (f : A -> bool) (l : list A) :
  (forall x, f (g x) = f x) ->
  List.filter f (g <$> l) = g <$> List.filter f l.
Proof.
  intros Hfg. induction l as [|y l IH]; [reflexivity|].
  cbn [fmap list_fmap List.filter]. rewrite Hfg.
  destruct (f y); cbn [fmap list_fmap]; rewrite <- IH; reflexivity.
Qed.

Lemma insert_by_key_fmap {A} (g : A -> A) (x : sort_key * A) l :
  insert_by_key (x.1, g x.2) ((fun y => (y.1, g y.2)) <$> l)
  = (fun y => (y.1, g y.2)) <$> insert_by_key x l.
Proof.
  induction l as [|y l IH]; [reflexivity|].
  cbn [fmap list_fmap insert_by_key fst snd].
  destruct (key_lt y.1 x.1); cbn [fmap list_fmap]; [|reflexivity].
  f_equal. exact IH.
Qed.

Lemma sort_by_key_fmap {A} (g : A -> A) (l : list (sort_key * A)) :
  sort_by_key ((fun y => (y.1, g y.2)) <$> l)
  = (fun y => (y.1, g y.2)) <$> sort_by_key l.
Proof.
  induction l as [|y l IH]; [reflexivity|].
  cbn [fmap list_fmap]. unfold sort_by_key in *. cbn [foldr].
  rewrite IH. apply (insert_by_key_fmap g y).
Qed.

Lemma mapM_keyed_drop_cursor (l : list (nat * Playlist.t)) :
  mapM PlaylistManager.keyed (drop_cursor <$> l)
  = (keys <-- mapM PlaylistManager.keyed l ;;
     Ok ((fun y => (y.1, drop_cursor y.2)) <$> keys)).
Proof.
  induction l as [|[i p] l IH]; [reflexivity|].
  cbn [fmap list_fmap mapM]. rewrite IH.
  unfold PlaylistManager.keyed at 1 3. cbn [drop_cursor fst snd].
  change (Playlist.get_priority (without_cursor p))
    with (Playlist.get_priority p).
  destruct (Playlist.get_priority p); [|reflexivity]. cbn [bind].
  destruct (mapM PlaylistManager.keyed l); reflexivity.
Qed.

(** Resolution on the playlists without their cursors. *)
Lemma calculate_without_cursor l c e c' e' now :
  PlaylistManager._calculate_active_playlist
    (PlaylistManager.mk (without_cursor <$> l) c e) now
  = PlaylistManager._calculate_active_playlist (PlaylistManager.mk l c' e') now.
Proof.
  unfold PlaylistManager._calculate_active_playlist.
  cbn [PlaylistManager.playlists].
  destruct l as [|p0 l0]; [reflexivity|].
  cbn [fmap list_fmap].
  change (without_cursor p0 :: (without_cursor <$> l0))
    with (without_cursor <$> (p0 :: l0)).
  assert (Himap : imap (fun i p => (i, p)) (without_cursor <$> (p0 :: l0))
                  = drop_cursor <$> imap (fun i p => (i, p)) (p0 :: l0)).
  { rewrite imap_fmap, fmap_imap. reflexivity. }
  rewrite Himap.
  rewrite (filter_fmap_commute drop_cursor) by reflexivity.
  generalize (List.filter
                (fun ip : nat * Playlist.t =>
                   PlaylistManager.qualifies (strftime_HM (dtime now)) ip.2)
                (imap (fun i p => (i, p)) (p0 :: l0))).
  intros [|first rest]; [reflexivity|].
  cbn [fmap list_fmap].
  change (drop_cursor first :: (drop_cursor <$> rest))
    with (drop_cursor <$> (first :: rest)).
  rewrite mapM_keyed_drop_cursor.
  destruct (mapM PlaylistManager.keyed (first :: rest)) as [keys|err];
    cbn [bind try_except]; [|reflexivity].
  rewrite (sort_by_key_fmap drop_cursor keys).
  destruct (sort_by_key keys) as [|[k [i p]] sorted]; reflexivity.
Qed.

Lemma set_playlist_same_resolution self i p p' now :
  PlaylistManager.playlists self !! i = Some p ->
  without_cursor p' = without_cursor p ->
  PlaylistManager._calculate_active_playlist
    (PlaylistManager.set_playlist self i p') now
  = PlaylistManager._calculate_active_playlist self now.
Proof.
  intros Hl Hsame. destruct self as [l c e]. simpl in Hl.
  unfold PlaylistManager.set_playlist. simpl.
  rewrite <- (calculate_without_cursor (<[i:=p']> l) c e c e).
  rewrite <- (calculate_without_cursor l c e c e).
  f_equal. f_equal.
  rewrite list_fmap_insert, Hsame. apply list_insert_id.
  rewrite list_lookup_fmap, Hl. reflexivity.
Qed.

(** X21. Resolution does not read the cursor.  After
    [find_plugin_to_refresh] or [get_next_plugin] on a playlist of the
    manager, [_calculate_active_playlist] returns what it returned before,
    and a coherent cache is still coherent. *)
Theorem cursor_moves_keep_resolution `{DatetimeLib}
    (self : PlaylistManager.t) (i : nat) (p : Playlist.t)
    (current_dt : datetime) (global_should_refresh : bool) :
  PlaylistManager.playlists self !! i = Some p ->
  let sought :=
    PlaylistManager.set_playlist self i
      (Playlist.find_plugin_to_refresh p current_dt global_should_refresh).1 in
  let advanced :=
    PlaylistManager.set_playlist self i (Playlist.get_next_plugin p).1 in
  (forall now,
     PlaylistManager._calculate_active_playlist sought now
     = PlaylistManager._calculate_active_playlist self now
     /\ PlaylistManager._calculate_active_playlist advanced now
        = PlaylistManager._calculate_active_playlist self now)
  /\ (cache_coherent self -> cache_coherent sought /\ cache_coherent advanced).
Proof.
  intros Hl. cbv zeta.
  assert (Hsought :
    without_cursor
      (Playlist.find_plugin_to_refresh p current_dt global_should_refresh).1
    = without_cursor p).
  { destruct (find_plugin_to_refresh_moves p current_dt global_should_refresh)
      as [->|(index & q & -> & _)]; reflexivity. }
  assert (Hadv : without_cursor (Playlist.get_next_plugin p).1
                 = without_cursor p).
  { unfold Playlist.get_next_plugin.
    destruct (Playlist.current_plugin_index p); [|reflexivity].
    destruct (_ =? 0); reflexivity. }
  split.
  - intros now. split; apply (set_playlist_same_resolution self i p);
      assumption.
  - intros Hcoh. split; intros now cached Hc; simpl in Hc.
    + rewrite (set_playlist_same_resolution self i p) by assumption.
      apply Hcoh. exact Hc.
    + rewrite (set_playlist_same_resolution self i p) by assumption.
      apply Hcoh. exact Hc.
Qed.

(** ** The lifetime of a cache entry *)

Lemma time_of_us (r : Z) :
  0 <= r < 86400000000 ->
  let t := mk_time (r / 3600000000) ((r / 60000000) mod 60)
             ((r / 1000000) mod 60) (r mod 1000000) in
  valid_time t /\ time_us t = r.
Proof.
  intros Hr. cbv zeta. unfold valid_time, time_us.
  cbn [hour minute second microsecond].
  pose proof (Z.div_mod r 1000000 ltac:(lia)) as E1.
  pose proof (Z.mod_pos_bound r 1000000 ltac:(lia)) as B1.
  set (a := r / 1000000) in *.
  assert (Ha : r / 60000000 = a / 60).
  { subst a. rewrite Z.div_div by lia. reflexivity. }
  assert (Hb : r / 3600000000 = a / 60 / 60).
  { subst a. rewrite !Z.div_div by lia. reflexivity. }
  rewrite Ha, Hb.
  pose proof (Z.div_mod a 60 ltac:(lia)) as E2.
  pose proof (Z.mod_pos_bound a 60 ltac:(lia)) as B2.
  set (b := a / 60) in *.
  pose proof (Z.div_mod b 60 ltac:(lia)) as E3.
  pose proof (Z.mod_pos_bound b 60 ltac:(lia)) as B3.
  set (h := b / 60) in *.
  lia.
Qed.

(** The expiry of a new cache entry is after the timestamp. *)
Lemma add_minute_later (now expiry : datetime) :
  valid_time (dtime now) ->
  add_minute now = Ok expiry ->
  datetime_lt now expiry = true.
Proof.
  intros Vn. unfold add_minute.
  destruct (_ && _); [|discriminate]. intros [= <-].
  assert (Bn : 0 <= time_us (dtime now) < 86400000000)
    by (unfold valid_time, time_us in *; lia).
  set (us := time_us (dtime now) + 60000000).
  unfold datetime_lt. simpl. fold us.
  destruct (Z.lt_ge_cases us 86400000000) as [Hsmall|Hbig].
  - rewrite (Z.div_small us) by (subst us; lia).
    rewrite (Z.mod_small us) by (subst us; lia).
    rewrite Z.add_0_r, Z.compare_refl.
    destruct (time_of_us us) as [Vt Ht]; [subst us; lia|].
    apply (time_lt_us _ _ Vn Vt). rewrite Ht. subst us. lia.
  - assert (Hq : us / 86400000000 = 1).
    { symmetry. apply (Z.div_unique us 86400000000 1 (us - 86400000000));
        subst us; lia. }
    rewrite Hq.
    assert (E : (ordinal now ?= ordinal now + 1) = Lt)
      by (apply Z.compare_lt_iff; lia).
    rewrite E. reflexivity.
Qed.

(** X22. A call of [determine_active_playlist] that returns, at a valid
    timestamp, is followed by a cache hit: the same call again returns the
    same result and leaves the manager, cache included, as the first call
    left it. *)
Theorem determine_active_playlist_repeat (self : PlaylistManager.t)
    (now : datetime) :
  valid_time (dtime now) ->
  let out := PlaylistManager.determine_active_playlist self (ODatetime now) in
  is_ok out.2 = true ->
  PlaylistManager.determine_active_playlist out.1 (ODatetime now) = out.
Proof.
  intros Vn. cbv zeta.
  destruct (determine_cases self now)
    as [(cached & expiry & He & Hlt & Hc & Heq)|(active & Hcalc & Heq)].
  - rewrite Heq. simpl. intros _. exact Heq.
  - rewrite Heq. destruct (add_minute now) as [expiry|] eqn:Hadd;
      [|discriminate].
    simpl. intros _.
    unfold PlaylistManager.determine_active_playlist. simpl.
    rewrite (add_minute_later now expiry Vn Hadd).
    rewrite lookup_singleton_eq. reflexivity.
Qed.

(** X23. A cache entry is served only for its own "HH:MM" key and only
    before its expiry: a call at or after the expiry, or with a key the
    cache does not hold, returns what [_calculate_active_playlist]
    returns on the present playlists, and leaves that result as the only
    entry. *)
Theorem determine_active_playlist_expired (self : PlaylistManager.t)
    (now : datetime) :
  is_ok (add_minute now) = true ->
  (forall expiry, PlaylistManager._cache_expiry self = Some expiry ->
                  datetime_lt now expiry = false)
  \/ PlaylistManager._active_playlist_cache self !! strftime_HM (dtime now)
     = None ->
  let out := PlaylistManager.determine_active_playlist self (ODatetime now) in
  out.2 = PlaylistManager._calculate_active_playlist self now
  /\ exists active,
       out.2 = Ok active
       /\ PlaylistManager._active_playlist_cache out.1
          = {[ strftime_HM (dtime now) := active ]}
       /\ exists expiry,
            add_minute now = Ok expiry
            /\ PlaylistManager._cache_expiry out.1 = Some expiry.
Proof.
  intros Hadd Hmiss. cbv zeta.
  destruct (determine_cases self now)
    as [(cached & expiry & He & Hlt & Hc & Heq)|(active & Hcalc & Heq)].
  - exfalso. destruct Hmiss as [Hexp|Hnone].
    + rewrite (Hexp expiry He) in Hlt. discriminate.
    + rewrite Hnone in Hc. discriminate.
  - rewrite Heq. destruct (add_minute now) as [expiry|]; [|discriminate].
    simpl. split; [symmetry; exact Hcalc|].
    exists active. split; [reflexivity|]. split; [reflexivity|].
    exists expiry. split; reflexivity.
Qed.

(** * Instances of the further properties *)

Lemma strptime_strftime_roundtrip_witness :
  valid_time (mk_time 9 5 30 0)
  /\ strptime_HM (strftime_HM (mk_time 9 5 30 0)) = Ok (mk_time 9 5 0 0).
Proof.
  assert (V : valid_time (mk_time 9 5 30 0))
    by (unfold valid_time; simpl; lia).
  split; [exact V|]. apply (strptime_strftime_roundtrip _ V).
Defined.

Lemma is_active_fails_closed_witness :
  is_ok (Playlist.end_instant (Playlist.mk "Bad" "08:00" "25:00" [] None))
  = false
  /\ Playlist.is_active (Playlist.mk "Bad" "08:00" "25:00" [] None) "09:00"
     = Ok false.
Proof.
  split; [reflexivity|].
  apply (proj2 (is_active_fails_closed
                  (Playlist.mk "Bad" "08:00" "25:00" [] None) "09:00")).
  right. reflexivity.
Defined.

Lemma is_active_empty_window_witness :
  strptime_HM (Playlist.start_time never) = Ok (mk_time 8 0 0 0)
  /\ strptime_HM (Playlist.end_time never) = Ok (mk_time 8 0 0 0)
  /\ Playlist.is_active never "08:00" = Ok false.
Proof.
  split; [reflexivity|]. split; [reflexivity|].
  apply (is_active_empty_window never "08:00" (mk_time 8 0 0 0));
    reflexivity.
Defined.

Lemma is_active_swapped_window_witness :
  exists b, Playlist.is_active night_shift "23:30" = Ok b
            /\ Playlist.is_active day_shift "23:30" = Ok (negb b).
Proof.
  apply (is_active_swapped_window night_shift day_shift "23:30"
           (mk_time 23 30 0 0) (mk_time 22 0 0 0) (mk_time 6 0 0 0));
    try reflexivity.
  intros E. vm_compute in E. discriminate.
Defined.

Lemma get_priority_defined_witness :
  strptime_HM (Playlist.start_time day_shift) = Ok (mk_time 6 0 0 0)
  /\ Playlist.end_instant day_shift = Ok (mk_time 22 0 0 0)
  /\ exists k, Playlist.get_priority day_shift = Ok k /\ -1439 <= k <= 1440.
Proof.
  split; [reflexivity|]. split; [reflexivity|].
  destruct (proj1 (get_priority_defined day_shift) (mk_time 6 0 0 0)
              (mk_time 22 0 0 0) eq_refl eq_refl) as (k & Hk & Hr & _).
  exists k. split; assumption.
Defined.

Lemma manager_should_refresh_monotone_witness :
  PlaylistManager.should_refresh (Some (on_2024_01_01 12 0 0)) (VInt 3600)
    (on_2024_01_01 13 0 0) = Ok true
  /\ PlaylistManager.should_refresh (Some (on_2024_01_01 12 0 0)) (VInt 3600)
       (on_2024_01_01 14 0 0) = Ok true.
Proof.
  split; [reflexivity|].
  apply (manager_should_refresh_monotone (Some (on_2024_01_01 12 0 0))
           (VInt 3600) (on_2024_01_01 13 0 0) (on_2024_01_01 14 0 0));
    try reflexivity; unfold valid_time; simpl; lia.
Defined.

Lemma from_dict_missing_key_witness :
  dict_get "name" [("plugin_id", VStr "clock")] = None
  /\ PluginInstance.from_dict (VDict [("plugin_id", VStr "clock")])
     = Raise KeyError.
Proof.
  split; [reflexivity|].
  apply (proj1 (from_dict_missing_key [("plugin_id", VStr "clock")])).
  right. left. reflexivity.
Defined.

Lemma add_plugin_appends_witness :
  Playlist.add_plugin all_day (PluginInstance.to_dict (new_plugin "news" "News"))
  = (all_day_two, Ok true)
  /\ exists plugin,
       Playlist.plugins all_day_two
       = (Playlist.plugins all_day ++ [plugin])%list
       /\ Playlist.find_plugin all_day_two (PluginInstance.plugin_id plugin)
            (PluginInstance.name plugin) = Some plugin.
Proof.
  assert (Hadd : Playlist.add_plugin all_day
                   (PluginInstance.to_dict (new_plugin "news" "News"))
                 = (all_day_two, Ok true)) by reflexivity.
  split; [exact Hadd|].
  destruct (add_plugin_appends all_day all_day_two _ Hadd)
    as (plugin & _ & Happ & _ & _ & Hfind & _).
  exists plugin. split; assumption.
Defined.

Lemma add_plugin_to_playlist_found_witness :
  exists i new found,
    PlaylistManager.get_playlist primed "All Day" = Some i
    /\ PluginInstance.from_dict
         (PluginInstance.to_dict (new_plugin "news" "News")) = Ok new
    /\ PlaylistManager.find_plugin
         (PlaylistManager.init [all_day_two])
         (PluginInstance.plugin_id new) (PluginInstance.name new)
       = Some found.
Proof.
  assert (Hadd : PlaylistManager.add_plugin_to_playlist primed "All Day"
                   (PluginInstance.to_dict (new_plugin "news" "News"))
                 = (PlaylistManager.init [all_day_two], Ok true))
    by (vm_compute; reflexivity).
  destruct (add_plugin_to_playlist_found primed _ "All Day" _ Hadd)
    as (i & new & found & Hi & Hnew & Hfound & _).
  exists i, new, found. split; [exact Hi|]. split; assumption.
Defined.

Lemma get_next_plugin_cycles_witness :
  Playlist.plugins three_plugins <> []
  /\ advance 3 three_plugins = three_plugins.
Proof.
  assert (Hne : Playlist.plugins three_plugins <> []) by discriminate.
  split; [exact Hne|].
  apply (proj2 (proj2 (get_next_plugin_cycles three_plugins Hne)) 0);
    [reflexivity | simpl; lia].
Defined.

Lemma cursor_moves_keep_resolution_witness :
  PlaylistManager.playlists primed !! 0%nat = Some all_day
  /\ PlaylistManager._calculate_active_playlist
       (PlaylistManager.set_playlist primed 0
          (Playlist.get_next_plugin all_day).1) (on_2024_01_01 12 0 30)
     = PlaylistManager._calculate_active_playlist primed
         (on_2024_01_01 12 0 30).
Proof.
  assert (Hl : PlaylistManager.playlists primed !! 0%nat = Some all_day)
    by reflexivity.
  split; [exact Hl|].
  apply (proj1 (@cursor_moves_keep_resolution iso_seconds_lib primed 0%nat
                  all_day (on_2024_01_01 12 0 30) false Hl)).
Defined.

Lemma determine_active_playlist_repeat_witness :
  valid_time (dtime (on_2024_01_01 12 0 0))
  /\ PlaylistManager.determine_active_playlist primed
       (ODatetime (on_2024_01_01 12 0 0))
     = (primed, Ok (Some 0%nat)).
Proof.
  assert (V : valid_time (dtime (on_2024_01_01 12 0 0)))
    by (unfold valid_time; simpl; lia).
  split; [exact V|].
  apply (determine_active_playlist_repeat one_playlist
           (on_2024_01_01 12 0 0) V eq_refl).
Defined.

Lemma determine_active_playlist_expired_witness :
  PlaylistManager._cache_expiry emptied = Some (on_2024_01_01 12 1 0)
  /\ (PlaylistManager.determine_active_playlist emptied
        (ODatetime (on_2024_01_01 12 1 0))).2
     = PlaylistManager._calculate_active_playlist emptied
         (on_2024_01_01 12 1 0).
Proof.
  split; [reflexivity|].
  apply (determine_active_playlist_expired emptied (on_2024_01_01 12 1 0)
           eq_refl).
  left. intros expiry He. vm_compute in He. injection He as <-.
  reflexivity.
Defined.

Lemma refresh_info_roundtrip_witness :
  let r := RefreshInfo.init (VStr "Playlist") (VStr "clock")
             (VStr "2024-01-01T12:00:00") (VStr "ab12") (Some (VStr "All Day"))
             None in
  RefreshInfo.plugin_instance r = VNone
  /\ RefreshInfo.from_dict (RefreshInfo.to_dict r) = Ok r.
Proof.
  cbv zeta. split; [reflexivity|].
  exact (proj1 (refresh_info_roundtrip
                  (RefreshInfo.init (VStr "Playlist") (VStr "clock")
                     (VStr "2024-01-01T12:00:00") (VStr "ab12")
                     (Some (VStr "All Day")) None))).
Defined.

Lemma get_image_path_no_space_witness :
  no_space (PluginInstance.plugin_id (new_plugin "ai_text" "Daily Quote"))
  = true
  /\ no_space (PluginInstance.get_image_path
                 (new_plugin "ai_text" "Daily Quote")) = true.
Proof.
  split; [reflexivity|].
  apply (proj1 (get_image_path_no_space (new_plugin "ai_text" "Daily Quote")
                  (new_plugin "ai_text" "Daily Quote"))).
  reflexivity.
Defined.

Lemma update_plugin_keeps_identities_witness :
  Playlist.update_plugin all_day_two "news" "News"
    [("refresh", VDict [("scheduled", VStr "07:00")])]
  = Some (Playlist.mk "All Day" "00:00" "24:00"
            [new_plugin "clock" "Clock";
             PluginInstance.mk "news" "News" (VDict [])
               [("scheduled", VStr "07:00")] None] None,
          true)
  /\ identity <$> [new_plugin "clock" "Clock";
                   PluginInstance.mk "news" "News" (VDict [])
                     [("scheduled", VStr "07:00")] None]
     = identity <$> Playlist.plugins all_day_two.
Proof.
  split; [reflexivity|].
  apply (proj2 (update_plugin_keeps_identities all_day_two "news" "News"
                  [("refresh", VDict [("scheduled", VStr "07:00")])])
           (Playlist.mk "All Day" "00:00" "24:00"
              [new_plugin "clock" "Clock";
               PluginInstance.mk "news" "News" (VDict [])
                 [("scheduled", VStr "07:00")] None] None));
    reflexivity.
Defined.
